(** * The A2A task client, the OneKey wallet and the trading score

    A shallow embedding of the TypeScript sources
    - [frontend/src/lib/onekeySdkUtils.ts], which holds the helpers of
      the OneKey SDK (lines 1-142), the DeepBook client (lines 143-336)
      and the A2A task client (lines 337-932: envelopes, the decoder of
      server-sent events, the agent-card cache),
    - the hardware wallet [OneKeyHardwareWallet] (the file of that class,
      lines 25-253), and
    - [frontend/src/lib/tradingAnalysis.ts] (the scoring formula), with
      the caller of the client in [frontend/src/lib/apis.ts] and the
      colours of [frontend/src/components/TradingAnalysis.tsx],
    with the properties the specification states about them and further
    properties of the code.  Line
    numbers are those of these files.  What the code writes to the
    console and the HTTP headers it copies are left out: nothing the
    callers get depends on them. *)

From Stdlib Require Import ZArith List String Ascii Bool Lia.
From Stdlib Require Import Floats.SpecFloat.
Import ListNotations.

Set Warnings "-register-all".
Local Open Scope list_scope.
Local Open Scope string_scope.
Local Open Scope Z_scope.

(* ================================================================== *)
(** * JavaScript values *)
(* ================================================================== *)

Module Js.

(** What [JSON.parse] produces.  Strings are sequences of code units below
    256; numbers are the integral ones (request ids, error codes and HTTP
    statuses are all the protocol uses). *)
Inductive JsonValue : Type :=
| JNull
| JBool (b : bool)
| JNum (n : Z)
| JStr (s : string)
| JArr (items : list JsonValue)
| JObj (members : list (string * JsonValue)).

(** A JavaScript value that may also be [undefined]. *)
Definition JsValue : Type := option JsonValue.
Definition undefined : JsValue := None.

(** ToBoolean: what [if (v)], [!v] and [v || w] look at. *)
Definition truthy (v : JsValue) : bool :=
  match v with
  | None => false
  | Some JNull => false
  | Some (JBool b) => b
  | Some (JNum n) => negb (n =? 0)
  | Some (JStr s) => negb (s =? "")%string
  | Some (JArr _) => true
  | Some (JObj _) => true
  end.

(** [a || b] *)
Definition or_else (a b : JsValue) : JsValue := if truthy a then a else b.

Fixpoint assoc (k : string) (ms : list (string * JsonValue)) : JsValue :=
  match ms with
  | [] => None
  | (k', v) :: rest => if (k' =? k)%string then Some v else assoc k rest
  end.

(** [v.k] for a value that is neither [null] nor [undefined], and a key [k]
    that no prototype defines ([jsonrpc], [error], [result], [code],
    [message], [data], [capabilities], ...): an own property of an object,
    [undefined] on arrays and primitives. *)
Definition get (v : JsonValue) (k : string) : JsValue :=
  match v with
  | JObj ms => assoc k ms
  | _ => None
  end.

(** [typeof v === "object" && v !== null] *)
Definition is_object (v : JsonValue) : bool :=
  match v with
  | JObj _ | JArr _ => true
  | _ => false
  end.

(** [obj[k] = v] on the member list: an existing key keeps its place. *)
Fixpoint set_member (k : string) (v : JsonValue) (ms : list (string * JsonValue))
  : list (string * JsonValue) :=
  match ms with
  | [] => [(k, v)]
  | (k', v') :: rest =>
      if (k' =? k)%string then (k, v) :: rest else (k', v') :: set_member k v rest
  end.

(** ** Strings *)

Definition LF : ascii := ascii_of_nat 10.
Definition CR : ascii := ascii_of_nat 13.
Definition QUOTE : ascii := ascii_of_nat 34.

(** [s.startsWith(p)] *)
Fixpoint startsWith (p s : string) : bool :=
  match p with
  | EmptyString => true
  | String a p' =>
      match s with
      | EmptyString => false
      | String b s' => Ascii.eqb a b && startsWith p' s'
      end
  end.

(** [s.substring(n)] *)
Fixpoint substring_from (n : nat) (s : string) : string :=
  match n, s with
  | O, _ => s
  | S n', String _ s' => substring_from n' s'
  | S _, EmptyString => EmptyString
  end.

(** White space and line terminators of ECMAScript among the code units
    below 256: TAB, LF, VT, FF, CR, SP and NBSP. *)
Definition is_space (c : ascii) : bool :=
  let n := nat_of_ascii c in
  ((9 <=? n) && (n <=? 13) || (n =? 32) || (n =? 160))%nat.

Fixpoint trimStart (s : string) : string :=
  match s with
  | EmptyString => EmptyString
  | String c s' => if is_space c then trimStart s' else s
  end.

Fixpoint rev_string (acc s : string) : string :=
  match s with
  | EmptyString => acc
  | String c s' => rev_string (String c acc) s'
  end.

Definition trimEnd (s : string) : string :=
  rev_string "" (trimStart (rev_string "" s)).

(** [s.trim()] *)
Definition trim (s : string) : string := trimEnd (trimStart s).

(** ToString of a non-negative integer, then of an integer. *)
Fixpoint digits_of (fuel : nat) (n : N) (acc : string) : string :=
  match fuel with
  | O => acc
  | S fuel' =>
      let d := ascii_of_N (48 + N.modulo n 10) in
      let q := N.div n 10 in
      if (q =? 0)%N then String d acc else digits_of fuel' q (String d acc)
  end.

Definition string_of_Z (z : Z) : string :=
  match z with
  | Z0 => "0"
  | Zpos p => digits_of (S (Pos.to_nat (Pos.size p))) (Npos p) ""
  | Zneg p => String "-" (digits_of (S (Pos.to_nat (Pos.size p))) (Npos p) "")
  end.

(** The double nearest to a natural number, ties going to the even
    mantissa of 53 bits: the value a number literal has.  [None] beyond
    the largest double, where the literal denotes [Infinity]. *)
Definition nearest_double (a : Z) : option Z :=
  let bits := Z.log2 a + 1 in
  if bits <=? 53 then Some a
  else
    let shift := bits - 53 in
    let q := Z.shiftr a shift in
    let r := a - Z.shiftl q shift in
    let half := Z.shiftl 1 (shift - 1) in
    let q := if (half <? r) || ((r =? half) && Z.odd q) then q + 1 else q in
    let v := Z.shiftl q shift in
    if 2 ^ 1024 <=? v then None else Some v.

(** Number::toString looks for the fewest digits that still denote the
    double [x], a number of [len] digits: the digits [s], from [k] of
    them on, and the number of zeros that follow them.  Of two candidates
    it takes the nearer one, and the even one when they are as near. *)
Fixpoint shortest_digits (fuel : nat) (k len x : Z) : Z * Z :=
  match fuel with
  | O => (x, 0)
  | S fuel' =>
      let e := len - k in
      if e <=? 0 then (x, 0)
      else
        let p := 10 ^ e in
        let s0 := x / p in
        let r := x - s0 * p in
        let s1 := s0 + 1 in
        let denotes s :=
          match nearest_double (s * p) with
          | Some y => y =? x
          | None => false
          end in
        let ok0 := denotes s0 in
        let ok1 := (s1 <? 10 ^ k) && denotes s1 in
        if ok0 && ok1 then
          if 2 * r <? p then (s0, e)
          else if p <? 2 * r then (s1, e)
          else if Z.even s0 then (s0, e) else (s1, e)
        else if ok0 then (s0, e)
        else if ok1 then (s1, e)
        else shortest_digits fuel' (k + 1) len x
  end.

(** Number::toString of the number an integer literal denotes: all its
    digits below 2^53, where every integer is a double; the shortest
    digits and zeros up to 21 digits; the exponent form beyond. *)
Definition Number_toString (n : Z) : string :=
  if Z.abs n <? 2 ^ 53 then string_of_Z n
  else
    match nearest_double (Z.abs n) with
    | None => if n <? 0 then "-Infinity" else "Infinity"
    | Some x =>
        let len := Z.of_nat (String.length (string_of_Z x)) in
        let '(s, e) := shortest_digits 17 1 len x in
        let sign := if n <? 0 then "-" else "" in
        if len <=? 21 then sign ++ string_of_Z (s * 10 ^ e)
        else
          sign
          ++ match string_of_Z s with
             | String d EmptyString => String d EmptyString
             | String d rest => String d ("." ++ rest)
             | EmptyString => EmptyString
             end
          ++ "e+" ++ string_of_Z (len - 1)
    end.

(** ToString, as [String(v)], a template literal and the [Error]
    constructor apply it to a parsed value.  [None] is the TypeError of
    an object that cannot be converted to a primitive value: ToPrimitive
    calls [toString] and then [valueOf] when they are functions; an own
    member [toString] of a parsed object never is one, and
    [Object.prototype.valueOf] returns the object itself.  An object
    without that member prints through [Object.prototype.toString], an
    array through [Array.prototype.join], which prints [null] as the
    empty text and fails when an element does. *)
Fixpoint ToString (v : JsonValue) : option string :=
  match v with
  | JNull => Some "null"
  | JBool true => Some "true"
  | JBool false => Some "false"
  | JNum n => Some (Number_toString n)
  | JStr s => Some s
  | JArr items =>
      (fix join (l : list JsonValue) : option string :=
         let elem x := match x with JNull => Some "" | _ => ToString x end in
         match l with
         | [] => Some ""
         | [x] => elem x
         | x :: rest =>
             match elem x, join rest with
             | Some first, Some others => Some (first ++ "," ++ others)
             | _, _ => None
             end
         end) items
  | JObj ms =>
      match assoc "toString" ms with
      | Some _ => None
      | None => Some "[object Object]"
      end
  end.

(** [s.endsWith(p)] *)
Definition endsWith (p s : string) : bool :=
  startsWith (rev_string "" p) (rev_string "" s).

(** [s.slice(0, -1)] *)
Fixpoint drop_last (s : string) : string :=
  match s with
  | EmptyString => EmptyString
  | String c rest =>
      match rest with
      | EmptyString => EmptyString
      | String _ _ => String c (drop_last rest)
      end
  end.

End Js.

(* ================================================================== *)
(** * The task client: data *)
(* ================================================================== *)

Module A2A.
Import Js.

(** [JSON.parse] and [JSON.stringify] belong to the platform.  The client
    is stated over any implementation of them; [syntax_error_message] is
    the message of the [SyntaxError] the engine throws for a text. *)
Class JsonCodec : Type := {
  JSON_parse : string -> option JsonValue;
  JSON_stringify : JsonValue -> string;
  syntax_error_message : string -> string
}.

(** What axios hands over for an HTTP answer: the status line and the body
    as axios delivers it in [data] (parsed when it is JSON text, the text
    itself as a [JStr] otherwise). *)
Record HttpReply : Type := {
  reply_status : Z;
  reply_statusText : string;
  reply_data : JsonValue
}.

(** The errors the client throws or meets.  [RpcError] is the class of
    lines 376-386; its [data] is whatever the thrower passed. *)
Inductive JsError : Type :=
| RpcError (code : JsValue) (message : string) (data : Thrown)
| PlainError (message : string)
| TypeError (message : string)
| SyntaxError (message : string)
| AxiosError (message : string) (response : option HttpReply)
with Thrown : Type :=
| NoData
| JsonData (v : JsonValue)
| Caught (e : JsError).

(** [error.message] *)
Definition message_of (e : JsError) : string :=
  match e with
  | RpcError _ m _ => m
  | PlainError m => m
  | TypeError m => m
  | SyntaxError m => m
  | AxiosError m _ => m
  end.

(** [error instanceof RpcError] *)
Definition is_RpcError (e : JsError) : bool :=
  match e with
  | RpcError _ _ _ => true
  | _ => false
  end.

(** How a statement, a call or an awaited promise completes. *)
Inductive Completion (A : Type) : Type :=
| Normal (a : A)
| Throw (e : JsError).
Arguments Normal {A} a.
Arguments Throw {A} e.

Definition bind {A B : Type} (c : Completion A) (k : A -> Completion B)
  : Completion B :=
  match c with
  | Normal a => k a
  | Throw e => Throw e
  end.

(** [try { c } catch (e) { handler e }] *)
Definition try_catch {A : Type} (c : Completion A)
  (handler : JsError -> Completion A) : Completion A :=
  match c with
  | Normal a => Normal a
  | Throw e => handler e
  end.

Notation "x <- c ;; k" := (bind c (fun x => k))
  (at level 61, c at next level, right associativity).
Notation "' p <- c ;; k" := (bind c (fun x => let 'p := x in k))
  (at level 61, p pattern, c at next level, right associativity).

(** [String(v)] and a template literal [`${v}`]: the text, or the
    TypeError that ToString throws. *)
Definition template (v : JsonValue) : Completion string :=
  match ToString v with
  | Some text => Normal text
  | None => Throw (TypeError "Cannot convert object to primitive value")
  end.

(** [new RpcError(code, message, data)], lines 376-386: [super(message)]
    stores ToString of a message that is not [undefined], which may
    throw, and leaves the prototype's empty message otherwise. *)
Definition new_RpcError (code message data : JsValue) : Completion JsError :=
  text <- (match message with
           | Some m => template m
           | None => Normal ""
           end) ;;
  Normal (RpcError code text
            (match data with Some d => JsonData d | None => NoData end)).

(** [v.k] where [v] may be [null] or [undefined]: a TypeError then. *)
Definition member (v : JsValue) (k : string) : Completion JsValue :=
  match v with
  | None => Throw (TypeError ("Cannot read properties of undefined (reading '" ++ k ++ "')"))
  | Some JNull => Throw (TypeError ("Cannot read properties of null (reading '" ++ k ++ "')"))
  | Some o => Normal (get o k)
  end.

(** ** Requests and the network *)

Inductive RequestId : Type :=
| IdString (s : string)
| IdNumber (n : Z).

Record JSONRPCRequest : Type := {
  jsonrpc : string;
  id : RequestId;
  method : string;
  params : JsonValue
}.

Inductive Accept : Type := ApplicationJson | TextEventStream.

(** What the network does with a request: an HTTP answer, or no answer at
    all (refused connection, timeout, DNS) with the message axios reports. *)
Inductive NetworkResult : Type :=
| Answers (r : HttpReply)
| Fails (message : string).

(** What the platform and the network answer during one call of a public
    operation: the value [crypto.randomUUID()] would return ([None] when
    there is no such function), the value of [Date.now()], and the
    network's answer to a POST and to a GET. *)
Record CallEnv : Type := {
  crypto_randomUUID : option string;
  Date_now : Z;
  post : string -> JSONRPCRequest -> Accept -> NetworkResult;
  http_get : string -> NetworkResult
}.

(** axios settles a request with its default [validateStatus]: a status
    from 200 to 299 resolves, any other rejects with an [AxiosError] that
    carries the response; no answer rejects with one that carries none. *)
Definition validateStatus (status : Z) : bool :=
  (200 <=? status) && (status <? 300).

Definition axios_settle (n : NetworkResult) : Completion HttpReply :=
  match n with
  | Answers r =>
      if validateStatus (reply_status r) then Normal r
      else Throw (AxiosError
                    ("Request failed with status code " ++ string_of_Z (reply_status r))
                    (Some r))
  | Fails m => Throw (AxiosError m None)
  end.

(** [axios.isAxiosError(e)] *)
Definition isAxiosError (e : JsError) : bool :=
  match e with
  | AxiosError _ _ => true
  | _ => false
  end.

Definition response_of (e : JsError) : option HttpReply :=
  match e with
  | AxiosError _ r => r
  | _ => None
  end.

(** ** The fetch [Response] *)

Inductive StreamEnd : Type :=
| Closed
| Errored (e : JsError).

(** A body stream: the text chunks its reader delivers (after
    [TextDecoderStream]), then how it ends. *)
Record BodyStream : Type := {
  chunks : list string;
  ending : StreamEnd
}.

Record Response : Type := {
  status : Z;
  statusText : string;
  body : option BodyStream
}.

(** [response.ok] *)
Definition ok (r : Response) : bool := (200 <=? status r) && (status r <=? 299).

(** [await response.text()] *)
Definition text (r : Response) : Completion string :=
  match body r with
  | None => Normal ""
  | Some b =>
      match ending b with
      | Closed => Normal (String.concat "" (chunks b))
      | Errored e => Throw e
      end
  end.

(** [new Response(text, {status, statusText, headers})]: a RangeError
    outside 200..599, a TypeError for a body on a null-body status. *)
Definition null_body_status (s : Z) : bool :=
  (s =? 101) || (s =? 103) || (s =? 204) || (s =? 205) || (s =? 304).

Definition new_Response (content : string) (s : Z) (st : string)
  : Completion Response :=
  if negb ((200 <=? s) && (s <=? 599)) then
    Throw (PlainError "The status provided is outside the range [200, 599].")
  else if null_body_status s then
    Throw (TypeError "Response with null body status cannot have body")
  else
    Normal {| status := s; statusText := st;
              body := Some {| chunks := [content]; ending := Closed |} |}.

(** The client object: [baseUrl] and the cached agent card ([null] until a
    fetch stores one). *)
Record A2AClient : Type := {
  baseUrl : string;
  cachedAgentCard : JsonValue
}.

(* ================================================================== *)
(** * The task client: operations *)
(* ================================================================== *)

Section Operations.
Context {codec : JsonCodec}.

(** Lines 412-422. *)
Definition _generateRequestId (env : CallEnv) : RequestId :=
  match crypto_randomUUID env with
  | Some uuid => IdString uuid
  | None => IdNumber (Date_now env)
  end.

(** ** [_makeHttpRequest], lines 431-501 *)

(** The [catch (networkError)] block, lines 472-500. *)
Definition makeHttpRequest_catch (networkError : JsError) : Completion Response :=
  let statusCode := Some (JNum (-32603)) in
  let errorMessage := Some (JStr (message_of networkError)) in
  '(statusCode, errorMessage) <-
    (match isAxiosError networkError, response_of networkError with
     | true, Some response =>
         let statusCode := Some (JNum (reply_status response)) in
         let errorMessage :=
           Some (JStr ("HTTP " ++ string_of_Z (reply_status response) ++ ": "
                       ++ reply_statusText response)) in
         let data := reply_data response in
         if truthy (Some data) then
           (* typeof data === 'object' && data !== null && 'error' in data *)
           match data with
           | JObj ms =>
               match assoc "error" ms with
               | Some errorObj =>
                   m <- member (Some errorObj) "message" ;;
                   let errorMessage := or_else m errorMessage in
                   c <- member (Some errorObj) "code" ;;
                   let statusCode := or_else c statusCode in
                   Normal (statusCode, errorMessage)
               | None => Normal (statusCode, errorMessage)
               end
           | _ => Normal (statusCode, errorMessage)
           end
         else Normal (statusCode, errorMessage)
     | _, _ => Normal (statusCode, errorMessage)
     end) ;;
  (* `Network error: ${errorMessage}` *)
  text <- (match errorMessage with
           | Some m => template m
           | None => Normal "undefined"
           end) ;;
  Throw (RpcError statusCode ("Network error: " ++ text) (Caught networkError)).

Definition _makeHttpRequest (c : A2AClient) (env : CallEnv)
  (method : string) (params : JsonValue) (acceptHeader : Accept)
  : Completion Response :=
  let requestId := _generateRequestId env in
  let requestBody :=
    {| jsonrpc := "2.0"; id := requestId; method := method; params := params |} in
  try_catch
    (axiosResponse <- axios_settle (post env (baseUrl c) requestBody acceptHeader) ;;
     new_Response (JSON_stringify (reply_data axiosResponse))
       (reply_status axiosResponse) (reply_statusText axiosResponse))
    makeHttpRequest_catch.

(** ** [_handleJsonResponse], lines 507-591 *)

(** The inner [try] of lines 518-531: a parsed [error] throws the
    [RpcError] of lines 523-527 inside the [try], and the [catch] right
    below it catches whatever the block throws. *)
Definition handleJson_not_ok_probe (responseBody : string) : Completion unit :=
  try_catch
    (match JSON_parse responseBody with
     | None => Throw (SyntaxError (syntax_error_message responseBody))
     | Some parsedError =>
         errorData <- member (Some parsedError) "error" ;;
         if truthy errorData then
           code <- member errorData "code" ;;
           message <- member errorData "message" ;;
           data <- member errorData "data" ;;
           (e <- new_RpcError code message data ;; Throw e)
         else Normal tt
     end)
    (fun parseError => Normal tt).

(** The outer [try] block, lines 513-569. *)
Definition handleJson_try (response : Response) : Completion JsonValue :=
  if negb (ok response) then
    responseBody <- text response ;;
    _ <- handleJson_not_ok_probe responseBody ;;
    Throw (PlainError
             ("HTTP error " ++ string_of_Z (status response) ++ ": "
              ++ statusText response
              ++ (if (responseBody =? "")%string then "" else " - " ++ responseBody)))
  else
    responseBody <- text response ;;
    match JSON_parse responseBody with
    | None => Throw (SyntaxError (syntax_error_message responseBody))
    | Some jsonResponse =>
        if negb (is_object jsonResponse)
           || negb (match get jsonResponse "jsonrpc" with
                    | Some (JStr v) => (v =? "2.0")%string
                    | _ => false
                    end)
        then
          Throw (RpcError (Some (JNum (-32603)))
                   "Invalid JSON-RPC response structure received from server."
                   NoData)
        else
          let error := get jsonResponse "error" in
          if truthy error then
            code <- member error "code" ;;
            message <- member error "message" ;;
            data <- member error "data" ;;
            (e <- new_RpcError code message data ;; Throw e)
          else
            match or_else (get jsonResponse "result") (Some JNull) with
            | Some result => Normal result
            | None => Normal JNull
            end
    end.

(** The outer [catch], lines 570-590. *)
Definition _handleJsonResponse (response : Response) : Completion JsonValue :=
  try_catch (handleJson_try response)
    (fun error =>
       if is_RpcError error then Throw error
       else Throw (RpcError (Some (JNum (-32603)))
                     ("Failed to process response: " ++ message_of error)
                     (Caught error))).

(** ** [_handleStreamingResponse], lines 598-717 *)

(** [buffer.replace(/\r/g, "")] *)
Fixpoint strip_cr (s : string) : string :=
  match s with
  | EmptyString => EmptyString
  | String c s' =>
      if Ascii.eqb c CR then strip_cr s' else String c (strip_cr s')
  end.

(** [s.split("\n\n")]: the pieces between the occurrences of the
    separator, found from the left and not overlapping; never empty. *)
Fixpoint split_blank_line (s : string) : list string :=
  match s with
  | EmptyString => [EmptyString]
  | String c rest =>
      let glue := match split_blank_line rest with
                  | piece :: more => String c piece :: more
                  | [] => [String c EmptyString]
                  end in
      if Ascii.eqb c LF then
        match rest with
        | String c' rest' =>
            if Ascii.eqb c' LF then EmptyString :: split_blank_line rest'
            else glue
        | EmptyString => glue
        end
      else glue
  end.

(** [lines.pop()]: the last element (or [undefined]) and what is left. *)
Definition pop (lines : list string) : option string * list string :=
  match rev lines with
  | [] => (None, [])
  | last :: before => (Some last, rev before)
  end.

(** The [try] block of lines 648-692 for one data line: what it yields
    ([None] for [continue] and for the branches that yield nothing), or
    what it throws. *)
Definition stream_try (dataLine : string) : Completion (option JsonValue) :=
  match JSON_parse dataLine with
  | None => Throw (SyntaxError (syntax_error_message dataLine))
  | Some parsedData =>
      if negb (is_object parsedData)
         || negb (match get parsedData "jsonrpc" with
                  | Some (JStr v) => (v =? "2.0")%string
                  | _ => false
                  end)
      then Normal None (* continue *)
      else
        let error := get parsedData "error" in
        if truthy error then
          code <- member error "code" ;;
          message <- member error "message" ;;
          data <- member error "data" ;;
          (e <- new_RpcError code message data ;; Throw e)
        else
          match get parsedData "result" with
          | Some result =>
              match result with
              | JNull => Normal None
              | _ => Normal (Some result)
              end
          | None => Normal None
          end
  end.

(** The body of [for (const message of lines)], lines 643-705: the
    [catch (e)] of line 693 belongs to the [try] that holds the [throw]
    of line 675 and only logs. *)
Definition on_message (message : string) : list JsonValue :=
  if startsWith "data: " message then
    let dataLine := trim (substring_from 6 message) in
    if negb (dataLine =? "")%string then
      match try_catch (stream_try dataLine) (fun e => Normal None) with
      | Normal (Some result) => [result]
      | Normal None => []
      | Throw _ => []
      end
    else []
  else [].

(** What a consumer that drains the generator observes: the values
    yielded, in order, then how the generator finishes, and whether the
    reader lock was released by then. *)
Record StreamRun : Type := {
  yielded : list JsonValue;
  finished : Completion unit;
  released : bool
}.

(** The [while (true)] loop of lines 627-706 from a given buffer. *)
Fixpoint read_loop (buffer : string) (reads : list string) (e : StreamEnd)
  : list JsonValue * Completion unit :=
  match reads with
  | [] =>
      match e with
      | Closed => ([], Normal tt)  (* done: break *)
      | Errored err => ([], Throw err)
      end
  | value :: reads' =>
      let buffer := buffer ++ value in
      let lines := split_blank_line (strip_cr buffer) in
      let '(last, lines) := pop lines in
      let buffer := match last with
                    | Some l => if (l =? "")%string then "" else l
                    | None => ""
                    end in
      let now := flat_map on_message lines in
      let '(later, fin) := read_loop buffer reads' e in
      ((now ++ later)%list, fin)
  end.

Definition _handleStreamingResponse (response : Response) : StreamRun :=
  match body response with
  | Some b =>
      if ok response then
        let '(evs, fin) := read_loop "" (chunks b) (ending b) in
        (* catch (error) { throw error } finally { reader.releaseLock() } *)
        {| yielded := evs; finished := fin; released := true |}
      else
        {| yielded := [];
           finished := Throw (PlainError
             ("HTTP error " ++ string_of_Z (status response) ++ ": "
              ++ statusText response ++ " - Failed to establish stream."));
           released := false |}
  | None =>
      {| yielded := [];
         finished := Throw (PlainError
           ("HTTP error " ++ string_of_Z (status response) ++ ": "
            ++ statusText response ++ " - Failed to establish stream."));
         released := false |}
  end.

(** ** The agent card, lines 727-764 *)

(** The [catch] of lines 749-763. *)
Definition agentCard_catch (cardUrl : string) (error : JsError) : JsError :=
  let errorMessage :=
    match isAxiosError error, response_of error with
    | true, Some response =>
        "HTTP error " ++ string_of_Z (reply_status response)
        ++ " fetching agent card from " ++ cardUrl ++ ": "
        ++ reply_statusText response
    | _, _ => message_of error
    end in
  RpcError (Some (JNum (-32603)))
    ("Could not retrieve agent card: " ++ errorMessage) (Caught error).

(** An [async] function runs to its first [await] when it is called and
    goes on when the awaited promise settles.  [agentCard_begin] is the
    part before [await axios.get]: it either returns the cached card or
    issues the GET. *)
Inductive AgentCardStart : Type :=
| Cached (card : JsonValue)
| Fetching (cardUrl : string).

Definition agentCard_begin (c : A2AClient) : AgentCardStart :=
  if truthy (Some (cachedAgentCard c)) then Cached (cachedAgentCard c)
  else Fetching (baseUrl c ++ "/agent-card").

(** The part after the [await], given how the GET settled. *)
Definition agentCard_resume (c : A2AClient) (cardUrl : string)
  (settled : Completion HttpReply) : A2AClient * Completion JsonValue :=
  match settled with
  | Normal response =>
      let card := reply_data response in
      let c := {| baseUrl := baseUrl c; cachedAgentCard := card |} in
      (c, Normal (cachedAgentCard c))
  | Throw error => (c, Throw (agentCard_catch cardUrl error))
  end.

(** A call of [agentCard] that nothing else interleaves with; the second
    component counts the GETs it issued. *)
Definition agentCard (c : A2AClient) (env : CallEnv)
  : A2AClient * Completion JsonValue * nat :=
  match agentCard_begin c with
  | Cached card => (c, Normal card, 0%nat)
  | Fetching cardUrl =>
      let '(c, r) := agentCard_resume c cardUrl (axios_settle (http_get env cardUrl)) in
      (c, r, 1%nat)
  end.

(** [card.capabilities?.flag], then [!!] *)
Definition capability_flag (card : JsonValue) (flag : string) : Completion bool :=
  capabilities <- member (Some card) "capabilities" ;;
  match capabilities with
  | None | Some JNull => Normal false
  | Some o => Normal (truthy (get o flag))
  end.

(** Lines 912-931. *)
Definition supports (c : A2AClient) (env : CallEnv) (capability : string)
  : A2AClient * Completion bool * nat :=
  let '(c, card, gets) := agentCard c env in
  (c,
   try_catch
     (card <- card ;;
      if (capability =? "streaming")%string then capability_flag card "streaming"
      else if (capability =? "pushNotifications")%string
           then capability_flag card "pushNotifications"
           else Normal false)
     (fun error => Normal false),
   gets).

(** ** The public operations, lines 771-904 *)

Definition single_call (method : string) (c : A2AClient) (env : CallEnv)
  (params : JsonValue) : Completion JsonValue :=
  httpResponse <- _makeHttpRequest c env method params ApplicationJson ;;
  _handleJsonResponse httpResponse.

Definition sendTask := single_call "tasks/send".
Definition getTask := single_call "tasks/get".
Definition cancelTask := single_call "tasks/cancel".
Definition setTaskPushNotification := single_call "tasks/pushNotification/set".
Definition getTaskPushNotification := single_call "tasks/pushNotification/get".

(** The generator of [sendTaskSubscribe] and [resubscribeTask]: it awaits
    the request, then delegates ([yield*]) to the decoder. *)
Definition stream_call (method : string) (c : A2AClient) (env : CallEnv)
  (params : JsonValue) : StreamRun :=
  match _makeHttpRequest c env method params TextEventStream with
  | Normal httpResponse => _handleStreamingResponse httpResponse
  | Throw e => {| yielded := []; finished := Throw e; released := false |}
  end.

Definition sendTaskSubscribe := stream_call "tasks/sendSubscribe".
Definition resubscribeTask := stream_call "tasks/resubscribe".

(** ** Notions the properties are stated with *)

(** The envelope [_makeHttpRequest] posts. *)
Definition request_of (env : CallEnv) (method : string) (params : JsonValue)
  : JSONRPCRequest :=
  {| jsonrpc := "2.0"; id := _generateRequestId env; method := method;
     params := params |}.

(** The body axios hands over in [data]: parsed when it is JSON text,
    the text itself otherwise. *)
Definition axios_data (body_text : string) : JsonValue :=
  match JSON_parse body_text with
  | Some v => v
  | None => JStr body_text
  end.

(** A frame that carries the event [v]: a data line whose payload parses
    as a version-2.0 envelope with no error and the result [v]. *)
Definition event_frame (f : string) (v : JsonValue) : Prop :=
  exists payload ms,
    strip_cr f = "data: " ++ payload /\
    trim payload <> "" /\
    JSON_parse (trim payload) = Some (JObj ms) /\
    assoc "jsonrpc" ms = Some (JStr "2.0") /\
    truthy (assoc "error" ms) = false /\
    assoc "result" ms = Some v /\
    v <> JNull.

(** A data frame whose payload does not parse. *)
Definition malformed_frame (f : string) : Prop :=
  exists payload,
    strip_cr f = "data: " ++ payload /\
    JSON_parse (trim payload) = None.

End Operations.

(** The same response with another body stream. *)
Definition with_body (r : Response) (reads : list string) (e : StreamEnd)
  : Response :=
  {| status := status r; statusText := statusText r;
     body := Some {| chunks := reads; ending := e |} |}.

(** How the read loop ends once the reads are used up. *)
Definition end_of (e : StreamEnd) : Completion unit :=
  match e with
  | Closed => Normal tt
  | Errored err => Throw err
  end.

(** The messages a buffer gives up, and what it keeps. *)
Definition complete_frames (s : string) : list string :=
  removelast (split_blank_line s).
Definition partial_frame (s : string) : string :=
  last (split_blank_line s) "".

(** A piece grows by one character at its front. *)
Definition glue (c : ascii) (l : list string) : list string :=
  match l with
  | piece :: more => String c piece :: more
  | [] => [String c EmptyString]
  end.

(** The text opens with the separator. *)
Definition opens_blank_line (s : string) : bool :=
  match s with
  | String c (String c' _) => Ascii.eqb c LF && Ascii.eqb c' LF
  | _ => false
  end.

Definition blank_line : string := String LF (String LF EmptyString).

(** Every line feed of the text is followed by a character that is not
    one: the text holds no blank line and does not end in a line feed. *)
Fixpoint framed (s : string) : bool :=
  match s with
  | EmptyString => true
  | String c rest =>
      if Ascii.eqb c LF then
        match rest with
        | EmptyString => false
        | String c' _ => negb (Ascii.eqb c' LF) && framed rest
        end
      else framed rest
  end.

Definition well_framed (f : string) : Prop := framed (strip_cr f) = true.

(** Frames as the server writes them: each followed by a blank line. *)
Fixpoint encode_frames (fs : list string) : string :=
  match fs with
  | [] => EmptyString
  | f :: fs' => f ++ blank_line ++ encode_frames fs'
  end.

(** The text holds no line feed. *)
Fixpoint no_line_feed (s : string) : bool :=
  match s with
  | EmptyString => true
  | String c rest => negb (Ascii.eqb c LF) && no_line_feed rest
  end.

(** ** Calls of [agentCard] on the event loop *)

(** The client, the calls of [agentCard] that wait for their GET (each
    with the URL it asked for), the number of GETs issued so far and the
    results of the calls that have returned, latest first. *)
Record Loop : Type := {
  client : A2AClient;
  waiting : list string;
  gets : nat;
  returned : list (Completion JsonValue)
}.

(** What the event loop runs next: a caller invokes [agentCard], or the
    GET of the [i]-th waiting call settles and that call goes on. *)
Inductive Event : Type :=
| Call
| Settle (i : nat) (answer : NetworkResult).

Definition step (l : Loop) (ev : Event) : Loop :=
  match ev with
  | Call =>
      match agentCard_begin (client l) with
      | Cached card =>
          {| client := client l; waiting := waiting l; gets := gets l;
             returned := Normal card :: returned l |}
      | Fetching cardUrl =>
          {| client := client l; waiting := (waiting l ++ [cardUrl])%list;
             gets := S (gets l); returned := returned l |}
      end
  | Settle i answer =>
      match nth_error (waiting l) i with
      | Some cardUrl =>
          let '(c, r) := agentCard_resume (client l) cardUrl (axios_settle answer) in
          {| client := c;
             waiting := (firstn i (waiting l) ++ skipn (S i) (waiting l))%list;
             gets := gets l; returned := r :: returned l |}
      | None => l
      end
  end.

Definition run (l : Loop) (evs : list Event) : Loop := fold_left step evs l.

Definition fresh (c : A2AClient) : Loop :=
  {| client := c; waiting := []; gets := 0; returned := [] |}.

(** Calls awaited one after the other: each call is followed by the
    settling of its own GET, if it issued one. *)
Fixpoint one_by_one (n : nat) (answer : NetworkResult) : list Event :=
  match n with
  | O => []
  | S n' => Call :: Settle 0 answer :: one_by_one n' answer
  end.

(** [k] callers before any GET settles, then the GETs settle in order. *)
Definition all_at_once (k : nat) (answer : NetworkResult) : list Event :=
  (repeat Call k ++ repeat (Settle 0 answer) k)%list.

(** ** The constructor and the caller of the client *)

(** [new A2AClient(baseUrl)], lines 402-406: one slash at the end of the
    URL is dropped; the cache starts at [null]. *)
Definition new_A2AClient (url : string) : A2AClient :=
  {| baseUrl := if endsWith "/" url then drop_last url else url;
     cachedAgentCard := JNull |}.

(** The client of frontend/src/lib/apis.ts, line 4. *)
Definition apis_client : A2AClient := new_A2AClient "http://localhost:41241".

Section Callers.
Context {codec : JsonCodec}.

(** [sui_tx_agent] of frontend/src/lib/apis.ts, lines 6-27: a
    [sendTask], then a [getTask] for the same task identifier, on the
    client [c] of the module ([apis_client]).  [taskId] is what
    [uuidv4()] returns; the two calls meet [env_send] and [env_get].
    [None] is the [undefined] the function returns from its [catch]. *)
Definition sui_tx_agent (c : A2AClient) (taskId : string)
  (env_send env_get : CallEnv) (prompt : string) : Completion JsValue :=
  try_catch
    (let sendParams :=
       JObj [("id", JStr taskId);
             ("message",
              JObj [("role", JStr "user");
                    ("parts", JArr [JObj [("text", JStr prompt);
                                          ("type", JStr "text")]])])] in
     _ <- sendTask c env_send sendParams ;;
     let getParams := JObj [("id", JStr taskId)] in
     getTaskResult <- getTask c env_get getParams ;;
     Normal (Some getTaskResult))
    (fun error => Normal None).

End Callers.

End A2A.

(* ================================================================== *)
(** * A reference JSON codec *)
(* ================================================================== *)

(** An implementation of [JSON.parse] and [JSON.stringify] for the texts
    of the model (code units below 256, integral numbers without fraction
    or exponent), used to run the client on concrete wire data. *)
Module JsonText.
Import Js.

Inductive token : Type :=
| TLBrace | TRBrace | TLBrack | TRBrack | TColon | TComma
| TStr (s : string)
| TNum (n : Z)
| TTrue | TFalse | TNull.

Definition hex_digit (c : ascii) : option N :=
  let n := N_of_ascii c in
  if (48 <=? n)%N && (n <=? 57)%N then Some (n - 48)%N
  else if (97 <=? n)%N && (n <=? 102)%N then Some (n - 87)%N
  else if (65 <=? n)%N && (n <=? 70)%N then Some (n - 55)%N
  else None.

Definition unescape (c : ascii) : option ascii :=
  if Ascii.eqb c QUOTE then Some QUOTE
  else if Ascii.eqb c "\" then Some "\"%char
  else if Ascii.eqb c "/" then Some "/"%char
  else if Ascii.eqb c "b" then Some (ascii_of_nat 8)
  else if Ascii.eqb c "f" then Some (ascii_of_nat 12)
  else if Ascii.eqb c "n" then Some LF
  else if Ascii.eqb c "r" then Some CR
  else if Ascii.eqb c "t" then Some (ascii_of_nat 9)
  else None.

(** The rest of a string literal after its opening quote. *)
Fixpoint lex_string (s : string) : option (string * string) :=
  match s with
  | EmptyString => None
  | String c rest =>
      if Ascii.eqb c QUOTE then Some (EmptyString, rest)
      else if Ascii.eqb c "\" then
        match rest with
        | String e rest' =>
            match unescape e with
            | Some ch =>
                match lex_string rest' with
                | Some (str, r) => Some (String ch str, r)
                | None => None
                end
            | None =>
                match e, rest' with
                | "u"%char, String h1 (String h2 (String h3 (String h4 rest''))) =>
                    match hex_digit h1, hex_digit h2, hex_digit h3, hex_digit h4 with
                    | Some 0%N, Some 0%N, Some d3, Some d4 =>
                        match lex_string rest'' with
                        | Some (str, r) =>
                            Some (String (ascii_of_N (16 * d3 + d4)) str, r)
                        | None => None
                        end
                    | _, _, _, _ => None
                    end
                | _, _ => None
                end
            end
        | EmptyString => None
        end
      else if (N_of_ascii c <? 32)%N then None
      else
        match lex_string rest with
        | Some (str, r) => Some (String c str, r)
        | None => None
        end
  end.

Definition is_digit (c : ascii) : bool :=
  ((48 <=? N_of_ascii c) && (N_of_ascii c <=? 57))%N.

Fixpoint lex_digits (acc : Z) (s : string) : Z * string :=
  match s with
  | String c rest =>
      if is_digit c then lex_digits (10 * acc + Z.of_N (N_of_ascii c - 48)) rest
      else (acc, s)
  | EmptyString => (acc, s)
  end.

(** An integer literal: no leading zero, no fraction, no exponent. *)
Definition lex_number (s : string) : option (Z * string) :=
  let '(neg, s) := match s with
                   | String "-"%char r => (true, r)
                   | _ => (false, s)
                   end in
  match s with
  | String c rest =>
      if is_digit c then
        let '(n, r) := lex_digits 0 s in
        let leading_zero := Ascii.eqb c "0" && negb (n =? 0) in
        let double_zero := match rest with
                           | String c' _ => Ascii.eqb c "0" && is_digit c'
                           | EmptyString => false
                           end in
        let more := match r with
                    | String c' _ =>
                        Ascii.eqb c' "." || Ascii.eqb c' "e" || Ascii.eqb c' "E"
                    | EmptyString => false
                    end in
        if leading_zero || double_zero || more then None
        else Some (if neg then - n else n, r)
      else None
  | EmptyString => None
  end.

Definition is_json_space (c : ascii) : bool :=
  let n := N_of_ascii c in
  ((n =? 9) || (n =? 10) || (n =? 13) || (n =? 32))%N.

Fixpoint lex (fuel : nat) (s : string) : option (list token) :=
  match fuel with
  | O => None
  | S fuel =>
      match s with
      | EmptyString => Some []
      | String c rest =>
          let one t := option_map (cons t) (lex fuel rest) in
          if is_json_space c then lex fuel rest
          else if Ascii.eqb c "{" then one TLBrace
          else if Ascii.eqb c "}" then one TRBrace
          else if Ascii.eqb c "[" then one TLBrack
          else if Ascii.eqb c "]" then one TRBrack
          else if Ascii.eqb c ":" then one TColon
          else if Ascii.eqb c "," then one TComma
          else if Ascii.eqb c QUOTE then
            match lex_string rest with
            | Some (str, r) => option_map (cons (TStr str)) (lex fuel r)
            | None => None
            end
          else if startsWith "true" s then
            option_map (cons TTrue) (lex fuel (substring_from 4 s))
          else if startsWith "false" s then
            option_map (cons TFalse) (lex fuel (substring_from 5 s))
          else if startsWith "null" s then
            option_map (cons TNull) (lex fuel (substring_from 4 s))
          else
            match lex_number s with
            | Some (n, r) => option_map (cons (TNum n)) (lex fuel r)
            | None => None
            end
      end
  end.

Fixpoint parse_value (fuel : nat) (ts : list token)
  : option (JsonValue * list token) :=
  match fuel with
  | O => None
  | S fuel =>
      match ts with
      | TNull :: r => Some (JNull, r)
      | TTrue :: r => Some (JBool true, r)
      | TFalse :: r => Some (JBool false, r)
      | TNum n :: r => Some (JNum n, r)
      | TStr s :: r => Some (JStr s, r)
      | TLBrack :: TRBrack :: r => Some (JArr [], r)
      | TLBrack :: r =>
          match parse_items fuel r with
          | Some (items, r') => Some (JArr items, r')
          | None => None
          end
      | TLBrace :: TRBrace :: r => Some (JObj [], r)
      | TLBrace :: r =>
          match parse_members fuel r with
          | Some (ms, r') =>
              Some (JObj (fold_left (fun acc kv => set_member (fst kv) (snd kv) acc) ms []), r')
          | None => None
          end
      | _ => None
      end
  end
with parse_items (fuel : nat) (ts : list token)
  : option (list JsonValue * list token) :=
  match fuel with
  | O => None
  | S fuel =>
      match parse_value fuel ts with
      | Some (v, TComma :: r) =>
          match parse_items fuel r with
          | Some (vs, r') => Some (v :: vs, r')
          | None => None
          end
      | Some (v, TRBrack :: r) => Some ([v], r)
      | _ => None
      end
  end
with parse_members (fuel : nat) (ts : list token)
  : option (list (string * JsonValue) * list token) :=
  match fuel with
  | O => None
  | S fuel =>
      match ts with
      | TStr k :: TColon :: r =>
          match parse_value fuel r with
          | Some (v, TComma :: r') =>
              match parse_members fuel r' with
              | Some (ms, r'') => Some ((k, v) :: ms, r'')
              | None => None
              end
          | Some (v, TRBrace :: r') => Some ([(k, v)], r')
          | _ => None
          end
      | _ => None
      end
  end.

Definition parse (s : string) : option JsonValue :=
  match lex (S (String.length s)) s with
  | Some ts =>
      match parse_value (S (List.length ts)) ts with
      | Some (v, []) => Some v
      | _ => None
      end
  | None => None
  end.

Definition hex_char (n : N) : ascii :=
  if (n <? 10)%N then ascii_of_N (48 + n) else ascii_of_N (87 + n).

Fixpoint quote_chars (s : string) : string :=
  match s with
  | EmptyString => EmptyString
  | String c rest =>
      let n := N_of_ascii c in
      let esc e := String "\" (String e (quote_chars rest)) in
      if Ascii.eqb c QUOTE then esc QUOTE
      else if Ascii.eqb c "\" then esc "\"%char
      else if (n =? 8)%N then esc "b"%char
      else if (n =? 12)%N then esc "f"%char
      else if (n =? 10)%N then esc "n"%char
      else if (n =? 13)%N then esc "r"%char
      else if (n =? 9)%N then esc "t"%char
      else if (n <? 32)%N then
        "\u00" ++ String (hex_char (n / 16)) (String (hex_char (n mod 16)) (quote_chars rest))
      else String c (quote_chars rest)
  end.

Definition quote (s : string) : string :=
  String QUOTE (quote_chars s ++ String QUOTE EmptyString).

Fixpoint stringify (v : JsonValue) : string :=
  match v with
  | JNull => "null"
  | JBool true => "true"
  | JBool false => "false"
  | JNum n => string_of_Z n
  | JStr s => quote s
  | JArr items =>
      "[" ++ (fix go (l : list JsonValue) : string :=
                match l with
                | [] => ""
                | [x] => stringify x
                | x :: rest => stringify x ++ "," ++ go rest
                end) items ++ "]"
  | JObj ms =>
      "{" ++ (fix go (l : list (string * JsonValue)) : string :=
                match l with
                | [] => ""
                | [(k, x)] => quote k ++ ":" ++ stringify x
                | (k, x) :: rest => quote k ++ ":" ++ stringify x ++ "," ++ go rest
                end) ms ++ "}"
  end.

#[export] Instance codec : A2A.JsonCodec := {|
  A2A.JSON_parse := parse;
  A2A.JSON_stringify := stringify;
  A2A.syntax_error_message := fun _ => "Unexpected token in JSON"
|}.

(** JSON texts are written with ['] for the double quote and [|] for the
    line feed. *)
Fixpoint wire (s : string) : string :=
  match s with
  | EmptyString => EmptyString
  | String c rest =>
      String (if Ascii.eqb c "'" then QUOTE
              else if Ascii.eqb c "|" then LF else c) (wire rest)
  end.

End JsonText.

(* ================================================================== *)
(** * The hardware wallet *)
(* ================================================================== *)

Module Wallet.

Definition DEFAULT_SUI_PATH : string := "m/44'/784'/0'/0'/0'".
Definition DEFAULT_EVM_PATH : string := "m/44'/60'/0'/0/0".

(** [TransactionData] of tradingAnalysis.ts. *)
Record TransactionData : Type := {
  pair : string;
  price : string;
  amount : string;
  total : string;
  transactionType : string;
  poolId : string;
  poolName : string;
  baseCoinId : string;
  quoteCoinId : string
}.

(** An element of the array [signAndExecuteSuiTransaction] receives. *)
Record Action : Type := {
  action : string;
  action_amount : string;
  recipient : string
}.

(** The fields of [OneKeyHardwareWallet]; [orderBook] holds the address
    the [OrderBook] was made for. *)
Record OneKeyHardwareWallet : Type := {
  isConnected : bool;
  address : option string;
  evm_address : option string;
  connectId : option string;
  deviceId : option string;
  orderBook : option string
}.

(** What a call does to its collaborators, in order: the transaction
    builder, the aggregator behind the order book, the device. *)
Inductive Effect : Type :=
| NewTransaction (sender : string)
| FindRouters (from target amount : string) (byAmountIn : bool)
| FastRouterSwap (routes : nat) (byAmountIn : bool)
| SplitCoins (amount : string)
| TransferObjects (recipient : string)
| SetGasBudget (budget : Z)
| Build
| SuiSignTransaction (connectId deviceId path rawTx : string)
| SearchDevices
| SuiGetAddress (connectId deviceId path : string)
| EvmGetAddress (connectId deviceId path : string).

(** The answer of the device SDK: [success] with a payload that may hold
    a signature, or a payload with an [error]. *)
Inductive SdkResponse : Type :=
| Success (signature : option string)
| Failure (error : string).

(** What the promise of a call settles to. *)
Inductive Settled (A : Type) : Type :=
| Resolved (a : A)
| Rejected (message : string).
Arguments Resolved {A} a.
Arguments Rejected {A} message.

(** A device as [searchDevices] lists it. *)
Record Device : Type := {
  device_connectId : option string;
  device_deviceId : option string
}.

(** The answer of the SDK to a request for an address. *)
Inductive AddressResponse : Type :=
| Address (address : option string)
| AddressFailure (error : string).

(** What the collaborators answer during one call: the aggregator
    ([findRouters] gives the number of routes found, or nothing), the
    serializer of amounts, the transaction builder (the bytes in hex),
    the device, [Math.random] and the clock. *)
Record Collaborators : Type := {
  findRouters : string -> string -> string -> bool -> Settled (option nat);
  fastRouterSwap : nat -> Settled unit;
  serialize_amount : string -> Settled string;
  build : list Effect -> Settled string;
  suiSignTransaction : string -> string -> string -> string -> Settled SdkResponse;
  searchDevices : Settled (option (list Device));
  suiGetAddress : string -> string -> string -> Settled AddressResponse;
  evmGetAddress : string -> string -> string -> Settled AddressResponse;
  random_token : string;
  timestamp : string
}.

(** A computation: the effects performed so far go in, the effects
    performed and the outcome come out. *)
Definition Task (A : Type) : Type := list Effect -> list Effect * Settled A.

Definition ret {A : Type} (a : A) : Task A := fun log => (log, Resolved a).
Definition throw {A : Type} (message : string) : Task A :=
  fun log => (log, Rejected message).
Definition perform (e : Effect) : Task unit :=
  fun log => ((log ++ [e])%list, Resolved tt).
Definition performed : Task (list Effect) := fun log => (log, Resolved log).
Definition bind {A B : Type} (t : Task A) (k : A -> Task B) : Task B :=
  fun log =>
    match t log with
    | (log', Resolved a) => k a log'
    | (log', Rejected m) => (log', Rejected m)
    end.

Notation "x <- t ;; k" := (bind t (fun x => k))
  (at level 61, t at next level, right associativity).
Notation "t ;;; k" := (bind t (fun _ => k))
  (at level 61, right associativity).

Definition when_ (b : bool) (t : Task unit) : Task unit :=
  if b then t else ret tt.

(** [await] of what a collaborator answers. *)
Definition await {A : Type} (s : Settled A) : Task A := fun log => (log, s).

Definition run {A : Type} (t : Task A) : list Effect * Settled A := t [].

(** [!s] for [s : string | null] *)
Definition missing (s : option string) : bool :=
  match s with
  | None => true
  | Some v => (v =? "")%string
  end.

Definition value (s : option string) : string :=
  match s with
  | Some v => v
  | None => ""
  end.

(** The object both operations return; [deepbookTx] is the transaction
    as the calls on it made it. *)
Record Receipt (T : Type) : Type := {
  digest : string;
  receipt_status : string;
  receipt_timestamp : string;
  transaction : T;
  deepbookTx : list Effect
}.
Arguments digest {T} r.
Arguments receipt_status {T} r.
Arguments receipt_timestamp {T} r.
Arguments transaction {T} r.
Arguments deepbookTx {T} r.

Section Calls.
Variable sdk : Collaborators.

(** [OrderBook.placeOrder], onekeySdkUtils.ts lines 305-335. *)
Definition placeOrder (from target : string) (isBid : bool) (amount : string)
  : Task unit :=
  perform (FindRouters from target amount isBid) ;;;
  res <- await (findRouters sdk from target amount isBid) ;;
  match res with
  | None | Some O => throw "No routes found for the order"
  | Some routes =>
      perform (FastRouterSwap routes isBid) ;;;
      await (fastRouterSwap sdk routes)
  end.

(** [signSuiTransaction], onekeySdkUtils.ts lines 87-110. *)
Definition signSuiTransaction (connectId deviceId path rawTx : string)
  : Task (option string) :=
  perform (SuiSignTransaction connectId deviceId path rawTx) ;;;
  response <- await (suiSignTransaction sdk connectId deviceId path rawTx) ;;
  match response with
  | Success signature => ret signature
  | Failure error => throw error
  end.

(** [getDeviceList], onekeySdkUtils.ts lines 21-34: an SDK that fails
    counts as no device. *)
Definition getDeviceList : Task (list Device) :=
  perform SearchDevices ;;;
  fun log =>
    match searchDevices sdk with
    | Resolved (Some devices) => (log, Resolved devices)
    | Resolved None | Rejected _ => (log, Resolved [])
    end.

(** [getSuiAddress] and [getEVMAddress], onekeySdkUtils.ts lines 37-84. *)
Definition address_of (response : AddressResponse) : Task (option string) :=
  match response with
  | Address a => ret a
  | AddressFailure error => throw error
  end.

Definition getSuiAddress (connectId deviceId path : string) : Task (option string) :=
  perform (SuiGetAddress connectId deviceId path) ;;;
  response <- await (suiGetAddress sdk connectId deviceId path) ;;
  address_of response.

Definition getEVMAddress (connectId deviceId path : string) : Task (option string) :=
  perform (EvmGetAddress connectId deviceId path) ;;;
  response <- await (evmGetAddress sdk connectId deviceId path) ;;
  address_of response.

(** [connect], lines 37-89: the wallet it leaves and what it settles to.
    The identifiers of the device are stored before the addresses are
    asked for. *)
Definition connect (w : OneKeyHardwareWallet)
  : list Effect -> OneKeyHardwareWallet * (list Effect * Settled string) :=
  fun log =>
    match getDeviceList log with
    | (log, Resolved []) =>
        (w, (log, Rejected "No OneKey devices found. Please connect your hardware wallet and try again."))
    | (log, Resolved (device :: _)) =>
        let w := {| isConnected := isConnected w; address := address w;
                    evm_address := evm_address w;
                    connectId := device_connectId device;
                    deviceId := device_deviceId device;
                    orderBook := orderBook w |} in
        if missing (connectId w) || missing (deviceId w) then
          (w, (log, Rejected "Device connection information is missing"))
        else
          match getSuiAddress (value (connectId w)) (value (deviceId w))
                  DEFAULT_SUI_PATH log with
          | (log, Rejected m) => (w, (log, Rejected m))
          | (log, Resolved address) =>
              if missing address then
                (w, (log, Rejected "Failed to retrieve SUI address from OneKey device"))
              else
                match getEVMAddress (value (connectId w)) (value (deviceId w))
                        DEFAULT_EVM_PATH log with
                | (log, Rejected m) => (w, (log, Rejected m))
                | (log, Resolved evm) =>
                    if missing evm then
                      (w, (log, Rejected "Failed to retrieve EVM address from OneKey device"))
                    else
                      ({| isConnected := true; address := address;
                          evm_address := evm;
                          connectId := connectId w; deviceId := deviceId w;
                          orderBook := address |},
                       (log, Resolved (value address)))
                end
          end
    | (log, Rejected m) => (w, (log, Rejected m))
    end.

(** [disconnect], lines 91-98. *)
Definition disconnect (w : OneKeyHardwareWallet) : OneKeyHardwareWallet :=
  {| isConnected := false; address := None; evm_address := None;
     connectId := None; deviceId := None; orderBook := orderBook w |}.

(** Lines 129-165 and 195-244: build, sign, make the receipt. *)
Definition build_and_sign {T : Type} (w : OneKeyHardwareWallet)
  (transactionData : T) : Task (Receipt T) :=
  perform (SetGasBudget 10000) ;;;
  perform Build ;;;
  tx <- performed ;;
  serializedTx <- await (build sdk tx) ;;
  if missing (connectId w) || missing (deviceId w) then
    throw "Device connection information is missing"
  else
    signature <- signSuiTransaction (value (connectId w)) (value (deviceId w))
                   DEFAULT_SUI_PATH serializedTx ;;
    ret {| digest := if missing signature
                     then "deepbook-transaction-" ++ random_token sdk
                     else value signature;
           receipt_status := "success";
           receipt_timestamp := timestamp sdk;
           transaction := transactionData;
           deepbookTx := tx |}.

(** Lines 100-173. *)
Definition signAndExecuteTransaction (w : OneKeyHardwareWallet)
  (transactionData : TransactionData) : Task (Receipt TransactionData) :=
  if negb (isConnected w) || missing (address w) then
    throw "Wallet not connected"
  else
    let isBuy := (transactionType transactionData =? "buy")%string in
    if (poolId transactionData =? "")%string then
      throw "Pool ID is required for DeepBook transactions"
    else
      perform (NewTransaction (value (address w))) ;;;
      match orderBook w with
      | None => throw "Cannot read properties of null (reading 'placeOrder')"
      | Some _ =>
          placeOrder (baseCoinId transactionData) (quoteCoinId transactionData)
            isBuy (amount transactionData) ;;;
          build_and_sign w transactionData
      end.

(** The loop of lines 188-193. *)
Fixpoint add_transfers (actions : list Action) : Task unit :=
  match actions with
  | [] => ret tt
  | a :: rest =>
      when_ (action a =? "transfer")%string
        (amount <- await (serialize_amount sdk (action_amount a)) ;;
         perform (SplitCoins amount) ;;;
         perform (TransferObjects (recipient a))) ;;;
      add_transfers rest
  end.

(** Lines 175-252. *)
Definition signAndExecuteSuiTransaction (w : OneKeyHardwareWallet)
  (transactionData : list Action) : Task (Receipt (list Action)) :=
  if negb (isConnected w) || missing (address w) then
    throw "Wallet not connected"
  else if (List.length transactionData =? 0)%nat then
    throw "Transaction data is empty"
  else
    perform (NewTransaction (value (address w))) ;;;
    add_transfers transactionData ;;;
    build_and_sign w transactionData.

End Calls.

(** The wallet is not connected. *)
Definition disconnected (w : OneKeyHardwareWallet) : Prop :=
  isConnected w = false \/ address w = None.

(** ** Concrete wallets and collaborators *)

(** Collaborators that would all answer: a route, a built transaction,
    a signature. *)
Definition willing : Collaborators :=
  {| findRouters := fun _ _ _ _ => Resolved (Some 1%nat);
     fastRouterSwap := fun _ => Resolved tt;
     serialize_amount := fun a => Resolved a;
     build := fun _ => Resolved "00a1b2";
     suiSignTransaction := fun _ _ _ _ => Resolved (Success (Some "c2lnbmF0dXJl"));
     searchDevices :=
       Resolved (Some [{| device_connectId := Some "usb-1";
                          device_deviceId := Some "dev-1" |}]);
     suiGetAddress := fun _ _ _ => Resolved (Address (Some "0xa11ce"));
     evmGetAddress := fun _ _ _ => Resolved (Address (Some "0xe0a"));
     random_token := "k3j9x0q2m1";
     timestamp := "2025-01-01T00:00:00.000Z" |}.

(** The wallet as the constructor leaves it. *)
Definition new_wallet : OneKeyHardwareWallet :=
  {| isConnected := false; address := None; evm_address := None;
     connectId := None; deviceId := None; orderBook := None |}.

Definition connected_wallet : OneKeyHardwareWallet :=
  {| isConnected := true; address := Some "0xa11ce"; evm_address := Some "0xe0a";
     connectId := Some "usb-1"; deviceId := Some "dev-1";
     orderBook := Some "0xa11ce" |}.

Definition a_buy : TransactionData :=
  {| pair := "SUI/USDC"; price := "3"; amount := "1000"; total := "3000";
     transactionType := "buy"; poolId := "0xpool"; poolName := "SUI_USDC";
     baseCoinId := "0x2::sui::SUI"; quoteCoinId := "0xusdc::usdc::USDC" |}.

Definition a_transfer : Action :=
  {| action := "transfer"; action_amount := "1.5"; recipient := "0xb0b" |}.

(** An aggregator that finds no route. *)
Definition without_routes : Collaborators :=
  {| findRouters := fun _ _ _ _ => Resolved None;
     fastRouterSwap := fun _ => Resolved tt;
     serialize_amount := fun a => Resolved a;
     build := fun _ => Resolved "00a1b2";
     suiSignTransaction := fun _ _ _ _ => Resolved (Success (Some "c2lnbmF0dXJl"));
     searchDevices :=
       Resolved (Some [{| device_connectId := Some "usb-1";
                          device_deviceId := Some "dev-1" |}]);
     suiGetAddress := fun _ _ _ => Resolved (Address (Some "0xa11ce"));
     evmGetAddress := fun _ _ _ => Resolved (Address (Some "0xe0a"));
     random_token := "k3j9x0q2m1";
     timestamp := "2025-01-01T00:00:00.000Z" |}.

(** Another device is plugged in, and it is locked. *)
Definition locked : Collaborators :=
  {| findRouters := fun _ _ _ _ => Resolved (Some 1%nat);
     fastRouterSwap := fun _ => Resolved tt;
     serialize_amount := fun a => Resolved a;
     build := fun _ => Resolved "00a1b2";
     suiSignTransaction := fun _ _ _ _ => Resolved (Success (Some "c2lnbmF0dXJl"));
     searchDevices :=
       Resolved (Some [{| device_connectId := Some "usb-2";
                          device_deviceId := Some "dev-2" |}]);
     suiGetAddress := fun _ _ _ => Resolved (AddressFailure "Device is locked");
     evmGetAddress := fun _ _ _ => Resolved (Address (Some "0xe0a"));
     random_token := "k3j9x0q2m1";
     timestamp := "2025-01-01T00:00:00.000Z" |}.

(** The connected wallet after a [connect] that the locked device
    rejected. *)
Definition after_locked : OneKeyHardwareWallet :=
  {| isConnected := true; address := Some "0xa11ce"; evm_address := Some "0xe0a";
     connectId := Some "usb-2"; deviceId := Some "dev-2";
     orderBook := Some "0xa11ce" |}.

(** An action that is no transfer. *)
Definition a_note : Action :=
  {| action := "note"; action_amount := "0"; recipient := "" |}.


Definition transfer_tx : list Effect :=
  [NewTransaction "0xa11ce";
   SplitCoins "1.5";
   TransferObjects "0xb0b";
   SetGasBudget 10000;
   Build].

Definition receipt_for {T : Type} (transactionData : T) (tx : list Effect)
  : Receipt T :=
  {| digest := "c2lnbmF0dXJl"; receipt_status := "success";
     receipt_timestamp := "2025-01-01T00:00:00.000Z";
     transaction := transactionData;
     deepbookTx := tx |}.

End Wallet.

(* ================================================================== *)
(** * The trading score *)
(* ================================================================== *)

Module Trading.

(** ** Numbers *)

(** A JavaScript number is an IEEE 754 binary64 value; its arithmetic is
    the one [SpecFloat] specifies for a 53-bit mantissa. *)
Definition number : Type := spec_float.
Definition prec : Z := 53.
Definition emax : Z := 1024.

Definition NaN : number := S754_nan.
Definition Infinity : number := S754_infinity false.

Definition add : number -> number -> number := SFadd prec emax.
Definition sub : number -> number -> number := SFsub prec emax.
Definition mul : number -> number -> number := SFmul prec emax.
Definition div : number -> number -> number := SFdiv prec emax.

Definition isNaN (x : number) : bool :=
  match x with
  | S754_nan => true
  | _ => false
  end.

(** The number an integer literal denotes (exact below 2^53). *)
Definition of_pos (s : bool) (p : positive) : number :=
  let digits := Zpos (Pos.size p) in
  S754_finite s (Pos.shiftl p (Z.to_N (prec - digits))) (digits - prec).

Definition num (z : Z) : number :=
  match z with
  | Z0 => S754_zero false
  | Zpos p => of_pos false p
  | Zneg p => of_pos true p
  end.

(** [0.05] *)
Definition five_hundredths : number := div (num 5) (num 100).

(** [x > y], [x >= y] *)
Definition gt (x y : number) : bool := SFltb y x.
Definition ge (x y : number) : bool := SFleb y x.

(** [x || 0] on a number: [0] replaces [NaN] and both zeros. *)
Definition or_zero (x : number) : number :=
  match x with
  | S754_nan | S754_zero _ => num 0
  | _ => x
  end.

(** [Math.abs] *)
Definition Math_abs : number -> number := SFabs.

(** [Math.max] and [Math.min] of two numbers: [NaN] if either is, and
    [+0] above [-0]. *)
Definition Math_max (x y : number) : number :=
  match SFcompare x y with
  | None => NaN
  | Some Lt => y
  | Some Gt => x
  | Some Eq =>
      match x, y with
      | S754_zero true, S754_zero _ => y
      | _, _ => x
      end
  end.

Definition Math_min (x y : number) : number :=
  match SFcompare x y with
  | None => NaN
  | Some Lt => x
  | Some Gt => y
  | Some Eq =>
      match x, y with
      | S754_zero false, S754_zero _ => y
      | _, _ => x
      end
  end.

(** [Math.round]: the nearest integer, a tie going up; what is not
    finite and what is an integer already stay; a result of zero keeps
    the sign of the argument. *)
Definition Math_round (x : number) : number :=
  match x with
  | S754_finite s m e =>
      if 0 <=? e then x
      else
        let d := 2 ^ (- e) in
        let n := (2 * (if s then Zneg m else Zpos m) + d) / (2 * d) in
        if n =? 0 then S754_zero s else num n
  | _ => x
  end.

(** ** Market data: the DeepBook client in onekeySdkUtils.ts *)

Record MarketSummary : Type := {
  trading_pairs : string;
  last_price : number;
  quote_volume : number;
  price_change_percent_24h : number;
  highest_bid : number;
  lowest_ask : number
}.

Record MarketDataInfo : Type := {
  md_price : number;
  md_volume24h : number;
  md_marketCap : number;
  md_change24h : number;
  md_volatility : number;
  md_liquidity : number;
  md_poolId : string
}.

Record TradingPairInfo : Type := {
  pool_id : string;
  pool_name : string;
  pool_baseCoin : string;
  pool_baseCoinId : string;
  pool_quoteCoin : string;
  pool_quoteCoinId : string;
  pool_pair : string
}.

(** [s.includes(t)] *)
Fixpoint prefix_of (t s : string) : bool :=
  match t, s with
  | EmptyString, _ => true
  | String a t', String b s' => Ascii.eqb a b && prefix_of t' s'
  | String _ _, EmptyString => false
  end.

Fixpoint includes (s t : string) : bool :=
  prefix_of t s ||
  match s with
  | EmptyString => false
  | String _ s' => includes s' t
  end.

(** [getMarketData], lines 256-293: [None] is the thrown
    "Ticker info for pool ... not found". *)
Definition getMarketData (poolName : string) (tickerData : list MarketSummary)
  : option MarketDataInfo :=
  match find (fun t => includes (trading_pairs t) poolName) tickerData with
  | None => None
  | Some tickerInfo =>
      let price := or_zero (last_price tickerInfo) in
      let volume24h := or_zero (quote_volume tickerInfo) in
      let change24h := or_zero (price_change_percent_24h tickerInfo) in
      let highestBid := or_zero (highest_bid tickerInfo) in
      let lowestAsk := or_zero (lowest_ask tickerInfo) in
      let spreadPercentage :=
        if gt lowestAsk (num 0) then div (sub lowestAsk highestBid) lowestAsk
        else num 1 in
      let liquidityScore :=
        Math_max (num 0) (Math_min (num 1) (sub (num 1) spreadPercentage)) in
      Some {| md_price := price;
              md_volume24h := volume24h;
              md_marketCap := mul volume24h price;
              md_change24h := change24h;
              md_volatility := Math_abs (div change24h (num 100));
              md_liquidity := liquidityScore;
              md_poolId := poolName |}
  end.

(** ** tradingAnalysis.ts *)

Record TradingPair : Type := {
  id : string;
  baseCoin : string;
  baseCoinId : string;
  quoteCoin : string;
  quoteCoinId : string;
  pair : string;
  price : number;
  volume24h : number;
  marketCap : number;
  change24h : number;
  volatility : number;
  liquidity : number;
  poolId : string;
  poolName : string
}.

(** [Record<string, TradingPair>]: the keys in insertion order.
    [lookup] is [pairs[k]] for a key that no prototype defines (a pair
    is named [base/quote]). *)
Definition Pairs : Type := list (string * TradingPair).

Fixpoint lookup (k : string) (ps : Pairs) : option TradingPair :=
  match ps with
  | [] => None
  | (k', v) :: rest => if (k' =? k)%string then Some v else lookup k rest
  end.

Fixpoint store (k : string) (v : TradingPair) (ps : Pairs) : Pairs :=
  match ps with
  | [] => [(k, v)]
  | (k', v') :: rest =>
      if (k' =? k)%string then (k, v) :: rest else (k', v') :: store k v rest
  end.

(** The loop of lines 70-92 of [fetchTradingPairs]: a pool whose market
    data cannot be had is left out. *)
Fixpoint updatedPairs (pools : list TradingPairInfo)
  (tickerData : list MarketSummary) (acc : Pairs) : Pairs :=
  match pools with
  | [] => acc
  | pool :: rest =>
      let acc :=
        match getMarketData (pool_name pool) tickerData with
        | Some marketData =>
            store (pool_pair pool)
              {| id := pool_id pool;
                 baseCoin := pool_baseCoin pool;
                 baseCoinId := pool_baseCoinId pool;
                 quoteCoin := pool_quoteCoin pool;
                 quoteCoinId := pool_quoteCoinId pool;
                 pair := pool_pair pool;
                 price := md_price marketData;
                 volume24h := md_volume24h marketData;
                 marketCap := md_marketCap marketData;
                 change24h := md_change24h marketData;
                 volatility := md_volatility marketData;
                 liquidity := md_liquidity marketData;
                 poolId := pool_id pool;
                 poolName := pool_name pool |} acc
        | None => acc
        end in
      updatedPairs rest tickerData acc
  end.

(** The module's cache, lines 46-48. *)
Record Cache : Type := {
  tradingPairsCache : Pairs;
  lastFetchTime : Z
}.

Definition CACHE_DURATION : Z := 60000.

(** [fetchTradingPairs], lines 54-105, at clock reading [now]; [fetched]
    is what [getAllTradingPairs] and [fetchMarketData] deliver, [None]
    when the fetch throws.  This is a call that runs alone: no other
    call stores a table between its start and its return.  Calls that
    overlap are run on the event loop below ([page_step]). *)
Definition fetchTradingPairs (cache : Cache) (now : Z)
  (fetched : option (list TradingPairInfo * list MarketSummary))
  : Pairs * Cache :=
  if negb (List.length (tradingPairsCache cache) =? 0)%nat
     && (now - lastFetchTime cache <? CACHE_DURATION)
  then (tradingPairsCache cache, cache)
  else
    match fetched with
    | Some (pools, tickerData) =>
        let updated := updatedPairs pools tickerData [] in
        (updated,
         if negb (List.length updated =? 0)%nat
         then {| tradingPairsCache := updated; lastFetchTime := now |}
         else cache)
    | None => ([], cache)
    end.

(** Lines 121-126. *)
Definition rawScore (pairData : TradingPair) : number :=
  let volumeScore := mul (div (volume24h pairData) (num 15000000)) (num 3) in
  let changeScore := mul (div (change24h pairData) (num 10)) (num 3) in
  let volatilityScore :=
    mul (sub (num 1)
           (div (Math_abs (sub (volatility pairData) five_hundredths))
              five_hundredths))
      (num 2) in
  let liquidityScore := mul (liquidity pairData) (num 2) in
  add (add (add volumeScore changeScore) volatilityScore) liquidityScore.

(** The result, without the texts that only print numbers ([analysis],
    [price], [amount], [total]). *)
Record AnalysisResult : Type := {
  result_pair : string;
  score : number;
  recommendation : string;
  transactionType : string;
  tx_poolId : string;
  tx_poolName : string;
  tx_baseCoinId : string;
  tx_quoteCoinId : string
}.

(** [analyzeTradingPair], lines 112-177; [inr] is the error thrown. *)
Definition analyzeTradingPair (cache : Cache) (now : Z)
  (fetched : option (list TradingPairInfo * list MarketSummary))
  (pair : string) : (AnalysisResult + string) * Cache :=
  let '(tradingPairs, cache) := fetchTradingPairs cache now fetched in
  (match lookup pair tradingPairs with
   | None => inr ("Trading pair " ++ pair ++ " not found")
   | Some pairData =>
       let score :=
         Math_min (Math_max (Math_round (rawScore pairData)) (num 0)) (num 10) in
       let recommendation :=
         if ge score (num 8) then "Strong Buy"
         else if ge score (num 6) then "Buy"
         else if ge score (num 4) then "Hold"
         else if ge score (num 2) then "Sell"
         else "Strong Sell" in
       inl {| result_pair := pair;
              score := score;
              recommendation := recommendation;
              transactionType := if ge score (num 5) then "buy" else "sell";
              tx_poolId := poolId pairData;
              tx_poolName := poolName pairData;
              tx_baseCoinId := baseCoinId pairData;
              tx_quoteCoinId := quoteCoinId pairData |}
   end,
   cache).

(** Line 127 on a raw score. *)
Definition clamp_round (x : number) : number :=
  Math_min (Math_max (Math_round x) (num 0)) (num 10).

(** ** Concrete market data *)

Definition sui_usdc : TradingPairInfo :=
  {| pool_id := "0xpool"; pool_name := "SUI_USDC";
     pool_baseCoin := "SUI"; pool_baseCoinId := "0x2::sui::SUI";
     pool_quoteCoin := "USDC"; pool_quoteCoinId := "0xusdc::usdc::USDC";
     pool_pair := "SUI/USDC" |}.

(** A summary of the indexer: price 3, volume 12 000 000, bid 99, ask
    100, and the 24 h change given. *)
Definition summary (change : number) : MarketSummary :=
  {| trading_pairs := "SUI_USDC";
     last_price := num 3;
     quote_volume := num 12000000;
     price_change_percent_24h := change;
     highest_bid := num 99;
     lowest_ask := num 100 |}.

(** What the indexer delivers, and the cache of a page just loaded. *)
Definition fetched_with (change : number)
  : option (list TradingPairInfo * list MarketSummary) :=
  Some ([sui_usdc], [summary change]).

Definition empty_cache : Cache :=
  {| tradingPairsCache := []; lastFetchTime := 0 |}.

(** ** The callers of the analysis *)

(** [getTradingPairs], tradingAnalysis.ts lines 183-186:
    [Object.keys] of the table. *)
Definition getTradingPairs (cache : Cache) (now : Z)
  (fetched : option (list TradingPairInfo * list MarketSummary))
  : list string * Cache :=
  let '(pairs, cache) := fetchTradingPairs cache now fetched in
  (map fst pairs, cache).

(** [getScoreColor], TradingAnalysis.tsx lines 92-98. *)
Definition getScoreColor (score : number) : string :=
  if ge score (num 8) then "text-green-600"
  else if ge score (num 6) then "text-green-500"
  else if ge score (num 4) then "text-yellow-500"
  else if ge score (num 2) then "text-orange-500"
  else "text-red-500".

(** The class of the badge [getRecommendationBadge] makes,
    TradingAnalysis.tsx lines 100-115; the default badge has none. *)
Definition badge_class (recommendation : string) : string :=
  if (recommendation =? "Strong Buy")%string then "bg-green-600"
  else if (recommendation =? "Buy")%string then "bg-green-500"
  else if (recommendation =? "Hold")%string then "bg-yellow-500"
  else if (recommendation =? "Sell")%string then "bg-orange-500"
  else if (recommendation =? "Strong Sell")%string then "bg-red-500"
  else "".

(** ** Calls of [fetchTradingPairs] on the event loop *)

(** [fetchTradingPairs] is an [async] function: it runs to its first
    [await] when it is called and goes on when what it awaits has
    settled.  [fetch_begin] is lines 55-60: it reads the clock and
    either returns the cached table or goes on to fetch. *)
Inductive FetchStart : Type :=
| Served (tradingPairs : Pairs)
| Awaiting (now : Z).

Definition fetch_begin (cache : Cache) (now : Z) : FetchStart :=
  if negb (List.length (tradingPairsCache cache) =? 0)%nat
     && (now - lastFetchTime cache <? CACHE_DURATION)
  then Served (tradingPairsCache cache)
  else Awaiting now.

(** Lines 62-104 from the last [await] on, for the call that read [now]
    when it started; [cache] is the cache of the moment it goes on.  The
    table it builds is its own until it is stored in line 96. *)
Definition fetch_resume (cache : Cache) (now : Z)
  (fetched : option (list TradingPairInfo * list MarketSummary))
  : Pairs * Cache :=
  match fetched with
  | Some (pools, tickerData) =>
      let updated := updatedPairs pools tickerData [] in
      (updated,
       if negb (List.length updated =? 0)%nat
       then {| tradingPairsCache := updated; lastFetchTime := now |}
       else cache)
  | None => ([], cache)
  end.

(** [analyzeTradingPair] from line 114 on, once it has the table. *)
Definition analyse (tradingPairs : Pairs) (pair : string)
  : AnalysisResult + string :=
  match lookup pair tradingPairs with
  | None => inr ("Trading pair " ++ pair ++ " not found")
  | Some pairData =>
      let score :=
        Math_min (Math_max (Math_round (rawScore pairData)) (num 0)) (num 10) in
      let recommendation :=
        if ge score (num 8) then "Strong Buy"
        else if ge score (num 6) then "Buy"
        else if ge score (num 4) then "Hold"
        else if ge score (num 2) then "Sell"
        else "Strong Sell" in
      inl {| result_pair := pair;
             score := score;
             recommendation := recommendation;
             transactionType := if ge score (num 5) then "buy" else "sell";
             tx_poolId := poolId pairData;
             tx_poolName := poolName pairData;
             tx_baseCoinId := baseCoinId pairData;
             tx_quoteCoinId := quoteCoinId pairData |}
  end.

(** Who awaits the table ([fetchTradingPairs] called for itself,
    [getTradingPairs], [analyzeTradingPair] of a pair), and what the
    caller returns once it has it. *)
Inductive Caller : Type :=
| Fetches
| Lists
| Analyses (pair : string).

Inductive Outcome : Type :=
| Table (tradingPairs : Pairs)
| Names (names : list string)
| Analysis (result : AnalysisResult + string).

Definition returns (who : Caller) (tradingPairs : Pairs) : Outcome :=
  match who with
  | Fetches => Table tradingPairs
  | Lists => Names (map fst tradingPairs)
  | Analyses pair => Analysis (analyse tradingPairs pair)
  end.

(** The page: the module's cache, the calls that wait for their fetch
    (each with the clock reading of its start) and what the calls that
    have returned gave, latest first. *)
Record Page : Type := {
  page_cache : Cache;
  fetching : list (Caller * Z);
  outcomes : list Outcome
}.

(** What the event loop runs next: a call starts at clock reading [now],
    or the fetch of the [i]-th waiting call settles and that call goes
    on.  Between its start and the store of line 96 a call reads and
    writes neither the cache nor the clock, so its awaits (lines 64, 65
    and 72) are run as one. *)
Inductive PageEvent : Type :=
| Starts (who : Caller) (now : Z)
| Settles (i : nat) (fetched : option (list TradingPairInfo * list MarketSummary)).

Definition page_step (p : Page) (ev : PageEvent) : Page :=
  match ev with
  | Starts who now =>
      match fetch_begin (page_cache p) now with
      | Served tradingPairs =>
          {| page_cache := page_cache p; fetching := fetching p;
             outcomes := returns who tradingPairs :: outcomes p |}
      | Awaiting now =>
          {| page_cache := page_cache p;
             fetching := (fetching p ++ [(who, now)])%list;
             outcomes := outcomes p |}
      end
  | Settles i fetched =>
      match nth_error (fetching p) i with
      | Some (who, now) =>
          let '(tradingPairs, cache) := fetch_resume (page_cache p) now fetched in
          {| page_cache := cache;
             fetching := (firstn i (fetching p) ++ skipn (S i) (fetching p))%list;
             outcomes := returns who tradingPairs :: outcomes p |}
      | None => p
      end
  end.

Definition page_run (p : Page) (evs : list PageEvent) : Page :=
  fold_left page_step evs p.

(** What the calls that start among the events return when each is
    served the table [tradingPairs], latest first. *)
Fixpoint served (tradingPairs : Pairs) (evs : list PageEvent) : list Outcome :=
  match evs with
  | [] => []
  | Starts who _ :: rest =>
      (served tradingPairs rest ++ [returns who tradingPairs])%list
  | Settles _ _ :: rest => served tradingPairs rest
  end.

(** Every call among the events starts less than [CACHE_DURATION] after
    [time]. *)
Definition within (time : Z) (evs : list PageEvent) : Prop :=
  Forall (fun ev =>
            match ev with
            | Starts _ now => now - time < CACHE_DURATION
            | Settles _ _ => True
            end) evs.

(** A page just loaded. *)
Definition new_page : Page :=
  {| page_cache := empty_cache; fetching := []; outcomes := [] |}.

(** The first call of a page: the table and the cache it leaves. *)
Definition first_fetch : Pairs * Cache :=
  fetchTradingPairs empty_cache 1700000000000 (fetched_with (num 2)).

(** A summary of another pool whose name ends like the one of SUI_USDC. *)
Definition wsui_summary : MarketSummary :=
  {| trading_pairs := "WSUI_USDC";
     last_price := num 7;
     quote_volume := num 500;
     price_change_percent_24h := num 1;
     highest_bid := num 6;
     lowest_ask := num 8 |}.

(** That other pool, and an indexer that delivers it alone. *)
Definition wsui_usdc : TradingPairInfo :=
  {| pool_id := "0xwpool"; pool_name := "WSUI_USDC";
     pool_baseCoin := "WSUI"; pool_baseCoinId := "0xw::wsui::WSUI";
     pool_quoteCoin := "USDC"; pool_quoteCoinId := "0xusdc::usdc::USDC";
     pool_pair := "WSUI/USDC" |}.

Definition fetched_wsui : option (list TradingPairInfo * list MarketSummary) :=
  Some ([wsui_usdc], [wsui_summary]).

(** An analysis of SUI/USDC that has to fetch; while it waits the
    selection changes and [getTradingPairs] starts its own fetch, which
    settles first with the other pool; then the first fetch settles;
    then the pair now listed is analysed. *)
Definition overlapping_calls : list PageEvent :=
  [Starts (Analyses "SUI/USDC") 1700000000000;
   Starts Lists 1700000001000;
   Settles 1 fetched_wsui;
   Settles 0 (fetched_with (num 2));
   Starts (Analyses "WSUI/USDC") 1700000002000].

End Trading.

(* ================================================================== *)
(** * Concrete wire data *)
(* ================================================================== *)

Module Scenarios.
Import Js A2A JsonText.

Definition the_client : A2AClient :=
  {| baseUrl := "https://agent.example"; cachedAgentCard := JNull |}.

(** A platform with or without [crypto.randomUUID], a clock reading, and
    a server that answers every POST with [answer] and every GET with
    [card]. *)
Definition env_with (uuid : option string) (now : Z)
  (answer card : NetworkResult) : CallEnv :=
  {| crypto_randomUUID := uuid;
     Date_now := now;
     post := fun _ _ _ => answer;
     http_get := fun _ => card |}.

Definition a_uuid : option string := Some "0b0e2a5c-5d0f-4a8e-9a57-2f1f4b6c7d10".
Definition no_network : NetworkResult := Fails "Network Error".

Definition query : JsonValue := JObj [("id", JStr "t1")].

(** The answer of the scenario of the specification: an HTTP failure
    whose body is an error envelope. *)
Definition task_not_found : HttpReply :=
  {| reply_status := 404; reply_statusText := "Not Found";
     reply_data :=
       axios_data (wire "{'error':{'code':-32000,'message':'task not found'}}") |}.

Definition env_not_found : CallEnv :=
  env_with a_uuid 1700000000000 (Answers task_not_found) no_network.

(** A 200 response with the given body chunks. *)
Definition good_response (reads : list string) : Response :=
  {| status := 200; statusText := "OK";
     body := Some {| chunks := reads; ending := Closed |} |}.

(** Frames of a subscription. *)
Definition working : string :=
  wire "data: {'jsonrpc':'2.0','id':1,'result':{'id':'t1','status':{'state':'working'},'final':false}}".
Definition completed : string :=
  wire "data: {'jsonrpc':'2.0','id':1,'result':{'id':'t1','status':{'state':'completed'},'final':true}}".
Definition failure : string :=
  wire "data: {'jsonrpc':'2.0','id':1,'error':{'code':-32000,'message':'task not found'}}".
Definition garbled : string :=
  wire "data: {'jsonrpc':'2.0','id':1,'result':{'id':'t1'".

Definition working_event : JsonValue :=
  JObj [("id", JStr "t1"); ("status", JObj [("state", JStr "working")]);
        ("final", JBool false)].
Definition completed_event : JsonValue :=
  JObj [("id", JStr "t1"); ("status", JObj [("state", JStr "completed")]);
        ("final", JBool true)].


(** A 200 answer whose body is the given text. *)
Definition answer_200 (body_text : string) : NetworkResult :=
  Answers {| reply_status := 200; reply_statusText := "OK";
             reply_data := axios_data body_text |}.


(** A server that answers every POST with a result that tells which
    method and which request identifier it received. *)
Definition id_value (i : RequestId) : JsonValue :=
  match i with
  | IdString u => JStr u
  | IdNumber n => JNum n
  end.

Definition echo (url : string) (request : JSONRPCRequest) (accept : Accept)
  : NetworkResult :=
  Answers {| reply_status := 200; reply_statusText := "OK";
             reply_data :=
               JObj [("jsonrpc", JStr "2.0");
                     ("id", id_value (id request));
                     ("result", JObj [("method", JStr (method request));
                                      ("requestId", id_value (id request))])] |}.

(** A platform without [crypto.randomUUID] whose clock reads [now]. *)
Definition env_without_crypto (now : Z) : CallEnv :=
  {| crypto_randomUUID := None;
     Date_now := now;
     post := echo;
     http_get := fun _ => no_network |}.

(** An agent card and the answer that carries it. *)
Definition card : JsonValue :=
  JObj [("name", JStr "agent");
        ("capabilities", JObj [("streaming", JBool true);
                               ("pushNotifications", JBool false)])].
Definition card_answer : NetworkResult :=
  Answers {| reply_status := 200; reply_statusText := "OK"; reply_data := card |}.

(** ** Answers of a server in other moods *)

(** A platform with [crypto.randomUUID] whose every POST is answered
    with [answer]; no GET is. *)
Definition env_answering (answer : NetworkResult) : CallEnv :=
  env_with a_uuid 1700000000000 answer no_network.

(** A failure whose body carries [error: null]. *)
Definition error_is_null : HttpReply :=
  {| reply_status := 500; reply_statusText := "Internal Server Error";
     reply_data := JObj [("error", JNull)] |}.

Definition no_content : HttpReply :=
  {| reply_status := 204; reply_statusText := "No Content";
     reply_data := JStr "" |}.

(** A failure of a proxy: the body is no envelope. *)
Definition bad_gateway : HttpReply :=
  {| reply_status := 502; reply_statusText := "Bad Gateway";
     reply_data := JStr "upstream timed out" |}.

(** Status 200 with an error envelope, with a body that is no envelope,
    and with a result. *)
Definition error_with_200 : HttpReply :=
  {| reply_status := 200; reply_statusText := "OK";
     reply_data :=
       JObj [("jsonrpc", JStr "2.0"); ("id", JNum 1);
             ("error", JObj [("code", JNum (-32001));
                             ("message", JStr "Task not found");
                             ("data", JObj [("id", JStr "t1")])])] |}.


Definition submitted : JsonValue :=
  JObj [("id", JStr "t1"); ("status", JObj [("state", JStr "submitted")])].

Definition result_with_200 : HttpReply :=
  {| reply_status := 200; reply_statusText := "OK";
     reply_data :=
       JObj [("jsonrpc", JStr "2.0"); ("id", JNum 1); ("result", submitted)] |}.

(** A failure of the server that keeps the agent card. *)
Definition card_not_found : HttpReply :=
  {| reply_status := 404; reply_statusText := "Not Found";
     reply_data := JStr "" |}.

(** An error whose message is an object with a member [toString]: a
    failure that carries it, and an envelope that does with status 200. *)
Definition unprintable : JsonValue := JObj [("toString", JNum 0)].

Definition error_is_unprintable : HttpReply :=
  {| reply_status := 500; reply_statusText := "Internal Server Error";
     reply_data := JObj [("error", JObj [("message", unprintable)])] |}.


(** The task as [getTask] finds it later. *)
Definition completed_task : JsonValue :=
  JObj [("id", JStr "t1"); ("status", JObj [("state", JStr "completed")])].

Definition completed_with_200 : HttpReply :=
  {| reply_status := 200; reply_statusText := "OK";
     reply_data :=
       JObj [("jsonrpc", JStr "2.0"); ("id", JNum 1);
             ("result", completed_task)] |}.

(** ** Event streams as a server sends them *)

(** Three frames, each followed by a blank line: the one in the middle
    carries an error, or does not parse. *)
Definition error_stream : string :=
  working ++ blank_line ++ failure ++ blank_line ++ completed ++ blank_line.

Definition malformed_stream : string :=
  working ++ blank_line ++ garbled ++ blank_line ++ completed ++ blank_line.

(** A server that answers every POST with status 200 and the given
    text as its body. *)
Definition env_streaming (body_text : string) : CallEnv :=
  env_with a_uuid 1700000000000 (answer_200 body_text) no_network.

End Scenarios.

(* ================================================================== *)
(** * Properties of the stream decoder *)
(* ================================================================== *)

Module StreamFacts.
Import Js A2A.

(** ** Strings *)

Lemma append_nil_r (s : string) : s ++ "" = s.
Proof. induction s as [|c s IH]; simpl; [reflexivity | now rewrite IH]. Qed.

Lemma append_assoc (a b c : string) : (a ++ b) ++ c = a ++ (b ++ c).
Proof. induction a as [|x a IH]; simpl; [reflexivity | now rewrite IH]. Qed.

Lemma concat_cons (x : string) (l : list string) :
  String.concat "" (x :: l) = x ++ String.concat "" l.
Proof.
  destruct l as [|y l]; simpl; [now rewrite append_nil_r | reflexivity].
Qed.

Lemma strip_cr_app (a b : string) :
  strip_cr (a ++ b) = strip_cr a ++ strip_cr b.
Proof.
  induction a as [|c a IH]; simpl; [reflexivity|].
  destruct (Ascii.eqb c CR); simpl; now rewrite IH.
Qed.

Lemma strip_cr_idem (a : string) : strip_cr (strip_cr a) = strip_cr a.
Proof.
  induction a as [|c a IH]; simpl; [reflexivity|].
  destruct (Ascii.eqb c CR) eqn:E; simpl; [exact IH | now rewrite E, IH].
Qed.

(** ** Splitting at blank lines *)

Lemma split_blank_line_step (c : ascii) (rest : string) :
  split_blank_line (String c rest) =
  if opens_blank_line (String c rest)
  then EmptyString :: split_blank_line (substring_from 1 rest)
  else glue c (split_blank_line rest).
Proof.
  unfold glue. destruct rest as [|c' rest']; simpl.
  - destruct (Ascii.eqb c LF); reflexivity.
  - destruct (Ascii.eqb c LF); [|reflexivity].
    destruct (Ascii.eqb c' LF); reflexivity.
Qed.

Lemma split_blank_line_nonempty (s : string) : split_blank_line s <> [].
Proof.
  induction s as [|c rest IH]; [discriminate|].
  rewrite split_blank_line_step.
  destruct (opens_blank_line (String c rest)); [discriminate|].
  unfold glue. destruct (split_blank_line rest); discriminate.
Qed.

(** Induction along the recursion of [split_blank_line]. *)
Lemma split_induction (P : string -> Prop) :
  P "" ->
  (forall rest, P rest -> P (String LF (String LF rest))) ->
  (forall c rest, opens_blank_line (String c rest) = false ->
                  P rest -> P (String c rest)) ->
  forall s, P s.
Proof.
  intros H0 H2 H1.
  assert (both : forall s, P s /\ forall c, P (String c s)).
  { induction s as [|c' s [IHs IHc]].
    - split; [exact H0|]. intro c. apply H1; [|exact H0].
      simpl. destruct c as [[] [] [] [] [] [] [] []]; reflexivity.
    - split; [apply IHc|]. intro c.
      destruct (opens_blank_line (String c (String c' s))) eqn:E.
      + simpl in E. apply andb_prop in E as [E1 E2].
        apply Ascii.eqb_eq in E1, E2. subst. apply H2, IHs.
      + apply H1; [exact E | apply IHc]. }
  intro s. apply both.
Qed.

Lemma pop_nonempty (l : list string) :
  l <> [] -> pop l = (Some (last l ""), removelast l).
Proof.
  intro H. unfold pop.
  rewrite (app_removelast_last "" H) at 1.
  rewrite rev_app_distr. simpl. now rewrite rev_involutive.
Qed.

Lemma pop_split (s : string) :
  pop (split_blank_line s) = (Some (partial_frame s), complete_frames s).
Proof. apply pop_nonempty, split_blank_line_nonempty. Qed.

Lemma removelast_glue (c : ascii) (l : list string) :
  (2 <= List.length l)%nat -> removelast (glue c l) = glue c (removelast l).
Proof.
  destruct l as [|p [|q l]]; simpl; try lia. reflexivity.
Qed.

Lemma last_glue (c : ascii) (l : list string) :
  (2 <= List.length l)%nat -> last (glue c l) "" = last l "".
Proof.
  destruct l as [|p [|q l]]; simpl; try lia. reflexivity.
Qed.

Lemma opens_blank_line_app (c : ascii) (rest v : string) :
  rest <> "" ->
  opens_blank_line (String c rest ++ v) = opens_blank_line (String c rest).
Proof. destruct rest; [congruence | reflexivity]. Qed.

Lemma split_blank_line_open (rest : string) :
  split_blank_line (String LF (String LF rest)) = "" :: split_blank_line rest.
Proof. rewrite split_blank_line_step. reflexivity. Qed.

Lemma split_blank_line_glue (c : ascii) (rest : string) :
  opens_blank_line (String c rest) = false ->
  split_blank_line (String c rest) = glue c (split_blank_line rest).
Proof. intro H. now rewrite split_blank_line_step, H. Qed.

(** A text with no separator in it is its own single piece. *)
Lemma single_piece (x : string) :
  forall p, split_blank_line x = [p] -> p = x.
Proof.
  induction x using split_induction; intros p E.
  - now injection E.
  - rewrite split_blank_line_open in E. injection E as _ E.
    now apply split_blank_line_nonempty in E.
  - rewrite (split_blank_line_glue c x H) in E.
    pose proof (split_blank_line_nonempty x) as NE.
    destruct (split_blank_line x) as [|q more]; [congruence|].
    injection E as <- ->. now rewrite (IHx q eq_refl).
Qed.

(** Splitting a text that goes on: the complete frames of the first part
    stay, and the split resumes from the partial frame. *)
Lemma split_blank_line_app (x v : string) :
  split_blank_line (x ++ v) =
  (complete_frames x ++ split_blank_line (partial_frame x ++ v))%list.
Proof.
  unfold complete_frames, partial_frame.
  induction x using split_induction.
  - reflexivity.
  - change (String LF (String LF x) ++ v) with (String LF (String LF (x ++ v))).
    rewrite !split_blank_line_open, IHx.
    pose proof (split_blank_line_nonempty x) as NE.
    destruct (split_blank_line x) as [|p l]; [congruence|]. reflexivity.
  - rewrite (split_blank_line_glue c x H).
    pose proof (split_blank_line_nonempty x) as NE.
    destruct (split_blank_line x) as [|p [|q l]] eqn:E; [congruence| |].
    + (* a single piece: it is the whole of [String c x] *)
      apply single_piece in E. subst p. reflexivity.
    + change (String c x ++ v) with (String c (x ++ v)).
      assert (opens_blank_line (String c (x ++ v)) = false) as Hx.
      { destruct x as [|c' x']; [discriminate E|exact H]. }
      rewrite (split_blank_line_glue c _ Hx), IHx.
      rewrite removelast_glue, last_glue by (simpl; lia).
      reflexivity.
Qed.

Lemma complete_frames_app (x v : string) :
  complete_frames (x ++ v) =
  (complete_frames x ++ complete_frames (partial_frame x ++ v))%list.
Proof.
  unfold complete_frames at 1. rewrite split_blank_line_app.
  now rewrite removelast_app by apply split_blank_line_nonempty.
Qed.

Lemma partial_frame_app (x v : string) :
  partial_frame (x ++ v) = partial_frame (partial_frame x ++ v).
Proof.
  unfold partial_frame at 1. rewrite split_blank_line_app.
  pose proof (split_blank_line_nonempty (partial_frame x ++ v)) as NE.
  rewrite (app_removelast_last "" NE) at 1.
  now rewrite app_assoc, last_last.
Qed.

(** Pieces of a text without carriage returns have none. *)
Lemma strip_cr_pieces (x : string) :
  strip_cr x = x -> Forall (fun p => strip_cr p = p) (split_blank_line x).
Proof.
  induction x using split_induction; intro Hx.
  - now constructor.
  - rewrite split_blank_line_open. constructor; [reflexivity|].
    apply IHx. simpl in Hx. now injection Hx.
  - rewrite (split_blank_line_glue c x H).
    simpl in Hx. destruct (Ascii.eqb c CR) eqn:Ec.
    + (* the first character was dropped: impossible *)
      exfalso. assert (L : forall s, (String.length (strip_cr s) <= String.length s)%nat).
      { induction s as [|a s IHs]; simpl; [lia|].
        destruct (Ascii.eqb a CR); simpl; lia. }
      pose proof (L x) as Lx. rewrite Hx in Lx. simpl in Lx. lia.
    + injection Hx as Hx. specialize (IHx Hx).
      pose proof (split_blank_line_nonempty x) as NE.
      destruct (split_blank_line x) as [|p more]; [congruence|].
      inversion IHx as [|? ? Hp Hmore]; subst. simpl glue.
      constructor; [|exact Hmore]. simpl. now rewrite Ec, Hp.
Qed.

Lemma strip_cr_partial_frame (x : string) :
  strip_cr x = x -> strip_cr (partial_frame x) = partial_frame x.
Proof.
  intro Hx. apply strip_cr_pieces in Hx. unfold partial_frame.
  pose proof (split_blank_line_nonempty x) as NE.
  rewrite Forall_forall in Hx. apply Hx.
  rewrite (app_removelast_last "" NE) at 2. apply in_or_app. right. now left.
Qed.

Lemma partial_frame_single (x : string) :
  split_blank_line (partial_frame x) = [partial_frame x].
Proof.
  pose proof (split_blank_line_app x "") as A.
  rewrite !append_nil_r in A.
  pose proof (split_blank_line_nonempty x) as NE.
  rewrite (app_removelast_last "" NE) in A at 1.
  now apply app_inv_head in A.
Qed.

Lemma complete_frames_partial (x : string) :
  complete_frames (partial_frame x) = [].
Proof. unfold complete_frames. now rewrite partial_frame_single. Qed.

Lemma or_empty (l : string) : (if (l =? "")%string then "" else l) = l.
Proof. destruct (String.eqb_spec l ""); congruence. Qed.

Section Decoder.
Context {codec : JsonCodec}.

(** The loop yields what the complete frames of the whole text yield. *)
Lemma read_loop_spec (e : StreamEnd) (reads : list string) :
  forall buffer,
    strip_cr buffer = buffer ->
    complete_frames buffer = [] ->
    read_loop buffer reads e =
    (flat_map on_message
       (complete_frames (buffer ++ strip_cr (String.concat "" reads))),
     end_of e).
Proof.
  induction reads as [|value reads IH]; intros buffer Hcr Hnone.
  - simpl. rewrite append_nil_r, Hnone. destruct e; reflexivity.
  - cbn [read_loop].
    rewrite strip_cr_app, Hcr, pop_split, or_empty.
    assert (Hcr' : strip_cr (partial_frame (buffer ++ strip_cr value))
                   = partial_frame (buffer ++ strip_cr value)).
    { apply strip_cr_partial_frame. now rewrite strip_cr_app, Hcr, strip_cr_idem. }
    rewrite (IH _ Hcr' (complete_frames_partial _)).
    rewrite concat_cons, strip_cr_app, <- append_assoc.
    rewrite (complete_frames_app (buffer ++ strip_cr value)).
    now rewrite flat_map_app.
Qed.

(** What a subscription over a good response yields: the events of the
    complete frames of the text, whatever the chunks were. *)
Lemma handleStreaming_spec (r : Response) (reads : list string) (e : StreamEnd) :
  ok r = true ->
  _handleStreamingResponse (with_body r reads e) =
  {| yielded := flat_map on_message
                  (complete_frames (strip_cr (String.concat "" reads)));
     finished := end_of e;
     released := true |}.
Proof.
  intro Hok. unfold _handleStreamingResponse, with_body. cbn [body chunks ending].
  change (ok _) with (ok r). rewrite Hok.
  now rewrite (read_loop_spec e reads "" eq_refl eq_refl).
Qed.

(** C3. Stream reconstruction: the chunks of a payload, fed one at a
    time, make the decoder yield the events, end the way and release the
    reader as the whole payload fed as one chunk does. *)
Theorem stream_reconstruction (r : Response) (reads : list string) (e : StreamEnd) :
  _handleStreamingResponse (with_body r reads e) =
  _handleStreamingResponse (with_body r [String.concat "" reads] e).
Proof.
  destruct (ok r) eqn:Hok.
  - rewrite !handleStreaming_spec by exact Hok.
    cbn [String.concat]. reflexivity.
  - unfold _handleStreamingResponse, with_body. cbn [body].
    change (ok _) with (ok r) at 1. change (ok _) with (ok r). now rewrite Hok.
Qed.

(** ** Frames on the wire *)

Lemma split_frame (g w : string) :
  framed g = true ->
  split_blank_line (g ++ blank_line ++ w) = g :: split_blank_line w.
Proof.
  induction g as [|c g IH]; intro F.
  - apply split_blank_line_open.
  - change (String c g ++ blank_line ++ w) with (String c (g ++ blank_line ++ w)).
    assert (opens_blank_line (String c (g ++ blank_line ++ w)) = false
            /\ framed g = true) as [Ho Fg].
    { simpl in F. destruct (Ascii.eqb c LF) eqn:Ec.
      - destruct g as [|c' g']; [discriminate|].
        apply andb_prop in F as [F1 F2]. split; [|exact F2].
        simpl. rewrite Ec. simpl. now apply negb_true_iff in F1.
      - split; [|exact F]. destruct g; simpl; now rewrite Ec. }
    rewrite (split_blank_line_glue _ _ Ho), (IH Fg). reflexivity.
Qed.

Lemma complete_frames_encode (fs : list string) :
  Forall well_framed fs ->
  split_blank_line (strip_cr (encode_frames fs)) = (map strip_cr fs ++ [""])%list.
Proof.
  induction 1 as [|f fs Hf _ IH]; [reflexivity|].
  cbn [encode_frames map List.app].
  rewrite !strip_cr_app.
  change (strip_cr blank_line) with blank_line.
  now rewrite (split_frame _ _ Hf), IH.
Qed.

Lemma on_message_data (payload : string) :
  on_message ("data: " ++ payload) =
  if negb (trim payload =? "")%string then
    match try_catch (stream_try (trim payload)) (fun e => Normal None) with
    | Normal (Some result) => [result]
    | _ => []
    end
  else [].
Proof.
  unfold on_message.
  change (startsWith "data: " ("data: " ++ payload)) with true.
  change (substring_from 6 ("data: " ++ payload)) with payload.
  cbv iota. destruct (negb _); [|reflexivity].
  destruct (try_catch _ _) as [[r|]|]; reflexivity.
Qed.

Lemma on_message_event (f : string) (v : JsonValue) :
  event_frame f v -> on_message (strip_cr f) = [v].
Proof.
  intros (payload & ms & -> & Hne & Hp & Hv & He & Hr & Hnull).
  rewrite on_message_data.
  apply String.eqb_neq in Hne. rewrite Hne. cbn [negb].
  unfold stream_try. rewrite Hp. cbn [is_object negb orb get].
  rewrite Hv. cbn [String.eqb].
  change (("2.0" =? "2.0")%string) with true. cbn [negb].
  rewrite He, Hr. destruct v; try reflexivity. congruence.
Qed.

Lemma on_message_malformed (f : string) :
  malformed_frame f -> on_message (strip_cr f) = [].
Proof.
  intros (payload & -> & Hp). rewrite on_message_data.
  destruct (negb _); [|reflexivity].
  unfold stream_try. now rewrite Hp.
Qed.

Lemma flat_map_events (fvs : list (string * JsonValue)) :
  Forall (fun fv => event_frame (fst fv) (snd fv)) fvs ->
  flat_map on_message (map strip_cr (map fst fvs)) = map snd fvs.
Proof.
  induction 1 as [|[f v] fvs H _ IH]; [reflexivity|].
  cbn [map flat_map fst snd]. rewrite (on_message_event f v H), IH. reflexivity.
Qed.

(** The decoder on a body that holds the frames as they were sent, a
    blank line after each: with one malformed frame among event frames,
    the frames before and after it are all yielded, in order, and the
    run ends as the stream does; of the [N] frames, [N - 1] events come
    out. *)
Theorem malformed_frame_skipped
  (pre post : list (string * JsonValue)) (bad : string)
  (r : Response) (reads : list string) :
  Forall (fun fv => event_frame (fst fv) (snd fv)) pre ->
  Forall (fun fv => event_frame (fst fv) (snd fv)) post ->
  malformed_frame bad ->
  Forall well_framed (map fst pre ++ bad :: map fst post) ->
  String.concat "" reads = encode_frames (map fst pre ++ bad :: map fst post) ->
  ok r = true ->
  let run := _handleStreamingResponse (with_body r reads Closed) in
  yielded run = (map snd pre ++ map snd post)%list /\
  finished run = Normal tt /\
  S (List.length (yielded run)) = List.length (map fst pre ++ bad :: map fst post).
Proof.
  intros Hpre Hpost Hbad Hframed Hreads Hok run. subst run.
  rewrite (handleStreaming_spec r reads Closed Hok). cbn [yielded finished].
  rewrite Hreads. unfold complete_frames.
  rewrite (complete_frames_encode _ Hframed), removelast_last.
  rewrite map_app, flat_map_app. cbn [map flat_map].
  rewrite (on_message_malformed bad Hbad), !flat_map_events by assumption.
  cbn [List.app]. repeat split.
  repeat (rewrite ?length_app, ?length_map; cbn [List.length]). lia.
Qed.

End Decoder.

(** ** The decoder on concrete streams *)

Import JsonText Scenarios.

(** A payload of two frames cut inside the first frame, inside the blank
    line and inside the second frame yields the two events. *)
Example two_frames_in_pieces :
  _handleStreamingResponse
    (good_response
       [wire "data: {'jsonrpc':'2.0','id':1,'result':{'id':'t1','status':{'sta";
        wire "te':'working'},'final':false}}|";
        wire "|data: {'jsonrpc':'2.0','id':1,'result':{'id':'t1','status':{'state':'completed'},";
        wire "'final':true}}||"])
  = {| yielded := [working_event; completed_event];
       finished := Normal tt; released := true |}.
Proof. vm_compute. reflexivity. Qed.

(** No frame makes the decoder fail on a good response: the run ends as
    the stream does. *)
Lemma subscription_ends_as_stream
  {codec : JsonCodec} (r : Response) (reads : list string) (e : StreamEnd) :
  ok r = true ->
  finished (_handleStreamingResponse (with_body r reads e)) = end_of e.
Proof. intro Hok. now rewrite handleStreaming_spec. Qed.

(** The decoder on a body that holds the frames as they were sent: on
    an error frame the [try] block throws the [RpcError] made of the
    frame's code and message (line 675), the [catch] of line 693 logs
    it, and the run goes on: the frame after it is yielded and the run
    ends without an error. *)
Theorem error_frame_does_not_end_stream :
  stream_try (trim (substring_from 6 failure))
  = Throw (RpcError (Some (JNum (-32000))) "task not found" NoData) /\
  _handleStreamingResponse
    (good_response
       [working ++ blank_line ++ failure ++ blank_line ++ completed ++ blank_line])
  = {| yielded := [working_event; completed_event];
       finished := Normal tt; released := true |}.
Proof. split; vm_compute; reflexivity. Qed.

(** Checks that a concrete frame carries an event, by running the
    reference parser on its payload. *)
Ltac check_event_frame f :=
  exists (substring_from 6 f); eexists;
  split; [reflexivity|];
  split; [discriminate|];
  split; [vm_compute; reflexivity|];
  split; [reflexivity|];
  split; [reflexivity|];
  split; [reflexivity | discriminate].

Lemma event_frame_working : event_frame working working_event.
Proof. check_event_frame working. Qed.

Lemma event_frame_completed : event_frame completed completed_event.
Proof. check_event_frame completed. Qed.

Lemma malformed_frame_garbled : malformed_frame garbled.
Proof. exists (substring_from 6 garbled). split; reflexivity. Qed.

(** Three frames, the second garbled, in chunks cut inside the frames and
    inside a blank line: the first and the third are yielded. *)
Lemma malformed_frame_skipped_witness :
  let run :=
    _handleStreamingResponse
      (with_body (good_response [])
         [working ++ String LF EmptyString;
          String LF EmptyString ++ garbled ++ blank_line ++ wire "data: {'jsonrpc':";
          substring_from 17 completed ++ blank_line] Closed) in
  yielded run = [working_event; completed_event] /\
  finished run = Normal tt /\
  S (List.length (yielded run)) = 3%nat.
Proof.
  apply (malformed_frame_skipped (codec := codec)
           [(working, working_event)] [(completed, completed_event)] garbled).
  - repeat constructor. exact event_frame_working.
  - repeat constructor. exact event_frame_completed.
  - exact malformed_frame_garbled.
  - repeat constructor; reflexivity.
  - reflexivity.
  - reflexivity.
Defined.

End StreamFacts.

(* ================================================================== *)
(** * Properties of the subscriptions *)
(* ================================================================== *)

Module SubscriptionFacts.
Import Js A2A StreamFacts.

(** A text without line feed is a single piece. *)
Lemma split_no_line_feed (s : string) :
  no_line_feed s = true -> split_blank_line s = [s].
Proof.
  induction s as [|c s IH]; intro F; [reflexivity|].
  cbn [no_line_feed] in F. apply andb_prop in F as [Fc Fs].
  apply negb_true_iff in Fc.
  assert (opens_blank_line (String c s) = false) as Ho.
  { destruct s; cbn [opens_blank_line]; [reflexivity|]. now rewrite Fc. }
  rewrite (split_blank_line_glue _ _ Ho), (IH Fs). reflexivity.
Qed.

Lemma strip_cr_no_line_feed (s : string) :
  no_line_feed s = true -> no_line_feed (strip_cr s) = true.
Proof.
  induction s as [|c s IH]; intro F; [reflexivity|].
  cbn [no_line_feed] in F. apply andb_prop in F as [Fc Fs].
  cbn [strip_cr]. destruct (Ascii.eqb c CR); [now apply IH|].
  cbn [no_line_feed]. now rewrite Fc, (IH Fs).
Qed.

Section Facts.
Context {codec : JsonCodec}.

(** The response a subscription hands to the decoder: the status of a
    2xx answer and one chunk, [JSON.stringify] of its data (line 465). *)
Lemma subscription_response
  (method : string) (c : A2AClient) (env : CallEnv) (params : JsonValue)
  (response : Response) :
  _makeHttpRequest c env method params TextEventStream = Normal response ->
  exists r,
    ok response = true /\
    response = {| status := reply_status r;
                  statusText := reply_statusText r;
                  body := Some {| chunks := [JSON_stringify (reply_data r)];
                                  ending := Closed |} |}.
Proof.
  unfold _makeHttpRequest.
  destruct (post env (baseUrl c) _ TextEventStream) as [r|m]; unfold axios_settle.
  - destruct (validateStatus (reply_status r)) eqn:V; cbn [bind try_catch].
    + unfold new_Response.
      destruct (negb _); cbn [try_catch];
        [unfold makeHttpRequest_catch; cbn; discriminate|].
      destruct (null_body_status _); cbn [try_catch];
        [unfold makeHttpRequest_catch; cbn; discriminate|].
      intro E. injection E as <-. exists r. split; [|reflexivity].
      unfold ok, validateStatus in *. cbn [status].
      apply andb_prop in V as [V1 V2]. rewrite V1. cbn [andb].
      apply Z.leb_le. apply Z.ltb_lt in V2. lia.
    + unfold makeHttpRequest_catch. cbn [isAxiosError response_of].
      destruct (truthy (Some (reply_data r))); cbn [bind template ToString];
        [|discriminate].
      destruct (reply_data r) as [| | | | |ms]; cbn [bind template ToString];
        try discriminate.
      destruct (assoc "error" ms) as [errorObj|]; cbn [bind template ToString];
        [|discriminate].
      destruct (member (Some errorObj) "message") as [m|e]; cbn [bind];
        [|discriminate].
      destruct (member (Some errorObj) "code") as [k|e]; cbn [bind];
        [|discriminate].
      destruct (or_else m _) as [x|]; [destruct (template x)|]; discriminate.
  - unfold makeHttpRequest_catch. cbn. discriminate.
Qed.

(** No frame makes a subscription fail: when its request was answered,
    [sendTaskSubscribe] and [resubscribeTask] end without an error and
    with the reader released, whatever the body holds. *)
Lemma subscription_ends_normally
  (method : string) (c : A2AClient) (env : CallEnv) (params : JsonValue)
  (response : Response) :
  _makeHttpRequest c env method params TextEventStream = Normal response ->
  finished (stream_call method c env params) = Normal tt /\
  released (stream_call method c env params) = true.
Proof.
  intro E. unfold stream_call. rewrite E.
  destruct (subscription_response _ _ _ _ _ E) as (r & Hok & ->).
  change {| status := reply_status r; statusText := reply_statusText r;
            body := Some {| chunks := [JSON_stringify (reply_data r)];
                            ending := Closed |} |}
    with (with_body {| status := reply_status r;
                       statusText := reply_statusText r; body := None |}
            [JSON_stringify (reply_data r)] Closed).
  rewrite handleStreaming_spec by exact Hok. split; reflexivity.
Qed.

(** [JSON.stringify] writes a line feed of a string as an escape and
    adds none of its own.  With such an implementation the body of a
    subscription is one line, the decoder never finds a blank line in
    it, and the subscription yields nothing. *)
Lemma subscription_yields_nothing
  (method : string) (c : A2AClient) (env : CallEnv) (params : JsonValue)
  (response : Response) :
  (forall v, no_line_feed (JSON_stringify v) = true) ->
  _makeHttpRequest c env method params TextEventStream = Normal response ->
  stream_call method c env params
  = {| yielded := []; finished := Normal tt; released := true |}.
Proof.
  intros Hone E. unfold stream_call. rewrite E.
  destruct (subscription_response _ _ _ _ _ E) as (r & Hok & ->).
  change {| status := reply_status r; statusText := reply_statusText r;
            body := Some {| chunks := [JSON_stringify (reply_data r)];
                            ending := Closed |} |}
    with (with_body {| status := reply_status r;
                       statusText := reply_statusText r; body := None |}
            [JSON_stringify (reply_data r)] Closed).
  rewrite handleStreaming_spec by exact Hok.
  cbn [String.concat end_of]. unfold complete_frames.
  rewrite (split_no_line_feed _ (strip_cr_no_line_feed _ (Hone (reply_data r)))).
  reflexivity.
Qed.

End Facts.

(** ** Subscriptions on concrete streams *)

Import JsonText Scenarios.

(** An event-stream text is no JSON text: axios delivers it in [data]
    as the string it is. *)
Example stream_text_is_delivered_as_text :
  axios_data error_stream = JStr error_stream /\
  axios_data malformed_stream = JStr malformed_stream.
Proof. split; vm_compute; reflexivity. Qed.

(** C1. A server answers a subscription with status 200 and an event
    stream of three frames, the second of which carries an error.  The
    subscription does not fail with the [RpcError] of that frame, nor
    with any error: the body the decoder reads is [JSON.stringify] of
    the text (line 465), one line with no blank line in it, so
    [sendTaskSubscribe] and [resubscribeTask] yield nothing and end
    normally. *)
Theorem error_frame_in_a_subscription :
  sendTaskSubscribe the_client (env_streaming error_stream) query
  = {| yielded := []; finished := Normal tt; released := true |} /\
  resubscribeTask the_client (env_streaming error_stream) query
  = {| yielded := []; finished := Normal tt; released := true |}.
Proof. split; vm_compute; reflexivity. Qed.

(** C6. A server answers a subscription with status 200 and an event
    stream of three frames, the second of which does not parse.  Of the
    two events around it none is yielded, where the frame skipped would
    leave two: [sendTaskSubscribe] and [resubscribeTask] yield nothing
    and end normally. *)
Theorem malformed_frame_in_a_subscription :
  sendTaskSubscribe the_client (env_streaming malformed_stream) query
  = {| yielded := []; finished := Normal tt; released := true |} /\
  resubscribeTask the_client (env_streaming malformed_stream) query
  = {| yielded := []; finished := Normal tt; released := true |} /\
  (List.length (yielded (sendTaskSubscribe the_client
                           (env_streaming malformed_stream) query))
   < 3 - 1)%nat /\
  (List.length (yielded (resubscribeTask the_client
                           (env_streaming malformed_stream) query))
   < 3 - 1)%nat.
Proof.
  split; [vm_compute; reflexivity|]. split; [vm_compute; reflexivity|].
  split; vm_compute; repeat constructor.
Qed.

End SubscriptionFacts.

(* ================================================================== *)
(** * The reference codec writes no line feed *)
(* ================================================================== *)

Module CodecFacts.
Import Js A2A JsonText.

Lemma no_line_feed_app (a b : string) :
  no_line_feed (a ++ b) = no_line_feed a && no_line_feed b.
Proof.
  induction a as [|c a IH]; [reflexivity|].
  cbn [append no_line_feed]. now rewrite IH, andb_assoc.
Qed.

(** A check of every number below a bound holds of each of them. *)
Lemma checked_below (check : N -> bool) (bound : nat) :
  forallb check (map N.of_nat (seq 0 bound)) = true ->
  forall n, (n < N.of_nat bound)%N -> check n = true.
Proof.
  intros H n Hn. rewrite forallb_forall in H. apply H.
  apply in_map_iff. exists (N.to_nat n). split; [lia|].
  apply in_seq. lia.
Qed.

Lemma digit_no_line_feed (n : N) :
  Ascii.eqb (ascii_of_N (48 + N.modulo n 10)) LF = false.
Proof.
  apply negb_true_iff.
  apply (checked_below (fun m => negb (Ascii.eqb (ascii_of_N (48 + m)) LF)) 10).
  - reflexivity.
  - apply N.mod_upper_bound. discriminate.
Qed.

Lemma digits_of_no_line_feed (fuel : nat) :
  forall n acc,
    no_line_feed acc = true -> no_line_feed (digits_of fuel n acc) = true.
Proof.
  induction fuel as [|fuel IH]; intros n acc H; [exact H|].
  cbn [digits_of].
  assert (no_line_feed (String (ascii_of_N (48 + N.modulo n 10)) acc) = true) as H'.
  { cbn [no_line_feed]. now rewrite digit_no_line_feed, H. }
  destruct (N.div n 10 =? 0)%N; [exact H'|]. now apply IH.
Qed.

Lemma string_of_Z_no_line_feed (z : Z) : no_line_feed (string_of_Z z) = true.
Proof.
  destruct z; [reflexivity| |]; cbn [string_of_Z no_line_feed];
    now rewrite ?digits_of_no_line_feed.
Qed.

Lemma hex_char_no_line_feed (n : N) :
  (n < 16)%N -> Ascii.eqb (hex_char n) LF = false.
Proof.
  intro H. apply negb_true_iff.
  now apply (checked_below (fun m => negb (Ascii.eqb (hex_char m) LF)) 16).
Qed.

Lemma quote_chars_no_line_feed (s : string) :
  no_line_feed (quote_chars s) = true.
Proof.
  induction s as [|c s IH]; [reflexivity|].
  cbn [quote_chars].
  destruct (Ascii.eqb c QUOTE); [cbn [no_line_feed]; now rewrite IH|].
  destruct (Ascii.eqb c "\"); [cbn [no_line_feed]; now rewrite IH|].
  destruct (N_of_ascii c =? 8)%N; [cbn [no_line_feed]; now rewrite IH|].
  destruct (N_of_ascii c =? 12)%N; [cbn [no_line_feed]; now rewrite IH|].
  destruct (N_of_ascii c =? 10)%N eqn:E10; [cbn [no_line_feed]; now rewrite IH|].
  destruct (N_of_ascii c =? 13)%N; [cbn [no_line_feed]; now rewrite IH|].
  destruct (N_of_ascii c =? 9)%N; [cbn [no_line_feed]; now rewrite IH|].
  destruct (N_of_ascii c <? 32)%N eqn:E32.
  - apply N.ltb_lt in E32.
    cbn [append no_line_feed].
    rewrite !hex_char_no_line_feed, IH; [reflexivity| |].
    + apply N.mod_upper_bound. discriminate.
    + apply N.Div0.div_lt_upper_bound. lia.
  - cbn [no_line_feed]. rewrite IH.
    destruct (Ascii.eqb_spec c LF) as [->|]; [discriminate E10|reflexivity].
Qed.

Lemma quote_no_line_feed (s : string) : no_line_feed (quote s) = true.
Proof.
  unfold quote. cbn [no_line_feed].
  now rewrite no_line_feed_app, quote_chars_no_line_feed.
Qed.

(** The reference implementation writes no line feed. *)
Lemma stringify_no_line_feed :
  forall v, no_line_feed (stringify v) = true.
Proof.
  fix IH 1. intro v. destruct v as [|[|]|n|s|items|ms]; try reflexivity.
  - apply string_of_Z_no_line_feed.
  - apply quote_no_line_feed.
  - cbn [stringify]. rewrite !no_line_feed_app.
    enough (no_line_feed
              ((fix go (l : list JsonValue) : string :=
                  match l with
                  | [] => ""
                  | [x] => stringify x
                  | x :: (_ :: _) as rest => stringify x ++ "," ++ go rest
                  end) items) = true) as -> by reflexivity.
    induction items as [|x rest IHl]; [reflexivity|].
    destruct rest as [|y rest]; [apply IH|].
    rewrite !no_line_feed_app, IH. exact IHl.
  - cbn [stringify]. rewrite !no_line_feed_app.
    enough (no_line_feed
              ((fix go (l : list (string * JsonValue)) : string :=
                  match l with
                  | [] => ""
                  | [(k, x)] => quote k ++ ":" ++ stringify x
                  | (k, x) :: (_ :: _) as rest =>
                      quote k ++ ":" ++ stringify x ++ "," ++ go rest
                  end) ms) = true) as -> by reflexivity.
    induction ms as [|[k x] rest IHl]; [reflexivity|].
    destruct rest as [|y rest];
      rewrite !no_line_feed_app, quote_no_line_feed, IH; [reflexivity|].
    exact IHl.
Qed.

(** With the reference implementation every subscription whose request
    was answered yields nothing and ends normally. *)
Lemma reference_subscription_yields_nothing
  (method : string) (c : A2AClient) (env : CallEnv) (params : JsonValue)
  (response : Response) :
  _makeHttpRequest c env method params TextEventStream = Normal response ->
  stream_call method c env params
  = {| yielded := []; finished := Normal tt; released := true |}.
Proof.
  apply SubscriptionFacts.subscription_yields_nothing.
  exact stringify_no_line_feed.
Qed.

End CodecFacts.

(* ================================================================== *)
(** * Properties of the single calls and of the agent card *)
(* ================================================================== *)

Module ClientFacts.
Import Js A2A.

Section Facts.
Context {codec : JsonCodec}.

(** ** Single calls *)

(** C2 (as amended). A non-success status with an error envelope in the
    body: the call fails with the server's code and with the server's
    message behind the prefix "Network error: ". *)
Theorem getTask_error_envelope
  (c : A2AClient) (env : CallEnv) (params : JsonValue) (r : HttpReply)
  (ms em : list (string * JsonValue)) (code : Z) (msg : string) :
  post env (baseUrl c) (request_of env "tasks/get" params) ApplicationJson
    = Answers r ->
  validateStatus (reply_status r) = false ->
  reply_data r = JObj ms ->
  assoc "error" ms = Some (JObj em) ->
  assoc "code" em = Some (JNum code) -> code <> 0 ->
  assoc "message" em = Some (JStr msg) -> msg <> "" ->
  getTask c env params =
  Throw (RpcError (Some (JNum code)) ("Network error: " ++ msg)
           (Caught (AxiosError
                      ("Request failed with status code "
                       ++ string_of_Z (reply_status r)) (Some r)))).
Proof.
  intros Hpost Hstatus Hdata Herr Hcode Hc0 Hmsg Hm0.
  unfold getTask, single_call, _makeHttpRequest.
  fold (request_of env "tasks/get" params). rewrite Hpost.
  unfold axios_settle. rewrite Hstatus. cbn [bind try_catch].
  unfold makeHttpRequest_catch.
  cbn [isAxiosError response_of message_of]. rewrite Hdata.
  cbn [truthy]. rewrite Herr. cbn [member get bind].
  rewrite Hmsg, Hcode. unfold or_else. cbn [truthy].
  apply Z.eqb_neq in Hc0. apply String.eqb_neq in Hm0.
  rewrite Hc0, Hm0. cbn [negb bind ToString]. reflexivity.
Qed.


(** ** The agent card *)

(** C8. [supports] never fails, whatever the capability asked for, and
    answers [false] when the descriptor has to be fetched and the fetch
    fails. *)
Theorem supports_never_fails
  (c : A2AClient) (env : CallEnv) (capability : string) :
  (exists b, snd (fst (supports c env capability)) = Normal b) /\
  (forall err,
      truthy (Some (cachedAgentCard c)) = false ->
      axios_settle (http_get env (baseUrl c ++ "/agent-card")) = Throw err ->
      supports c env capability = (c, Normal false, 1%nat)).
Proof.
  split.
  - unfold supports. destruct (agentCard c env) as [[c' card] n].
    cbn [fst snd]. destruct card as [card|e]; cbn [bind try_catch]; [|eauto].
    assert (F : forall flag, exists b,
               try_catch (capability_flag card flag) (fun _ => Normal false)
               = Normal b).
    { intro flag. unfold capability_flag, member.
      destruct card; cbn [bind try_catch get]; eauto;
        match goal with
        | |- context [assoc ?k ?m] => destruct (assoc k m) as [[]|]
        end; cbn [try_catch]; eauto. }
    destruct (capability =? "streaming")%string; [apply F|].
    destruct (capability =? "pushNotifications")%string; [apply F|].
    cbn [try_catch]. eauto.
  - intros err Hcache Hget. unfold supports, agentCard, agentCard_begin.
    rewrite Hcache, Hget. reflexivity.
Qed.

Lemma step_settle_gets (l : Loop) (i : nat) (answer : NetworkResult) :
  gets (step l (Settle i answer)) = gets l.
Proof.
  unfold step. destruct (nth_error (waiting l) i); [|reflexivity].
  destruct (agentCard_resume _ _ _). reflexivity.
Qed.

Lemma run_settles_gets (k i : nat) (answer : NetworkResult) :
  forall l, gets (run l (repeat (Settle i answer) k)) = gets l.
Proof.
  induction k as [|k IH]; intro l; [reflexivity|].
  cbn [repeat run fold_left]. fold (run (step l (Settle i answer))).
  unfold run in IH. now rewrite IH, step_settle_gets.
Qed.

(** Callers that arrive while the cache is empty each issue a GET. *)
Lemma run_calls_empty_cache (k : nat) :
  forall l,
    truthy (Some (cachedAgentCard (client l))) = false ->
    let l' := run l (repeat Call k) in
    gets l' = (gets l + k)%nat /\ client l' = client l.
Proof.
  induction k as [|k IH]; intros l Hc; cbn zeta.
  - cbn. split; [lia | reflexivity].
  - cbn [repeat run fold_left].
    assert (S1 : gets (step l Call) = S (gets l) /\ client (step l Call) = client l).
    { unfold step, agentCard_begin. rewrite Hc. now cbn. }
    destruct S1 as [G C].
    specialize (IH (step l Call)). rewrite C in IH. specialize (IH Hc).
    cbn zeta in IH. unfold run in IH. destruct IH as [IH1 IH2].
    rewrite IH1, IH2, G. split; [lia | reflexivity].
Qed.

(** Once a truthy card is cached and no call is waiting, calls awaited
    one after the other issue nothing. *)
Lemma run_one_by_one_cached (n : nat) (answer : NetworkResult) :
  forall l,
    truthy (Some (cachedAgentCard (client l))) = true ->
    waiting l = [] ->
    gets (run l (one_by_one n answer)) = gets l.
Proof.
  induction n as [|n IH]; intros l Hc Hw; [reflexivity|].
  cbn [one_by_one run fold_left].
  assert (S1 : step (step l Call) (Settle 0 answer) =
               {| client := client l; waiting := []; gets := gets l;
                  returned := Normal (cachedAgentCard (client l)) :: returned l |}).
  { unfold step at 2. unfold agentCard_begin. rewrite Hc.
    unfold step. cbn [waiting]. rewrite Hw. reflexivity. }
  rewrite S1. unfold run in IH. now rewrite IH.
Qed.

(** C4 (as amended). While the cache is empty and the GET answers with a
    descriptor that is truthy, calls of [agentCard] awaited one after the
    other issue one GET in all; [k] callers that arrive before any GET
    settles issue [k] GETs, whatever the answer is. *)
Theorem agentCard_fetch_count
  (c : A2AClient) (answer : NetworkResult) (r : HttpReply) (n k : nat) :
  truthy (Some (cachedAgentCard c)) = false ->
  answer = Answers r ->
  validateStatus (reply_status r) = true ->
  truthy (Some (reply_data r)) = true ->
  gets (run (fresh c) (one_by_one (S n) answer)) = 1%nat /\
  gets (run (fresh c) (all_at_once k answer)) = k.
Proof.
  intros Hc -> Hs Ht. split.
  - cbn [one_by_one run fold_left].
    assert (S1 : step (step (fresh c) Call) (Settle 0 (Answers r)) =
                 {| client := {| baseUrl := baseUrl c;
                                 cachedAgentCard := reply_data r |};
                    waiting := []; gets := 1;
                    returned := [Normal (reply_data r)] |}).
    { unfold step at 2. unfold agentCard_begin, fresh. cbn [client].
      rewrite Hc. unfold step. cbn [waiting nth_error List.app].
      unfold axios_settle. rewrite Hs. reflexivity. }
    rewrite S1.
    match goal with |- gets (fold_left step _ ?l1) = _ =>
      apply (run_one_by_one_cached n (Answers r) l1); [exact Ht | reflexivity]
    end.
  - unfold all_at_once, run. rewrite fold_left_app.
    fold (run (fresh c) (repeat Call k)).
    fold (run (run (fresh c) (repeat Call k)) (repeat (Settle 0 (Answers r)) k)).
    rewrite run_settles_gets.
    now destruct (run_calls_empty_cache k (fresh c) Hc) as [-> _].
Qed.

(** ** Request identifiers *)

(** Without [crypto.randomUUID], calls that read the same millisecond
    from the clock stamp their requests with the same identifier. *)
Lemma fallback_ids_collide
  (env1 env2 : CallEnv) (m1 m2 : string) (p1 p2 : JsonValue) :
  crypto_randomUUID env1 = None ->
  crypto_randomUUID env2 = None ->
  Date_now env1 = Date_now env2 ->
  id (request_of env1 m1 p1) = id (request_of env2 m2 p2).
Proof.
  intros H1 H2 Hnow. unfold request_of, _generateRequestId. cbn [id].
  now rewrite H1, H2, Hnow.
Qed.

(** Identifiers are as distinct as what the platform hands out: with
    [crypto.randomUUID], two calls differ when the tokens drawn do. *)
Lemma uuid_ids_differ
  (env1 env2 : CallEnv) (u1 u2 m1 m2 : string) (p1 p2 : JsonValue) :
  crypto_randomUUID env1 = Some u1 ->
  crypto_randomUUID env2 = Some u2 ->
  u1 <> u2 ->
  id (request_of env1 m1 p1) <> id (request_of env2 m2 p2).
Proof.
  intros H1 H2 Hne. unfold request_of, _generateRequestId. cbn [id].
  rewrite H1, H2. congruence.
Qed.

End Facts.

(** ** The client on concrete answers *)

Import JsonText Scenarios.

Lemma getTask_error_envelope_witness :
  getTask the_client env_not_found query =
  Throw (RpcError (Some (JNum (-32000))) "Network error: task not found"
           (Caught (AxiosError "Request failed with status code 404"
                      (Some task_not_found)))).
Proof.
  apply (getTask_error_envelope (codec := codec) the_client env_not_found query
           task_not_found
           [("error", JObj [("code", JNum (-32000));
                            ("message", JStr "task not found")])]
           [("code", JNum (-32000)); ("message", JStr "task not found")]
           (-32000) "task not found");
    try reflexivity; discriminate.
Defined.

(** The scenario of the specification: the call fails with the code
    -32000, and its message is not the server's message as it stands. *)
Lemma getTask_message_is_prefixed :
  exists data,
    getTask the_client env_not_found query
    = Throw (RpcError (Some (JNum (-32000))) "Network error: task not found" data)
    /\ ("Network error: task not found" =? "task not found")%string = false.
Proof. eexists. split; reflexivity. Qed.



(** Through [_makeHttpRequest] the body the decoder reads is
    [JSON.stringify] of what axios delivered.  For an event-stream text
    that is one quoted string with its line feeds escaped: it holds no
    blank line, so the subscription yields nothing. *)
Example subscription_reads_quoted_text :
  sendTaskSubscribe the_client
    (env_with a_uuid 1700000000000
       (answer_200 (working ++ blank_line ++ completed ++ blank_line))
       no_network)
    query
  = {| yielded := []; finished := Normal tt; released := true |}.
Proof. vm_compute. reflexivity. Qed.

Lemma supports_never_fails_witness :
  supports the_client (env_with a_uuid 1700000000000 no_network no_network)
    "streaming"
  = (the_client, Normal false, 1%nat).
Proof.
  apply (proj2 (supports_never_fails the_client
                  (env_with a_uuid 1700000000000 no_network no_network)
                  "streaming")
           (AxiosError "Network Error" None));
    reflexivity.
Defined.

Lemma agentCard_fetch_count_witness :
  gets (run (fresh the_client) (one_by_one 3 card_answer)) = 1%nat /\
  gets (run (fresh the_client) (all_at_once 3 card_answer)) = 3%nat.
Proof.
  apply (agentCard_fetch_count the_client card_answer
           {| reply_status := 200; reply_statusText := "OK"; reply_data := card |}
           2 3);
    reflexivity.
Defined.

(** Two callers before the first GET settles: two GETs go out, and both
    callers get the card. *)
Lemma two_callers_two_fetches :
  gets (run (fresh the_client) (all_at_once 2 card_answer)) = 2%nat /\
  returned (run (fresh the_client) (all_at_once 2 card_answer))
  = [Normal card; Normal card].
Proof. split; reflexivity. Qed.

(** C5. Without [crypto.randomUUID], a [sendTask] and a [getTask] issued
    within one millisecond reach the server with the same request
    identifier. *)
Theorem same_millisecond_same_id :
  sendTask the_client (env_without_crypto 1700000000000) query
  = Normal (JObj [("method", JStr "tasks/send");
                  ("requestId", JNum 1700000000000)]) /\
  getTask the_client (env_without_crypto 1700000000000) query
  = Normal (JObj [("method", JStr "tasks/get");
                  ("requestId", JNum 1700000000000)]).
Proof. split; vm_compute; reflexivity. Qed.

End ClientFacts.

(* ================================================================== *)
(** * Properties of the wallet *)
(* ================================================================== *)

Module WalletFacts.
Import Wallet.

Lemma guard_fires (w : OneKeyHardwareWallet) :
  disconnected w -> negb (isConnected w) || missing (address w) = true.
Proof.
  intros [H | H]; rewrite H; [reflexivity|].
  cbn [missing]. apply orb_true_r.
Qed.

(** C9. On a wallet that is not connected both operations are rejected
    with "Wallet not connected" and nothing has been done by then: no
    transaction made or built, no order routed, no request to the device. *)
Theorem not_connected_rejects_first
  (sdk : Collaborators) (w : OneKeyHardwareWallet)
  (td : TransactionData) (actions : list Action) :
  disconnected w ->
  run (signAndExecuteTransaction sdk w td)
  = ([], Rejected "Wallet not connected") /\
  run (signAndExecuteSuiTransaction sdk w actions)
  = ([], Rejected "Wallet not connected").
Proof.
  intro H. apply guard_fires in H.
  unfold run, signAndExecuteTransaction, signAndExecuteSuiTransaction.
  rewrite H. split; reflexivity.
Qed.

(** The states the guard meets in practice: a wallet that was
    disconnected, and one whose [connect] was rejected. *)
Lemma disconnect_disconnects (w : OneKeyHardwareWallet) :
  disconnected (disconnect w).
Proof. left. reflexivity. Qed.

Lemma rejected_connect_stays_disconnected
  (sdk : Collaborators) (w : OneKeyHardwareWallet) (log : list Effect) :
  disconnected w ->
  forall w' log' m,
    connect sdk w log = (w', (log', Rejected m)) ->
    disconnected w'.
Proof.
  intros D w' log' m. unfold connect.
  destruct (getDeviceList sdk log) as [l [[|device devices]|m0]].
  - intro E. injection E as <- _ _. exact D.
  - set (w1 := {| isConnected := isConnected w; address := address w;
                  evm_address := evm_address w;
                  connectId := device_connectId device;
                  deviceId := device_deviceId device;
                  orderBook := orderBook w |}).
    assert (D1 : disconnected w1) by exact D.
    destruct (missing (connectId w1) || missing (deviceId w1)).
    + intro E. injection E as <- _ _. exact D1.
    + destruct (getSuiAddress sdk _ _ _ l) as [l1 [a|m1]].
      * destruct (missing a).
        -- intro E. injection E as <- _ _. exact D1.
        -- destruct (getEVMAddress sdk _ _ _ l1) as [l2 [e|m2]].
           ++ destruct (missing e); intro E; [|discriminate E].
              injection E as <- _ _. exact D1.
           ++ intro E. injection E as <- _ _. exact D1.
      * intro E. injection E as <- _ _. exact D1.
  - intro E. injection E as <- _ _. exact D.
Qed.

(** ** The wallet on concrete calls *)

Lemma not_connected_rejects_first_witness :
  run (signAndExecuteTransaction willing new_wallet a_buy)
  = ([], Rejected "Wallet not connected") /\
  run (signAndExecuteSuiTransaction willing new_wallet [a_transfer])
  = ([], Rejected "Wallet not connected").
Proof.
  apply (not_connected_rejects_first willing new_wallet a_buy [a_transfer]).
  left. reflexivity.
Defined.

Example connect_then_sign :
  fst (connect willing new_wallet []) = connected_wallet.
Proof. reflexivity. Qed.

(** The same calls on a connected wallet go through the collaborators. *)
Example connected_wallet_signs :
  run (signAndExecuteTransaction willing connected_wallet a_buy)
  = ([NewTransaction "0xa11ce";
      FindRouters "0x2::sui::SUI" "0xusdc::usdc::USDC" "1000" true;
      FastRouterSwap 1 true;
      SetGasBudget 10000;
      Build;
      SuiSignTransaction "usb-1" "dev-1" DEFAULT_SUI_PATH "00a1b2"],
     Resolved {| digest := "c2lnbmF0dXJl"; receipt_status := "success";
                 receipt_timestamp := "2025-01-01T00:00:00.000Z";
                 transaction := a_buy;
                 deepbookTx := [NewTransaction "0xa11ce";
                                FindRouters "0x2::sui::SUI" "0xusdc::usdc::USDC" "1000" true;
                                FastRouterSwap 1 true;
                                SetGasBudget 10000;
                                Build] |}).
Proof. reflexivity. Qed.

End WalletFacts.

(* ================================================================== *)
(** * Properties of the trading score *)
(* ================================================================== *)

Module TradingFacts.
Import Trading.

Lemma below_power (p : positive) : Zpos p < 2 ^ Zpos (Pos.size p).
Proof.
  pose proof (Pos.size_gt p) as G.
  apply Pos2Z.pos_lt_pos in G. now rewrite Pos2Z.inj_pow in G.
Qed.

Lemma size_small (p : positive) :
  Zpos (Pos.size p) <= 4 -> (p < 16)%positive.
Proof.
  intro H. pose proof (below_power p) as G.
  assert (2 ^ Zpos (Pos.size p) <= 2 ^ 4) as L
    by (apply Z.pow_le_mono_r; lia).
  change (2 ^ 4) with 16 in L. lia.
Qed.

Lemma size_large (p : positive) :
  (11 <= p)%positive -> 4 <= Zpos (Pos.size p).
Proof.
  intro H. pose proof (below_power p) as G.
  destruct (Z_le_gt_dec 4 (Zpos (Pos.size p))) as [L|L]; [exact L|].
  assert (2 ^ Zpos (Pos.size p) <= 2 ^ 3) as L'
    by (apply Z.pow_le_mono_r; lia).
  change (2 ^ 3) with 8 in L'. lia.
Qed.

(** An integer above ten compares above [10]. *)
Lemma above_ten (p : positive) :
  (11 <= p)%positive -> SFcompare (of_pos false p) (num 10) = Some Gt.
Proof.
  intro H. pose proof (size_large p H) as L.
  destruct (Z.eq_dec (Zpos (Pos.size p)) 4) as [E|NE].
  - assert (p < 16)%positive as U by (apply size_small; lia).
    assert (p = 11 \/ p = 12 \/ p = 13 \/ p = 14 \/ p = 15)%positive
      as [-> | [-> | [-> | [-> | ->]]]] by lia; reflexivity.
  - change (num 10) with (S754_finite false 5629499534213120 (-49)).
    unfold of_pos. cbn [SFcompare].
    assert ((Zpos (Pos.size p) - prec ?= -49) = Gt) as ->
      by (apply Z.compare_gt_iff; unfold prec; lia).
    reflexivity.
Qed.

(** Rounded values within the scale are kept; the others go to its ends. *)
Lemma clamp_integer (s : bool) (n : Z) :
  exists k, 0 <= k <= 10 /\
    Math_min (Math_max (if n =? 0 then S754_zero s else num n) (num 0)) (num 10)
    = num k.
Proof.
  destruct n as [|p|p].
  - exists 0. split; [lia|]. destruct s; reflexivity.
  - destruct (Pos.leb_spec p 10) as [L|G].
    + exists (Zpos p). split; [lia|].
      assert (p = 1 \/ p = 2 \/ p = 3 \/ p = 4 \/ p = 5 \/ p = 6 \/ p = 7
              \/ p = 8 \/ p = 9 \/ p = 10)%positive
        as [-> | [-> | [-> | [-> | [-> | [-> | [-> | [-> | [-> | ->]]]]]]]]]
        by lia; reflexivity.
    + exists 10. split; [lia|].
      change (Zpos p =? 0) with false. cbv iota.
      assert (Math_max (num (Zpos p)) (num 0) = num (Zpos p)) as -> by reflexivity.
      unfold Math_min. change (num (Zpos p)) with (of_pos false p).
      rewrite above_ten by lia. reflexivity.
  - exists 0. split; [lia|]. reflexivity.
Qed.

(** Whatever the raw score, unless it is [NaN], line 127 gives one of the
    integers from 0 to 10. *)
Lemma clamp_round_range (x : number) :
  isNaN x = false ->
  exists k, 0 <= k <= 10 /\ clamp_round x = num k.
Proof.
  intro H. unfold clamp_round.
  destruct x as [s|s| |s m e]; try discriminate.
  - exists 0. split; [lia|]. destruct s; reflexivity.
  - destruct s; [exists 0 | exists 10]; (split; [lia | reflexivity]).
  - unfold Math_round. destruct (Z.leb_spec 0 e) as [L|L].
    + destruct s.
      * exists 0. split; [lia | reflexivity].
      * exists 10. split; [lia|].
        assert (Math_max (S754_finite false m e) (num 0) = S754_finite false m e)
          as -> by reflexivity.
        change (num 10) with (S754_finite false 5629499534213120 (-49)).
        unfold Math_min. cbn [SFcompare].
        assert ((e ?= -49) = Gt) as -> by (apply Z.compare_gt_iff; lia).
        reflexivity.
    + apply clamp_integer.
Qed.

Lemma ge_five (k : Z) :
  0 <= k <= 10 -> ge (num k) (num 5) = (5 <=? k).
Proof.
  intro H.
  assert (k = 0 \/ k = 1 \/ k = 2 \/ k = 3 \/ k = 4 \/ k = 5 \/ k = 6 \/ k = 7
          \/ k = 8 \/ k = 9 \/ k = 10)
    as [-> | [-> | [-> | [-> | [-> | [-> | [-> | [-> | [-> | [-> | ->]]]]]]]]]]
    by lia; reflexivity.
Qed.

(** Whatever table [fetchTradingPairs] returns, a pair of it whose raw
    score is not [NaN] gets a score that is one of the integers 0..10,
    and the transaction is a buy from 5 up and a sell below. *)
Theorem analyzeTradingPair_score
  (cache : Cache) (now : Z)
  (fetched : option (list TradingPairInfo * list MarketSummary))
  (pair : string) (pairData : TradingPair) :
  lookup pair (fst (fetchTradingPairs cache now fetched)) = Some pairData ->
  isNaN (rawScore pairData) = false ->
  exists res k,
    fst (analyzeTradingPair cache now fetched pair) = inl res /\
    0 <= k <= 10 /\
    score res = num k /\
    transactionType res = (if 5 <=? k then "buy" else "sell").
Proof.
  intros Hl Hn. unfold analyzeTradingPair.
  destruct (fetchTradingPairs cache now fetched) as [tradingPairs cache'].
  cbn [fst] in Hl |- *. rewrite Hl.
  destruct (clamp_round_range _ Hn) as (k & Hk & Hs).
  unfold clamp_round in Hs. eexists. exists k.
  split; [reflexivity|]. cbn [score transactionType].
  rewrite Hs, (ge_five k Hk). repeat split; lia.
Qed.

(** ** The score on concrete market data *)

Lemma analyzeTradingPair_score_witness :
  exists res k,
    fst (analyzeTradingPair empty_cache 1700000000000 (fetched_with (num 2))
           "SUI/USDC") = inl res /\
    0 <= k <= 10 /\
    score res = num k /\
    transactionType res = (if 5 <=? k then "buy" else "sell").
Proof.
  destruct (lookup "SUI/USDC"
              (fst (fetchTradingPairs empty_cache 1700000000000
                      (fetched_with (num 2))))) as [pairData|] eqn:E;
    [|discriminate E].
  apply (analyzeTradingPair_score empty_cache 1700000000000
           (fetched_with (num 2)) "SUI/USDC" pairData E).
  injection E as <-. vm_compute. reflexivity.
Defined.

(** C10. A summary whose 24 h change is [Infinity] (the number [1e999]
    of a JSON text): the change score is [Infinity], the volatility score
    [-Infinity], and the score comes out as [NaN], which is no integer
    from 0 to 10. *)
Theorem infinite_change_gives_NaN :
  exists res,
    fst (analyzeTradingPair empty_cache 1700000000000 (fetched_with Infinity)
           "SUI/USDC") = inl res /\
    score res = NaN /\
    transactionType res = "sell".
Proof. eexists. split; [vm_compute; reflexivity|]. split; reflexivity. Qed.

End TradingFacts.

(* ================================================================== *)
(** * More on the single calls, the agent card and the callers *)
(* ================================================================== *)

Module ClientProps.
Import Js A2A.

(** ** Strings *)

Lemma rev_string_app (s acc t : string) :
  rev_string acc (s ++ t) = rev_string (rev_string acc s) t.
Proof.
  revert acc. induction s as [|c s IH]; intro acc; [reflexivity|].
  cbn [append rev_string]. apply IH.
Qed.

Lemma drop_last_app (u : string) (c : ascii) :
  drop_last (u ++ String c "") = u.
Proof.
  induction u as [|a u IH]; [reflexivity|].
  cbn [append drop_last]. rewrite IH.
  destruct u; reflexivity.
Qed.

Lemma endsWith_app (u : string) (c : ascii) :
  endsWith (String c "") (u ++ String c "") = true.
Proof.
  unfold endsWith. rewrite rev_string_app. cbn [rev_string startsWith].
  now rewrite Ascii.eqb_refl.
Qed.

Section Props.
Context {codec : JsonCodec}.

(** ** What [_makeHttpRequest] throws and returns *)

Lemma makeHttpRequest_catch_throws (networkError : JsError) :
  exists e, makeHttpRequest_catch networkError = Throw e.
Proof.
  unfold makeHttpRequest_catch.
  assert (forall (printed : Completion string) (k : string -> JsError),
             exists e,
               (text <- printed ;; Throw (k text))
               = (Throw e : Completion Response)) as F.
  { intros [text|e] k; cbn [bind]; eauto. }
  destruct (isAxiosError networkError), (response_of networkError) as [r|];
    cbn [bind]; try apply F.
  destruct (truthy (Some (reply_data r))); cbn [bind]; try apply F.
  destruct (reply_data r) as [| | | | |ms]; cbn [bind]; try apply F.
  destruct (assoc "error" ms) as [errorObj|]; cbn [bind]; try apply F.
  destruct (member (Some errorObj) "message") as [m|e]; cbn [bind]; eauto.
  destruct (member (Some errorObj) "code") as [k|e]; cbn [bind]; eauto.
Qed.

(** The [catch] block throws an [RpcError] unless it reads a member of
    an [error] that is [null], or prints a message that ToString
    refuses. *)
Lemma makeHttpRequest_catch_kinds (networkError e : JsError) :
  makeHttpRequest_catch networkError = Throw e ->
  is_RpcError e = false ->
  exists m r ms,
    networkError = AxiosError m (Some r) /\
    reply_data r = JObj ms /\
    (assoc "error" ms = Some JNull \/
     exists errorObj message,
       assoc "error" ms = Some errorObj /\
       get errorObj "message" = Some message /\
       truthy (Some message) = true /\
       ToString message = None).
Proof.
  unfold makeHttpRequest_catch.
  destruct networkError as [k m d|m|m|m|m [r|]];
    cbn [isAxiosError response_of bind template ToString];
    try (intros E N; injection E as <-; discriminate N).
  destruct (truthy (Some (reply_data r))); cbn [bind template ToString];
    [|intros E N; injection E as <-; discriminate N].
  destruct (reply_data r) as [| | | | |ms] eqn:D; cbn [bind template ToString];
    try (intros E N; injection E as <-; discriminate N).
  destruct (assoc "error" ms) as [errorObj|] eqn:A; cbn [bind template ToString];
    [|intros E N; injection E as <-; discriminate N].
  destruct (member (Some errorObj) "message") as [message|err] eqn:M;
    cbn [bind].
  - assert (member (Some errorObj) "code" = Normal (get errorObj "code")
            /\ message = get errorObj "message") as [-> ->].
    { destruct errorObj; cbn [member] in M |- *; try discriminate M;
        injection M as <-; split; reflexivity. }
    cbn [bind]. unfold or_else at 1.
    destruct (truthy (get errorObj "message")) eqn:T.
    + destruct (get errorObj "message") as [message|] eqn:G; [|discriminate T].
      unfold template. destruct (ToString message) eqn:P; cbn [bind].
      * intros E N. injection E as <-. discriminate N.
      * intros _ _. exists m, r, ms. split; [reflexivity|].
        split; [exact D|]. right. exists errorObj, message.
        repeat split; assumption.
    + cbn [template ToString bind]. intros E N. injection E as <-.
      discriminate N.
  - destruct errorObj; cbn [member] in M; try discriminate M.
    intros _ _. exists m, r, ms. split; [reflexivity|].
    split; [exact D|]. left. exact A.
Qed.

Lemma handleJson_throws_RpcError (response : Response) (e : JsError) :
  _handleJsonResponse response = Throw e -> is_RpcError e = true.
Proof.
  unfold _handleJsonResponse.
  destruct (handleJson_try response) as [v|err]; cbn [try_catch]; [discriminate|].
  destruct (is_RpcError err) eqn:R; intro E; injection E as <-;
    [exact R | reflexivity].
Qed.

(** Whatever the inner [try] of lines 518-531 throws, its [catch] drops. *)
Lemma handleJson_not_ok_probe_passes (responseBody : string) :
  handleJson_not_ok_probe responseBody = Normal tt.
Proof.
  unfold handleJson_not_ok_probe.
  match goal with |- try_catch ?c _ = _ => destruct c as [[]|e] end; reflexivity.
Qed.

(** X2. The failures of a single call ([sendTask], [getTask], ...) are
    [RpcError]s with two exceptions, both in the [catch] of
    [_makeHttpRequest]: the call fails with another error (a
    [TypeError]) exactly when the server answers with a non-2xx status
    and a body object whose [error] member is [null] (the block reads
    [errorObj.message] of [null]), or is an object whose [message] is
    truthy and cannot be printed (the template literal of line 497
    throws). *)
Theorem single_call_error_kinds
  (method : string) (c : A2AClient) (env : CallEnv) (params : JsonValue) :
  (exists e, single_call method c env params = Throw e /\ is_RpcError e = false)
  <->
  (exists r ms,
      post env (baseUrl c) (request_of env method params) ApplicationJson
        = Answers r /\
      validateStatus (reply_status r) = false /\
      reply_data r = JObj ms /\
      (assoc "error" ms = Some JNull \/
       exists errorObj message,
         assoc "error" ms = Some errorObj /\
         get errorObj "message" = Some message /\
         truthy (Some message) = true /\
         ToString message = None)).
Proof.
  unfold single_call, _makeHttpRequest.
  fold (request_of env method params).
  split.
  - intros (e & E & N).
    destruct (post env (baseUrl c) (request_of env method params) ApplicationJson)
      as [r|m] eqn:P; unfold axios_settle in E.
    + destruct (validateStatus (reply_status r)) eqn:V; cbn [bind try_catch] in E.
      * destruct (new_Response _ _ _) as [resp|err] eqn:NR; cbn [try_catch bind] in E.
        -- apply handleJson_throws_RpcError in E. congruence.
        -- destruct (makeHttpRequest_catch err) as [resp|e'] eqn:C;
             cbn [bind] in E.
           ++ destruct (makeHttpRequest_catch_throws err) as [x X]. congruence.
           ++ injection E as ->.
              destruct (makeHttpRequest_catch_kinds _ _ C N) as (m & r' & ms & A & _).
              unfold new_Response in NR.
              destruct (negb _); [injection NR as <-; discriminate A|].
              destruct (null_body_status _); [injection NR as <-; discriminate A|].
              discriminate NR.
      * destruct (makeHttpRequest_catch _) as [resp|e'] eqn:C; cbn [bind] in E.
        -- destruct (makeHttpRequest_catch_throws
                       (AxiosError ("Request failed with status code "
                                    ++ string_of_Z (reply_status r)) (Some r)))
             as [x X].
           congruence.
        -- injection E as ->.
           destruct (makeHttpRequest_catch_kinds _ _ C N) as (m & r' & ms & A & D & G).
           injection A as _ <-. exists r, ms. repeat split; assumption.
    + cbn [bind try_catch] in E.
      destruct (makeHttpRequest_catch _) as [resp|e'] eqn:C; cbn [bind] in E.
      * destruct (makeHttpRequest_catch_throws (AxiosError m None)) as [x X].
        congruence.
      * injection E as ->.
        destruct (makeHttpRequest_catch_kinds _ _ C N) as (m' & r' & ms & A & _).
        discriminate A.
  - intros (r & ms & P & V & D & G).
    rewrite P. unfold axios_settle. rewrite V. cbn [bind try_catch].
    unfold makeHttpRequest_catch. cbn [isAxiosError response_of].
    rewrite D. cbn [truthy].
    destruct G as [G | (errorObj & message & G & M & T & S)]; rewrite G.
    + cbn [member bind]. eexists. split; reflexivity.
    + assert (member (Some errorObj) "message" = Normal (Some message)
              /\ member (Some errorObj) "code" = Normal (get errorObj "code"))
        as [-> ->].
      { destruct errorObj; cbn [get] in M; try discriminate M.
        cbn [member get]. now rewrite M. }
      cbn [bind]. unfold or_else at 1. rewrite T. unfold template. rewrite S.
      cbn [bind]. eexists. split; reflexivity.
Qed.

(** X3. When the network gives no answer to the POST (axios rejects
    with no response), a single call fails with [RpcError] code -32603,
    the message of axios behind "Network error: " and the axios error as
    data; a subscription ([sendTaskSubscribe], [resubscribeTask]) yields
    nothing and fails with the same error. *)
Theorem no_answer_is_a_network_error
  (method : string) (c : A2AClient) (env : CallEnv) (params : JsonValue)
  (m : string) :
  (forall accept,
      post env (baseUrl c) (request_of env method params) accept = Fails m) ->
  let error :=
    RpcError (Some (JNum (-32603))) ("Network error: " ++ m)
      (Caught (AxiosError m None)) in
  single_call method c env params = Throw error /\
  stream_call method c env params
  = {| yielded := []; finished := Throw error; released := false |}.
Proof.
  intros P error. unfold single_call, stream_call, _makeHttpRequest.
  fold (request_of env method params). rewrite !P. split; reflexivity.
Qed.

(** X4. An answer with status 204 or 205 makes a single call fail: the
    [Response] constructor refuses a body for a null-body status, the
    [catch] of [_makeHttpRequest] takes that [TypeError] for a network
    error, and the call fails with [RpcError] -32603 "Network error: ..."
    although the server answered with success. *)
Theorem null_body_status_is_a_network_error
  (method : string) (c : A2AClient) (env : CallEnv) (params : JsonValue)
  (r : HttpReply) :
  post env (baseUrl c) (request_of env method params) ApplicationJson
    = Answers r ->
  reply_status r = 204 \/ reply_status r = 205 ->
  exists m,
    single_call method c env params
    = Throw (RpcError (Some (JNum (-32603))) ("Network error: " ++ m)
               (Caught (TypeError m))).
Proof.
  intros P S. unfold single_call, _makeHttpRequest.
  fold (request_of env method params). rewrite P. unfold axios_settle.
  assert (validateStatus (reply_status r) = true
          /\ negb ((200 <=? reply_status r) && (reply_status r <=? 599)) = false
          /\ null_body_status (reply_status r) = true) as (V & R & N)
    by (destruct S as [S | S]; rewrite S; repeat split; reflexivity).
  rewrite V. cbn [bind]. unfold new_Response. rewrite R, N.
  cbn [try_catch makeHttpRequest_catch isAxiosError response_of bind message_of
       ToString].
  eexists. reflexivity.
Qed.

(** X5. A non-2xx answer whose body has no [error] member (a text, an
    array, an object without that key): the call fails with an
    [RpcError] whose code is the HTTP status and whose message is
    "Network error: HTTP <status>: <statusText>". *)
Theorem http_error_without_envelope
  (method : string) (c : A2AClient) (env : CallEnv) (params : JsonValue)
  (r : HttpReply) :
  post env (baseUrl c) (request_of env method params) ApplicationJson
    = Answers r ->
  validateStatus (reply_status r) = false ->
  get (reply_data r) "error" = None ->
  single_call method c env params
  = Throw (RpcError (Some (JNum (reply_status r)))
             ("Network error: HTTP " ++ string_of_Z (reply_status r) ++ ": "
              ++ reply_statusText r)
             (Caught (AxiosError
                        ("Request failed with status code "
                         ++ string_of_Z (reply_status r)) (Some r)))).
Proof.
  intros P V G. unfold single_call, _makeHttpRequest.
  fold (request_of env method params). rewrite P. unfold axios_settle.
  rewrite V. cbn [bind try_catch]. unfold makeHttpRequest_catch.
  cbn [isAxiosError response_of].
  destruct (reply_data r) as [| | | | |ms]; cbn [get] in G;
    try (destruct (truthy _); reflexivity).
  cbn [truthy]. rewrite G. reflexivity.
Qed.

(** X6. Every [Response] that [_makeHttpRequest] returns has a 2xx
    status and a body of one chunk, [JSON.stringify] of what axios
    delivered: the branches of the two handlers for a response that is
    not ok or has no body are never taken in the public operations. *)
Theorem makeHttpRequest_response
  (method : string) (c : A2AClient) (env : CallEnv) (params : JsonValue)
  (accept : Accept) (response : Response) :
  _makeHttpRequest c env method params accept = Normal response ->
  exists r,
    post env (baseUrl c) (request_of env method params) accept = Answers r /\
    ok response = true /\
    response = {| status := reply_status r;
                  statusText := reply_statusText r;
                  body := Some {| chunks := [JSON_stringify (reply_data r)];
                                  ending := Closed |} |}.
Proof.
  unfold _makeHttpRequest. fold (request_of env method params).
  destruct (post env (baseUrl c) (request_of env method params) accept)
    as [r|m]; unfold axios_settle.
  - destruct (validateStatus (reply_status r)) eqn:V; cbn [bind try_catch].
    + unfold new_Response.
      destruct (negb _); cbn [try_catch].
      { intro E. destruct (makeHttpRequest_catch_throws
                             (PlainError "The status provided is outside the range [200, 599]."))
          as [x X]. congruence. }
      destruct (null_body_status _); cbn [try_catch].
      { intro E. destruct (makeHttpRequest_catch_throws
                             (TypeError "Response with null body status cannot have body"))
          as [x X]. congruence. }
      intro E. injection E as <-. exists r. split; [reflexivity|]. split; [|reflexivity].
      unfold ok, validateStatus in *. cbn [status].
      apply andb_prop in V as [V1 V2]. rewrite V1. cbn [andb].
      apply Z.leb_le. apply Z.ltb_lt in V2. lia.
    + intro E.
      destruct (makeHttpRequest_catch_throws
                  (AxiosError ("Request failed with status code "
                               ++ string_of_Z (reply_status r)) (Some r)))
        as [x X]. congruence.
  - cbn [bind try_catch]. intro E.
    destruct (makeHttpRequest_catch_throws (AxiosError m None)) as [x X].
    congruence.
Qed.

(** X7. [_handleJsonResponse] on a response that is not ok and whose
    body can be read: it fails with [RpcError] -32603 "Failed to process
    response: HTTP error <status>: <statusText>" (then " - " and the
    body, when there is one), whatever the body holds; an error envelope
    in the body never becomes the error of the call, because the
    [RpcError] made of it is thrown and caught inside the handler. *)
Theorem not_ok_body_is_not_surfaced (response : Response) (responseBody : string) :
  ok response = false ->
  text response = Normal responseBody ->
  let message :=
    "HTTP error " ++ string_of_Z (status response) ++ ": " ++ statusText response
    ++ (if (responseBody =? "")%string then "" else " - " ++ responseBody) in
  _handleJsonResponse response
  = Throw (RpcError (Some (JNum (-32603)))
             ("Failed to process response: " ++ message)
             (Caught (PlainError message))).
Proof.
  intros Hok Htext message. unfold _handleJsonResponse, handleJson_try.
  rewrite Hok, Htext. cbn [negb bind].
  rewrite handleJson_not_ok_probe_passes. reflexivity.
Qed.





End Props.

(** ** The agent card *)

(** X9. While the cache is empty, a call of [agentCard] whose GET fails
    is reported as [RpcError] -32603 "Could not retrieve agent card: ..."
    and leaves the client as it was, so the next call fetches again;
    once a fetch has stored a card that is truthy, a later call returns
    that card without a GET, whatever the network would answer. *)
Theorem agentCard_retry_after_failure
  (c : A2AClient) (env_down env_up env_later : CallEnv)
  (error : JsError) (r : HttpReply) :
  truthy (Some (cachedAgentCard c)) = false ->
  axios_settle (http_get env_down (baseUrl c ++ "/agent-card")) = Throw error ->
  http_get env_up (baseUrl c ++ "/agent-card") = Answers r ->
  validateStatus (reply_status r) = true ->
  truthy (Some (reply_data r)) = true ->
  let '(c1, first, gets1) := agentCard c env_down in
  let '(c2, second, gets2) := agentCard c1 env_up in
  let '(c3, third, gets3) := agentCard c2 env_later in
  (exists m,
      first = Throw (RpcError (Some (JNum (-32603)))
                       ("Could not retrieve agent card: " ++ m) (Caught error))) /\
  c1 = c /\
  second = Normal (reply_data r) /\
  third = Normal (reply_data r) /\
  c3 = c2 /\
  (gets1, gets2, gets3) = (1%nat, 1%nat, 0%nat).
Proof.
  intros Hempty Hdown Hup V T.
  unfold agentCard at 1. unfold agentCard_begin. rewrite Hempty, Hdown.
  cbn [agentCard_resume].
  unfold agentCard at 1. unfold agentCard_begin. rewrite Hempty, Hup.
  unfold axios_settle. rewrite V. cbn [agentCard_resume baseUrl cachedAgentCard].
  unfold agentCard, agentCard_begin. cbn [cachedAgentCard]. rewrite T.
  split; [eexists; reflexivity|]. repeat (split; [reflexivity|]). reflexivity.
Qed.

(** X10. [supports] on a client whose cache is empty fetches the card,
    stores it, and answers from the card's [capabilities] object: the
    truthiness of its [streaming] member for "streaming", of its
    [pushNotifications] member for "pushNotifications", and [false] for
    any other capability. *)
Theorem supports_reads_the_card
  (c : A2AClient) (env : CallEnv) (capability : string)
  (r : HttpReply) (ms caps : list (string * JsonValue)) :
  truthy (Some (cachedAgentCard c)) = false ->
  http_get env (baseUrl c ++ "/agent-card") = Answers r ->
  validateStatus (reply_status r) = true ->
  reply_data r = JObj ms ->
  assoc "capabilities" ms = Some (JObj caps) ->
  supports c env capability
  = ({| baseUrl := baseUrl c; cachedAgentCard := JObj ms |},
     Normal (if (capability =? "streaming")%string
             then truthy (assoc "streaming" caps)
             else if (capability =? "pushNotifications")%string
                  then truthy (assoc "pushNotifications" caps)
                  else false),
     1%nat).
Proof.
  intros Hempty Hget V D C.
  unfold supports, agentCard, agentCard_begin. rewrite Hempty, Hget.
  unfold axios_settle. rewrite V. cbn [agentCard_resume cachedAgentCard bind].
  rewrite D. unfold capability_flag. cbn [member get bind]. rewrite C.
  cbn [get].
  destruct (capability =? "streaming")%string; [reflexivity|].
  destruct (capability =? "pushNotifications")%string; reflexivity.
Qed.

(** ** The constructor and the caller *)

(** X11. The constructor drops one slash at the end of the URL: a client
    made for [url/] posts to [url], and its first [agentCard] asks for
    [url/agent-card]. *)
Theorem trailing_slash_is_dropped (url : string) :
  baseUrl (new_A2AClient (url ++ "/")) = url /\
  agentCard_begin (new_A2AClient (url ++ "/")) = Fetching (url ++ "/agent-card").
Proof.
  unfold agentCard_begin, new_A2AClient. cbn [baseUrl cachedAgentCard truthy].
  now rewrite endsWith_app, drop_last_app.
Qed.

(** X12. [sui_tx_agent] never rejects.  It resolves with what
    [getTask] returned for [{id: taskId}] when [sendTask] and then
    [getTask] both resolve, and with [undefined] when either of them
    rejects; in particular, when the network gives no answer to the
    POST of [sendTask] it resolves with [undefined] whatever [getTask]
    would have met. *)
Theorem sui_tx_agent_never_rejects
  {codec : JsonCodec} (c : A2AClient) (taskId prompt : string)
  (env_send env_get : CallEnv) :
  let sendParams :=
    JObj [("id", JStr taskId);
          ("message",
           JObj [("role", JStr "user");
                 ("parts", JArr [JObj [("text", JStr prompt);
                                       ("type", JStr "text")]])])] in
  let getParams := JObj [("id", JStr taskId)] in
  (forall sent got,
      sendTask c env_send sendParams = Normal sent ->
      getTask c env_get getParams = Normal got ->
      sui_tx_agent c taskId env_send env_get prompt = Normal (Some got)) /\
  (forall e,
      sendTask c env_send sendParams = Throw e ->
      sui_tx_agent c taskId env_send env_get prompt = Normal None) /\
  (forall e,
      getTask c env_get getParams = Throw e ->
      sui_tx_agent c taskId env_send env_get prompt = Normal None) /\
  (forall m,
      (forall request,
          post env_send (baseUrl c) request ApplicationJson = Fails m) ->
      sui_tx_agent c taskId env_send env_get prompt = Normal None).
Proof.
  cbv zeta. unfold sui_tx_agent. repeat split.
  - intros sent got -> ->. reflexivity.
  - intros e ->. reflexivity.
  - intros e ->. destruct (sendTask c env_send _); reflexivity.
  - intros m P. unfold sendTask, single_call, _makeHttpRequest.
    rewrite P. reflexivity.
Qed.

(** ** The calls on concrete answers *)

Import JsonText Scenarios.

Lemma single_call_error_kinds_witness :
  (exists e,
      single_call "tasks/get" the_client
        (env_answering (Answers error_is_null)) query
      = Throw e /\ is_RpcError e = false) /\
  (exists e,
      single_call "tasks/get" the_client
        (env_answering (Answers error_is_unprintable)) query
      = Throw e /\ is_RpcError e = false).
Proof.
  split.
  - apply (proj2 (single_call_error_kinds "tasks/get" the_client
                    (env_answering (Answers error_is_null)) query)).
    exists error_is_null, [("error", JNull)].
    split; [reflexivity|]. split; [reflexivity|]. split; [reflexivity|].
    left. reflexivity.
  - apply (proj2 (single_call_error_kinds "tasks/get" the_client
                    (env_answering (Answers error_is_unprintable)) query)).
    exists error_is_unprintable,
      [("error", JObj [("message", unprintable)])].
    split; [reflexivity|]. split; [reflexivity|]. split; [reflexivity|].
    right. exists (JObj [("message", unprintable)]), unprintable.
    repeat split; reflexivity.
Defined.

Lemma no_answer_is_a_network_error_witness :
  single_call "tasks/send" the_client (env_answering no_network) query
  = Throw (RpcError (Some (JNum (-32603))) "Network error: Network Error"
             (Caught (AxiosError "Network Error" None))) /\
  stream_call "tasks/sendSubscribe" the_client (env_answering no_network) query
  = {| yielded := [];
       finished := Throw (RpcError (Some (JNum (-32603)))
                            "Network error: Network Error"
                            (Caught (AxiosError "Network Error" None)));
       released := false |}.
Proof.
  split.
  - apply (no_answer_is_a_network_error "tasks/send" the_client
             (env_answering no_network) query "Network Error").
    reflexivity.
  - apply (no_answer_is_a_network_error "tasks/sendSubscribe" the_client
             (env_answering no_network) query "Network Error").
    reflexivity.
Defined.

Lemma null_body_status_is_a_network_error_witness :
  exists m,
    single_call "tasks/cancel" the_client (env_answering (Answers no_content)) query
    = Throw (RpcError (Some (JNum (-32603))) ("Network error: " ++ m)
               (Caught (TypeError m))).
Proof.
  apply (null_body_status_is_a_network_error "tasks/cancel" the_client
           (env_answering (Answers no_content)) query no_content).
  - reflexivity.
  - left. reflexivity.
Defined.

Lemma http_error_without_envelope_witness :
  single_call "tasks/get" the_client (env_answering (Answers bad_gateway)) query
  = Throw (RpcError (Some (JNum 502)) "Network error: HTTP 502: Bad Gateway"
             (Caught (AxiosError "Request failed with status code 502"
                        (Some bad_gateway)))).
Proof.
  apply (http_error_without_envelope "tasks/get" the_client
           (env_answering (Answers bad_gateway)) query bad_gateway);
    reflexivity.
Defined.

Lemma makeHttpRequest_response_witness :
  exists r,
    post (env_answering (Answers result_with_200)) (baseUrl the_client)
      (request_of (env_answering (Answers result_with_200)) "tasks/send" query)
      ApplicationJson = Answers r /\
    ok (good_response [JSON_stringify (reply_data result_with_200)]) = true /\
    good_response [JSON_stringify (reply_data result_with_200)]
    = {| status := reply_status r;
         statusText := reply_statusText r;
         body := Some {| chunks := [JSON_stringify (reply_data r)];
                         ending := Closed |} |}.
Proof.
  apply (makeHttpRequest_response "tasks/send" the_client
           (env_answering (Answers result_with_200)) query ApplicationJson
           (good_response [JSON_stringify (reply_data result_with_200)])).
  reflexivity.
Defined.

Lemma not_ok_body_is_not_surfaced_witness :
  _handleJsonResponse
    {| status := 404; statusText := "Not Found";
       body := Some {| chunks := [wire "{'error':{'code':-32000,'message':'task not found'}}"];
                       ending := Closed |} |}
  = Throw (RpcError (Some (JNum (-32603)))
             ("Failed to process response: HTTP error 404: Not Found - "
              ++ wire "{'error':{'code':-32000,'message':'task not found'}}")
             (Caught (PlainError
                        ("HTTP error 404: Not Found - "
                         ++ wire "{'error':{'code':-32000,'message':'task not found'}}")))).
Proof.
  apply (not_ok_body_is_not_surfaced
           {| status := 404; statusText := "Not Found";
              body := Some {| chunks := [wire "{'error':{'code':-32000,'message':'task not found'}}"];
                              ending := Closed |} |}
           (wire "{'error':{'code':-32000,'message':'task not found'}}"));
    reflexivity.
Defined.


Lemma agentCard_retry_after_failure_witness :
  let '(c1, first, gets1) :=
    agentCard the_client (env_with a_uuid 1700000000000 no_network
                            (Answers card_not_found)) in
  let '(c2, second, gets2) :=
    agentCard c1 (env_with a_uuid 1700000000000 no_network card_answer) in
  let '(c3, third, gets3) :=
    agentCard c2 (env_with a_uuid 1700000000000 no_network no_network) in
  (exists m,
      first = Throw (RpcError (Some (JNum (-32603)))
                       ("Could not retrieve agent card: " ++ m)
                       (Caught (AxiosError "Request failed with status code 404"
                                  (Some card_not_found))))) /\
  c1 = the_client /\
  second = Normal card /\
  third = Normal card /\
  c3 = c2 /\
  (gets1, gets2, gets3) = (1%nat, 1%nat, 0%nat).
Proof.
  apply (agentCard_retry_after_failure the_client
           (env_with a_uuid 1700000000000 no_network (Answers card_not_found))
           (env_with a_uuid 1700000000000 no_network card_answer)
           (env_with a_uuid 1700000000000 no_network no_network)
           (AxiosError "Request failed with status code 404" (Some card_not_found))
           {| reply_status := 200; reply_statusText := "OK"; reply_data := card |});
    reflexivity.
Defined.

Lemma supports_reads_the_card_witness :
  supports the_client (env_with a_uuid 1700000000000 no_network card_answer)
    "streaming"
  = ({| baseUrl := baseUrl the_client; cachedAgentCard := card |},
     Normal true, 1%nat).
Proof.
  apply (supports_reads_the_card the_client
           (env_with a_uuid 1700000000000 no_network card_answer) "streaming"
           {| reply_status := 200; reply_statusText := "OK"; reply_data := card |}
           [("name", JStr "agent");
            ("capabilities", JObj [("streaming", JBool true);
                                   ("pushNotifications", JBool false)])]
           [("streaming", JBool true); ("pushNotifications", JBool false)]);
    reflexivity.
Defined.

Lemma sui_tx_agent_never_rejects_witness :
  sui_tx_agent apis_client "task-1"
    (env_answering (Answers result_with_200))
    (env_answering (Answers completed_with_200)) "swap 1 SUI"
  = Normal (Some completed_task) /\
  sui_tx_agent apis_client "task-1"
    (env_answering (Answers result_with_200))
    (env_answering (Answers error_with_200)) "swap 1 SUI"
  = Normal None /\
  sui_tx_agent apis_client "task-1" (env_answering no_network)
    (env_answering (Answers result_with_200)) "swap 1 SUI"
  = Normal None.
Proof.
  split; [|split].
  - apply (proj1 (sui_tx_agent_never_rejects apis_client "task-1" "swap 1 SUI"
                    (env_answering (Answers result_with_200))
                    (env_answering (Answers completed_with_200)))
             submitted completed_task);
      vm_compute; reflexivity.
  - apply (proj1 (proj2 (proj2 (sui_tx_agent_never_rejects apis_client "task-1"
                                  "swap 1 SUI"
                                  (env_answering (Answers result_with_200))
                                  (env_answering (Answers error_with_200)))))
             (RpcError (Some (JNum (-32001))) "Task not found"
                (JsonData (JObj [("id", JStr "t1")]))));
      vm_compute; reflexivity.
  - apply (proj2 (proj2 (proj2 (sui_tx_agent_never_rejects apis_client "task-1"
                                  "swap 1 SUI" (env_answering no_network)
                                  (env_answering (Answers result_with_200)))))
             "Network Error").
    reflexivity.
Defined.

End ClientProps.

(* ================================================================== *)
(** * More on the stream decoder *)
(* ================================================================== *)

Module StreamProps.
Import Js A2A StreamFacts.

Lemma string_concat_app (a b : list string) :
  String.concat "" (a ++ b) = String.concat "" a ++ String.concat "" b.
Proof.
  induction a as [|x a IH]; [reflexivity|].
  change ((x :: a) ++ b)%list with (x :: (a ++ b))%list.
  now rewrite !concat_cons, IH, append_assoc.
Qed.

Lemma strip_cr_concat (reads : list string) :
  strip_cr (String.concat "" (map strip_cr reads))
  = strip_cr (String.concat "" reads).
Proof.
  induction reads as [|x reads IH]; [reflexivity|].
  cbn [map]. now rewrite !concat_cons, !strip_cr_app, strip_cr_idem, IH.
Qed.

(** A text that holds no blank line is one piece. *)
Lemma split_framed (g : string) :
  framed g = true -> split_blank_line g = [g].
Proof.
  induction g as [|c g IH]; intro F; [reflexivity|].
  assert (opens_blank_line (String c g) = false /\ framed g = true) as [Ho Fg].
  { simpl in F. destruct (Ascii.eqb c LF) eqn:Ec.
    - destruct g as [|c' g']; [discriminate|].
      apply andb_prop in F as [F1 F2]. split; [|exact F2].
      cbn [opens_blank_line]. rewrite Ec. now apply negb_true_iff in F1.
    - split; [|exact F]. destruct g; cbn [opens_blank_line]; [reflexivity|].
      now rewrite Ec. }
  rewrite (split_blank_line_glue _ _ Ho), (IH Fg). reflexivity.
Qed.

Lemma split_encode_tail (fs : list string) (tail : string) :
  Forall well_framed fs ->
  well_framed tail ->
  split_blank_line (strip_cr (encode_frames fs ++ tail))
  = (map strip_cr fs ++ [strip_cr tail])%list.
Proof.
  intros Hfs Htail. induction Hfs as [|f fs Hf _ IH].
  - cbn [encode_frames map List.app append]. now apply split_framed.
  - cbn [encode_frames map List.app].
    rewrite !append_assoc, !strip_cr_app.
    change (strip_cr blank_line) with blank_line.
    rewrite (split_frame _ _ Hf). rewrite <- strip_cr_app, IH. reflexivity.
Qed.

Section Props.
Context {codec : JsonCodec}.

(** X13. Carriage returns do not count: a stream whose chunks hold
    carriage returns anywhere (lines ended by CR LF, say) makes the
    decoder yield the events, end the way and release the reader as the
    same chunks without them do. *)
Theorem carriage_returns_are_ignored
  (r : Response) (reads : list string) (e : StreamEnd) :
  _handleStreamingResponse (with_body r (map strip_cr reads) e)
  = _handleStreamingResponse (with_body r reads e).
Proof.
  destruct (ok r) eqn:Hok.
  - rewrite !handleStreaming_spec by exact Hok. now rewrite strip_cr_concat.
  - unfold _handleStreamingResponse, with_body. cbn [body].
    change (ok _) with (ok r) at 1. change (ok _) with (ok r). now rewrite Hok.
Qed.

(** X14. What follows the last blank line is never decoded: when the
    text of a good response is frames, each followed by a blank line,
    and then a frame that no blank line follows, the decoder yields what
    the terminated frames yield and nothing for the last one, however
    the stream ends and whatever that frame holds. *)
Theorem unterminated_frame_is_dropped
  (r : Response) (reads : list string) (e : StreamEnd)
  (fs : list string) (tail : string) :
  ok r = true ->
  Forall well_framed fs ->
  well_framed tail ->
  String.concat "" reads = encode_frames fs ++ tail ->
  yielded (_handleStreamingResponse (with_body r reads e))
  = flat_map on_message (map strip_cr fs).
Proof.
  intros Hok Hfs Htail Hreads.
  rewrite (handleStreaming_spec r reads e Hok). cbn [yielded].
  unfold complete_frames.
  now rewrite Hreads, (split_encode_tail fs tail Hfs Htail), removelast_last.
Qed.

(** X15. Events come out as the chunks come in: what the decoder yields
    for the first chunks of a good response is the beginning of what it
    yields for these chunks followed by more, however either stream
    ends. *)
Theorem events_are_incremental
  (r : Response) (reads more : list string) (e e' : StreamEnd) :
  ok r = true ->
  exists later,
    yielded (_handleStreamingResponse (with_body r (reads ++ more) e))
    = (yielded (_handleStreamingResponse (with_body r reads e')) ++ later)%list.
Proof.
  intro Hok. rewrite !handleStreaming_spec by exact Hok. cbn [yielded].
  rewrite string_concat_app, strip_cr_app, complete_frames_app, flat_map_app.
  eexists. reflexivity.
Qed.

(** What one frame can yield. *)
Lemma on_message_sound (f : string) (v : JsonValue) :
  In v (on_message f) ->
  startsWith "data: " f = true /\
  v <> JNull /\
  exists ms,
    JSON_parse (trim (substring_from 6 f)) = Some (JObj ms) /\
    assoc "jsonrpc" ms = Some (JStr "2.0") /\
    truthy (assoc "error" ms) = false /\
    assoc "result" ms = Some v.
Proof.
  unfold on_message.
  destruct (startsWith "data: " f); [|intros []].
  destruct (negb _); [|intros []].
  unfold stream_try.
  destruct (JSON_parse (trim (substring_from 6 f))) as [parsed|];
    [|intros []].
  destruct parsed as [| | | |items|ms]; cbn [is_object negb orb get try_catch];
    try (intros []).
  destruct (assoc "jsonrpc" ms) as [[| | |ver| |]|] eqn:J;
    cbn [negb try_catch]; try (intros []).
  destruct (String.eqb_spec ver "2.0") as [->|]; cbn [negb try_catch];
    [|intros []].
  destruct (truthy (assoc "error" ms)) eqn:E.
  - match goal with
    | |- In v (match try_catch ?c _ with _ => _ end) -> _ =>
        assert (try_catch c (fun _ => Normal None) = Normal None) as ->
    end; [|intros []].
    destruct (member (assoc "error" ms) "code"); cbn [bind try_catch]; [|reflexivity].
    destruct (member (assoc "error" ms) "message"); cbn [bind try_catch]; [|reflexivity].
    destruct (member (assoc "error" ms) "data"); cbn [bind try_catch];
      [|reflexivity].
    match goal with |- try_catch (bind ?c _) _ = _ => destruct c end;
      reflexivity.
  - destruct (assoc "result" ms) as [result|] eqn:R; cbn [try_catch]; [|intros []].
    destruct result; cbn [try_catch]; [intros []|..];
      (intros [<-|[]]; split; [reflexivity|]; split; [discriminate|];
       exists ms; repeat split; assumption).
Qed.

(** X16. Nothing is yielded that was not sent as a result: every value
    the decoder yields is the [result] member, not [null], of a frame of
    the text that begins with "data: " and whose payload parses to an
    object with [jsonrpc] "2.0" and no truthy [error]. *)
Theorem yielded_events_are_results
  (r : Response) (reads : list string) (e : StreamEnd) (v : JsonValue) :
  In v (yielded (_handleStreamingResponse (with_body r reads e))) ->
  v <> JNull /\
  exists f ms,
    In f (complete_frames (strip_cr (String.concat "" reads))) /\
    startsWith "data: " f = true /\
    JSON_parse (trim (substring_from 6 f)) = Some (JObj ms) /\
    assoc "jsonrpc" ms = Some (JStr "2.0") /\
    truthy (assoc "error" ms) = false /\
    assoc "result" ms = Some v.
Proof.
  destruct (ok r) eqn:Hok.
  - rewrite (handleStreaming_spec r reads e Hok). cbn [yielded].
    intro H. apply in_flat_map in H as (f & Hf & Hv).
    apply on_message_sound in Hv as (S & N & ms & P & J & E & R).
    split; [exact N|]. exists f, ms. repeat split; assumption.
  - unfold _handleStreamingResponse, with_body. cbn [body].
    change (ok _) with (ok r). rewrite Hok. intros [].
Qed.

End Props.

(** ** The decoder on concrete streams *)

Import JsonText Scenarios.

Lemma unterminated_frame_is_dropped_witness :
  yielded (_handleStreamingResponse
             (with_body (good_response []) [working ++ blank_line; completed]
                Closed))
  = [working_event].
Proof.
  refine (eq_trans
            (unterminated_frame_is_dropped (good_response [])
               [working ++ blank_line; completed] Closed [working] completed
               _ _ _ _) _).
  - reflexivity.
  - repeat constructor; reflexivity.
  - reflexivity.
  - reflexivity.
  - vm_compute. reflexivity.
Defined.

Lemma events_are_incremental_witness :
  exists later,
    yielded (_handleStreamingResponse
               (with_body (good_response [])
                  ([(working ++ blank_line)%string]
                   ++ [(completed ++ blank_line)%string])%list Closed))
    = (yielded (_handleStreamingResponse
                  (with_body (good_response [])
                     [(working ++ blank_line)%string]
                     (Errored (PlainError "network error")))) ++ later)%list.
Proof.
  apply (events_are_incremental (good_response []) [working ++ blank_line]
           [completed ++ blank_line] Closed (Errored (PlainError "network error"))).
  reflexivity.
Defined.

Lemma yielded_events_are_results_witness :
  working_event <> JNull /\
  exists f ms,
    In f (complete_frames
            (strip_cr (String.concat "" [working ++ blank_line; garbled]))) /\
    startsWith "data: " f = true /\
    JSON_parse (trim (substring_from 6 f)) = Some (JObj ms) /\
    assoc "jsonrpc" ms = Some (JStr "2.0") /\
    truthy (assoc "error" ms) = false /\
    assoc "result" ms = Some working_event.
Proof.
  apply (yielded_events_are_results (good_response [])
           [working ++ blank_line; garbled] Closed working_event).
  left. reflexivity.
Defined.

End StreamProps.

(* ================================================================== *)
(** * More on the wallet *)
(* ================================================================== *)

Module WalletProps.
Import Wallet.

Lemma missing_false (s : option string) :
  missing s = false -> exists v, s = Some v /\ v <> "".
Proof.
  destruct s as [v|]; [|discriminate]. cbn [missing]. intro H.
  exists v. split; [reflexivity|]. now apply String.eqb_neq.
Qed.

Section Props.
Variable sdk : Collaborators.

(** ** [connect] *)

(** X17. A [connect] that resolves asked the SDK for the devices, then
    the first device the search listed for its SUI address, then for its
    EVM address, in that order and nothing else; it resolves with the
    SUI address that device answered and leaves a connected wallet that
    holds the two addresses the device answered and the two identifiers
    of that device, none of them empty, and an order book made for the
    SUI address, whatever the wallet held before. *)
Theorem connect_resolved
  (w w' : OneKeyHardwareWallet) (log log' : list Effect) (a : string) :
  connect sdk w log = (w', (log', Resolved a)) ->
  exists device devices cid did evm,
    searchDevices sdk = Resolved (Some (device :: devices)) /\
    device_connectId device = Some cid /\
    device_deviceId device = Some did /\
    suiGetAddress sdk cid did DEFAULT_SUI_PATH = Resolved (Address (Some a)) /\
    evmGetAddress sdk cid did DEFAULT_EVM_PATH = Resolved (Address (Some evm)) /\
    a <> "" /\ cid <> "" /\ did <> "" /\ evm <> "" /\
    w' = {| isConnected := true; address := Some a; evm_address := Some evm;
            connectId := Some cid; deviceId := Some did;
            orderBook := Some a |} /\
    log' = (log ++ [SearchDevices;
                    SuiGetAddress cid did DEFAULT_SUI_PATH;
                    EvmGetAddress cid did DEFAULT_EVM_PATH])%list.
Proof.
  unfold connect, getDeviceList, bind, perform.
  destruct (searchDevices sdk) as [[[|device devices]|]|m] eqn:Found;
    try discriminate.
  cbn [connectId deviceId].
  destruct (missing (device_connectId device)) eqn:Mc; [discriminate|].
  destruct (missing (device_deviceId device)) eqn:Md; [discriminate|].
  cbn [orb].
  apply missing_false in Mc as (cid & Ec & Hc).
  apply missing_false in Md as (did & Ed & Hd).
  rewrite Ec, Ed.
  cbn [value]. unfold getSuiAddress, getEVMAddress, bind, perform, await, address_of.
  destruct (suiGetAddress sdk cid did DEFAULT_SUI_PATH) as [[sui|e]|m] eqn:Sui;
    try discriminate.
  unfold ret.
  destruct (missing sui) eqn:Ms; [discriminate|].
  apply missing_false in Ms as (a0 & -> & Ha).
  destruct (evmGetAddress sdk cid did DEFAULT_EVM_PATH) as [[evm|e]|m] eqn:Evm;
    try discriminate.
  destruct (missing evm) eqn:Me; [discriminate|].
  apply missing_false in Me as (e0 & -> & He).
  cbn [value]. intro E. injection E as <- <- <-.
  exists device, devices, cid, did, e0.
  repeat (split; [first [reflexivity | assumption]|]).
  now rewrite <- !app_assoc.
Qed.

(** X18. A [connect] that is rejected leaves [isConnected], the two
    addresses and the order book as they were: a wallet that was
    connected still counts as connected.  The identifiers of the device
    are either untouched or already those of the first device the search
    found, which the next signature is then asked of. *)
Theorem rejected_connect_keeps_the_session
  (w w' : OneKeyHardwareWallet) (log log' : list Effect) (m : string) :
  connect sdk w log = (w', (log', Rejected m)) ->
  isConnected w' = isConnected w /\
  address w' = address w /\
  evm_address w' = evm_address w /\
  orderBook w' = orderBook w /\
  ((connectId w' = connectId w /\ deviceId w' = deviceId w) \/
   (exists device devices,
       searchDevices sdk = Resolved (Some (device :: devices)) /\
       connectId w' = device_connectId device /\
       deviceId w' = device_deviceId device)).
Proof.
  unfold connect, getDeviceList, bind, perform.
  destruct (searchDevices sdk) as [[[|device devices]|]|m0];
    try (intro E; injection E as <- _ _; repeat (split; [reflexivity|]);
         left; split; reflexivity).
  assert (forall x (l : list Effect) (s : Settled string) (P : Prop),
             (x = w' -> P) -> (x, (l, s)) = (w', (log', Rejected m)) -> P) as K.
  { intros x l s P H E. injection E as E _ _. exact (H E). }
  assert (forall x,
             x = {| isConnected := isConnected w; address := address w;
                    evm_address := evm_address w;
                    connectId := device_connectId device;
                    deviceId := device_deviceId device;
                    orderBook := orderBook w |} ->
             x = w' ->
             isConnected w' = isConnected w /\
             address w' = address w /\
             evm_address w' = evm_address w /\
             orderBook w' = orderBook w /\
             ((connectId w' = connectId w /\ deviceId w' = deviceId w) \/
              (exists device0 devices0,
                  Resolved (Some (device :: devices))
                  = Resolved (Some (device0 :: devices0)) /\
                  connectId w' = device_connectId device0 /\
                  deviceId w' = device_deviceId device0))) as G.
  { intros x -> <-. repeat (split; [reflexivity|]). right.
    exists device, devices. repeat split. }
  cbn [connectId deviceId].
  destruct (missing (device_connectId device) || missing (device_deviceId device)).
  { apply K. now apply G. }
  destruct (getSuiAddress sdk _ _ _ _) as [l1 [sui|m1]]; [|apply K; now apply G].
  destruct (missing sui); [apply K; now apply G|].
  destruct (getEVMAddress sdk _ _ _ _) as [l2 [evm|m2]]; [|apply K; now apply G].
  destruct (missing evm); [apply K; now apply G|].
  discriminate.
Qed.

(** ** [signAndExecuteTransaction] *)

(** What [placeOrder] does when the aggregator finds no route. *)
Lemma placeOrder_no_route
  (from target amount : string) (isBid : bool) (log : list Effect) :
  findRouters sdk from target amount isBid = Resolved None \/
  findRouters sdk from target amount isBid = Resolved (Some O) ->
  placeOrder sdk from target isBid amount log
  = ((log ++ [FindRouters from target amount isBid])%list,
     Rejected "No routes found for the order").
Proof.
  intros [H | H]; unfold placeOrder, bind, perform, await, throw; now rewrite H.
Qed.

(** X19. When the aggregator answers nothing or an empty list of routes,
    [signAndExecuteTransaction] on a connected wallet is rejected with
    "No routes found for the order" after it made the transaction and
    asked for the routes: no swap is added, nothing is built and the
    device is not asked to sign. *)
Theorem no_route_no_signature
  (w : OneKeyHardwareWallet) (td : TransactionData) (a book : string) :
  isConnected w = true ->
  address w = Some a -> a <> "" ->
  orderBook w = Some book ->
  poolId td <> "" ->
  findRouters sdk (baseCoinId td) (quoteCoinId td) (amount td)
    (transactionType td =? "buy")%string = Resolved None \/
  findRouters sdk (baseCoinId td) (quoteCoinId td) (amount td)
    (transactionType td =? "buy")%string = Resolved (Some O) ->
  run (signAndExecuteTransaction sdk w td)
  = ([NewTransaction a;
      FindRouters (baseCoinId td) (quoteCoinId td) (amount td)
        (transactionType td =? "buy")%string],
     Rejected "No routes found for the order").
Proof.
  intros Hc Ha Hne Hb Hp Hr. unfold run, signAndExecuteTransaction.
  rewrite Hc, Ha, Hb. cbn [negb orb missing value].
  apply String.eqb_neq in Hne, Hp. rewrite Hne, Hp.
  unfold bind at 1. unfold perform at 1. cbn [List.app].
  unfold bind at 1. now rewrite (placeOrder_no_route _ _ _ _ _ Hr).
Qed.

(** What [build_and_sign] has done when it resolves. *)
Lemma build_and_sign_resolved {T : Type}
  (w : OneKeyHardwareWallet) (td : T) (log log' : list Effect) (r : Receipt T) :
  build_and_sign sdk w td log = (log', Resolved r) ->
  exists cid did raw signature,
    connectId w = Some cid /\ deviceId w = Some did /\
    build sdk (log ++ [SetGasBudget 10000; Build])%list = Resolved raw /\
    suiSignTransaction sdk cid did DEFAULT_SUI_PATH raw
      = Resolved (Success signature) /\
    log' = (log ++ [SetGasBudget 10000; Build;
                    SuiSignTransaction cid did DEFAULT_SUI_PATH raw])%list /\
    r = {| digest := if missing signature
                     then "deepbook-transaction-" ++ random_token sdk
                     else value signature;
           receipt_status := "success";
           receipt_timestamp := timestamp sdk;
           transaction := td;
           deepbookTx := (log ++ [SetGasBudget 10000; Build])%list |}.
Proof.
  unfold build_and_sign, bind, perform, performed, await.
  rewrite <- !app_assoc. cbn [List.app].
  destruct (build sdk _) as [raw|m] eqn:B; [|discriminate].
  destruct (missing (connectId w)) eqn:Mc; [discriminate|].
  destruct (missing (deviceId w)) eqn:Md; [discriminate|].
  cbn [orb].
  apply missing_false in Mc as (cid & Ec & _).
  apply missing_false in Md as (did & Ed & _).
  rewrite Ec, Ed. cbn [value].
  unfold signSuiTransaction, bind, perform, await.
  destruct (suiSignTransaction sdk cid did DEFAULT_SUI_PATH raw)
    as [[signature|err]|m] eqn:S; try discriminate.
  unfold ret. intro E. injection E as <- <-.
  exists cid, did, raw, signature.
  rewrite <- !app_assoc. cbn [List.app].
  repeat (split; [first [reflexivity | assumption]|]). reflexivity.
Qed.


(** ** [signAndExecuteSuiTransaction] *)

(** The loop reads only the actions that are transfers. *)
Lemma add_transfers_filter (actions : list Action) (log : list Effect) :
  add_transfers sdk actions log
  = add_transfers sdk
      (filter (fun a => (action a =? "transfer")%string) actions) log.
Proof.
  revert log. induction actions as [|a actions IH]; intro log; [reflexivity|].
  cbn [filter add_transfers].
  destruct (action a =? "transfer")%string eqn:E.
  - cbn [add_transfers]. rewrite E. unfold bind.
    destruct (when_ true _ log) as [l [[]|m]]; [apply IH|reflexivity].
  - unfold bind, when_, ret. apply IH.
Qed.

(** What the loop has done when it resolves. *)
Lemma add_transfers_resolved (actions : list Action) :
  forall log log' u,
    add_transfers sdk actions log = (log', Resolved u) ->
    log' = (log ++
            flat_map
              (fun x =>
                 match serialize_amount sdk (action_amount x) with
                 | Resolved serialized =>
                     [SplitCoins serialized; TransferObjects (recipient x)]
                 | Rejected _ => []
                 end)
              (filter (fun x => (action x =? "transfer")%string) actions))%list.
Proof.
  induction actions as [|x actions IH]; intros log log' u.
  - cbn [add_transfers filter flat_map]. unfold ret. intro E.
    injection E as <- _. now rewrite app_nil_r.
  - cbn [add_transfers filter].
    destruct (action x =? "transfer")%string; unfold bind at 1; cbn [when_].
    + unfold bind at 1. unfold await at 1.
      destruct (serialize_amount sdk (action_amount x)) as [serialized|m] eqn:A;
        [|discriminate].
      unfold bind, perform. intro E. apply IH in E. subst log'.
      cbn [flat_map]. rewrite A. rewrite <- !app_assoc. reflexivity.
    + unfold ret. apply IH.
Qed.

(** X21. A receipt of [signAndExecuteSuiTransaction] is only made of
    signed transfers: when the call resolves, the transaction holds, for
    each action whose [action] is "transfer" and in their order, a split
    of the serialized amount off the gas coin and a transfer to the
    action's recipient, and nothing for the other actions; the gas
    budget 10000 was set, the transaction built, and the last thing done
    was one request to the wallet's device to sign the bytes that were
    built. *)
Theorem receipt_of_signed_transfers
  (w : OneKeyHardwareWallet) (actions : list Action)
  (log : list Effect) (r : Receipt (list Action)) :
  run (signAndExecuteSuiTransaction sdk w actions) = (log, Resolved r) ->
  exists a cid did raw signature,
    address w = Some a /\ connectId w = Some cid /\ deviceId w = Some did /\
    deepbookTx r
    = (NewTransaction a ::
       flat_map
         (fun x =>
            match serialize_amount sdk (action_amount x) with
            | Resolved serialized =>
                [SplitCoins serialized; TransferObjects (recipient x)]
            | Rejected _ => []
            end)
         (filter (fun x => (action x =? "transfer")%string) actions)
       ++ [SetGasBudget 10000; Build])%list /\
    build sdk (deepbookTx r) = Resolved raw /\
    suiSignTransaction sdk cid did DEFAULT_SUI_PATH raw
      = Resolved (Success signature) /\
    log = (deepbookTx r ++ [SuiSignTransaction cid did DEFAULT_SUI_PATH raw])%list /\
    digest r = (if missing signature
                then "deepbook-transaction-" ++ random_token sdk
                else value signature) /\
    transaction r = actions.
Proof.
  unfold run, signAndExecuteSuiTransaction.
  destruct (isConnected w); [|discriminate]. cbn [negb orb].
  destruct (missing (address w)) eqn:Ma; [discriminate|].
  apply missing_false in Ma as (a & Ea & _). rewrite Ea. cbn [value].
  destruct (List.length actions =? 0)%nat; [discriminate|].
  unfold bind at 1. unfold perform at 1. cbn [List.app].
  unfold bind at 1.
  destruct (add_transfers sdk actions [NewTransaction a]) as [l [[]|m]] eqn:A;
    [|discriminate].
  apply add_transfers_resolved in A. subst l.
  intro E. apply build_and_sign_resolved in E
    as (cid & did & raw & signature & Ec & Ed & B & Hs & -> & ->).
  cbn [deepbookTx digest transaction List.app] in *.
  rewrite <- ?app_assoc in *. cbn [List.app] in *.
  exists a, cid, did, raw, signature.
  repeat (split; [first [reflexivity | assumption]|]).
  split; [now rewrite <- app_assoc|]. split; reflexivity.
Qed.

(** X22. Actions that are no transfers are passed over in silence: for a
    list that is not empty and holds no action "transfer", a connected
    wallet makes a transaction with no command in it, builds it and asks
    the device to sign it. *)
Theorem actions_that_are_no_transfer
  (w : OneKeyHardwareWallet) (actions : list Action)
  (a cid did raw : string) :
  isConnected w = true ->
  address w = Some a -> a <> "" ->
  connectId w = Some cid -> cid <> "" ->
  deviceId w = Some did -> did <> "" ->
  actions <> [] ->
  Forall (fun x => action x <> "transfer") actions ->
  build sdk [NewTransaction a; SetGasBudget 10000; Build] = Resolved raw ->
  fst (run (signAndExecuteSuiTransaction sdk w actions))
  = [NewTransaction a; SetGasBudget 10000; Build;
     SuiSignTransaction cid did DEFAULT_SUI_PATH raw].
Proof.
  intros Hc Ha Hane Hci Hcne Hdi Hdne N F B.
  unfold run, signAndExecuteSuiTransaction.
  rewrite Hc, Ha. cbn [negb orb missing value].
  apply String.eqb_neq in Hane, Hcne, Hdne. rewrite Hane.
  destruct actions as [|x rest]; [congruence|]. cbn [List.length Nat.eqb].
  unfold bind at 1. unfold perform at 1. cbn [List.app].
  unfold bind at 1. rewrite add_transfers_filter.
  assert (filter (fun y => (action y =? "transfer")%string) (x :: rest) = []) as ->.
  { clear -F. induction F as [|y l Hy _ IH]; [reflexivity|].
    cbn [filter]. apply String.eqb_neq in Hy. now rewrite Hy. }
  cbn [add_transfers]. unfold ret.
  unfold build_and_sign, bind, perform, performed, await. cbn [List.app].
  rewrite B, Hci, Hdi. cbn [missing value]. rewrite Hcne, Hdne. cbn [orb].
  unfold signSuiTransaction, bind, perform, await. cbn [List.app].
  destruct (suiSignTransaction sdk cid did DEFAULT_SUI_PATH raw) as [[s|e]|m];
    reflexivity.
Qed.

End Props.

(** ** The wallet on more concrete calls *)

Lemma connect_resolved_witness :
  exists device devices cid did evm,
    searchDevices willing = Resolved (Some (device :: devices)) /\
    device_connectId device = Some cid /\
    device_deviceId device = Some did /\
    suiGetAddress willing cid did DEFAULT_SUI_PATH
    = Resolved (Address (Some "0xa11ce")) /\
    evmGetAddress willing cid did DEFAULT_EVM_PATH
    = Resolved (Address (Some evm)) /\
    "0xa11ce" <> "" /\ cid <> "" /\ did <> "" /\ evm <> "" /\
    connected_wallet
    = {| isConnected := true; address := Some "0xa11ce";
         evm_address := Some evm;
         connectId := Some cid; deviceId := Some did;
         orderBook := Some "0xa11ce" |} /\
    [SearchDevices;
     SuiGetAddress "usb-1" "dev-1" DEFAULT_SUI_PATH;
     EvmGetAddress "usb-1" "dev-1" DEFAULT_EVM_PATH]
    = ([] ++ [SearchDevices;
              SuiGetAddress cid did DEFAULT_SUI_PATH;
              EvmGetAddress cid did DEFAULT_EVM_PATH])%list.
Proof.
  apply (connect_resolved willing new_wallet connected_wallet []
           [SearchDevices;
            SuiGetAddress "usb-1" "dev-1" DEFAULT_SUI_PATH;
            EvmGetAddress "usb-1" "dev-1" DEFAULT_EVM_PATH]
           "0xa11ce").
  reflexivity.
Defined.

Lemma rejected_connect_keeps_the_session_witness :
  isConnected after_locked = isConnected connected_wallet /\
  address after_locked = address connected_wallet /\
  evm_address after_locked = evm_address connected_wallet /\
  orderBook after_locked = orderBook connected_wallet /\
  ((connectId after_locked = connectId connected_wallet /\
    deviceId after_locked = deviceId connected_wallet) \/
   (exists device devices,
       searchDevices locked = Resolved (Some (device :: devices)) /\
       connectId after_locked = device_connectId device /\
       deviceId after_locked = device_deviceId device)).
Proof.
  apply (rejected_connect_keeps_the_session locked connected_wallet after_locked
           []
           [SearchDevices; SuiGetAddress "usb-2" "dev-2" DEFAULT_SUI_PATH]
           "Device is locked").
  reflexivity.
Defined.

Lemma no_route_no_signature_witness :
  run (signAndExecuteTransaction without_routes connected_wallet a_buy)
  = ([NewTransaction "0xa11ce";
      FindRouters "0x2::sui::SUI" "0xusdc::usdc::USDC" "1000" true],
     Rejected "No routes found for the order").
Proof.
  apply (no_route_no_signature without_routes connected_wallet a_buy
           "0xa11ce" "0xa11ce").
  - reflexivity.
  - reflexivity.
  - discriminate.
  - reflexivity.
  - discriminate.
  - left. reflexivity.
Defined.


Lemma receipt_of_signed_transfers_witness :
  exists a cid did raw signature,
    address connected_wallet = Some a /\
    connectId connected_wallet = Some cid /\
    deviceId connected_wallet = Some did /\
    deepbookTx (receipt_for [a_note; a_transfer] transfer_tx)
    = (NewTransaction a ::
       flat_map
         (fun x =>
            match serialize_amount willing (action_amount x) with
            | Resolved serialized =>
                [SplitCoins serialized; TransferObjects (recipient x)]
            | Rejected _ => []
            end)
         (filter (fun x => (action x =? "transfer")%string) [a_note; a_transfer])
       ++ [SetGasBudget 10000; Build])%list /\
    build willing (deepbookTx (receipt_for [a_note; a_transfer] transfer_tx))
      = Resolved raw /\
    suiSignTransaction willing cid did DEFAULT_SUI_PATH raw
      = Resolved (Success signature) /\
    (transfer_tx
     ++ [SuiSignTransaction "usb-1" "dev-1" DEFAULT_SUI_PATH "00a1b2"])%list
    = (deepbookTx (receipt_for [a_note; a_transfer] transfer_tx)
       ++ [SuiSignTransaction cid did DEFAULT_SUI_PATH raw])%list /\
    digest (receipt_for [a_note; a_transfer] transfer_tx)
    = (if missing signature
       then "deepbook-transaction-" ++ random_token willing
       else value signature) /\
    transaction (receipt_for [a_note; a_transfer] transfer_tx)
    = [a_note; a_transfer].
Proof.
  apply (receipt_of_signed_transfers willing connected_wallet
           [a_note; a_transfer]
           (transfer_tx
            ++ [SuiSignTransaction "usb-1" "dev-1" DEFAULT_SUI_PATH "00a1b2"])%list
           (receipt_for [a_note; a_transfer] transfer_tx)).
  reflexivity.
Defined.

Lemma actions_that_are_no_transfer_witness :
  fst (run (signAndExecuteSuiTransaction willing connected_wallet [a_note]))
  = [NewTransaction "0xa11ce"; SetGasBudget 10000; Build;
     SuiSignTransaction "usb-1" "dev-1" DEFAULT_SUI_PATH "00a1b2"].
Proof.
  apply (actions_that_are_no_transfer willing connected_wallet [a_note]
           "0xa11ce" "usb-1" "dev-1" "00a1b2");
    try reflexivity; try discriminate.
  repeat constructor. discriminate.
Defined.

End WalletProps.

(* ================================================================== *)
(** * More on the market data and the analysis *)
(* ================================================================== *)

Module TradingProps.
Import Trading TradingFacts.

(** ** The table and its cache *)

Lemma lookup_store (k k' : string) (v : TradingPair) (ps : Pairs) :
  lookup k (store k' v ps) = if (k' =? k)%string then Some v else lookup k ps.
Proof.
  induction ps as [|[k0 v0] ps IH]; cbn [store lookup]; [reflexivity|].
  destruct (String.eqb_spec k0 k') as [->|N]; cbn [lookup].
  - destruct (k' =? k)%string; reflexivity.
  - rewrite IH. destruct (String.eqb_spec k0 k) as [->|N'].
    + apply String.eqb_neq in N. rewrite String.eqb_sym in N. now rewrite N.
    + reflexivity.
Qed.

Lemma lookup_listed (k : string) (ps : Pairs) :
  In k (map fst ps) -> exists v, lookup k ps = Some v.
Proof.
  induction ps as [|[k0 v0] ps IH]; [intros []|].
  cbn [map fst In lookup]. intros [->|H].
  - rewrite String.eqb_refl. eauto.
  - destruct (k0 =? k)%string; eauto.
Qed.

Lemma length_nonempty {A : Type} (l : list A) :
  l <> [] -> negb (List.length l =? 0)%nat = true.
Proof. destruct l; [congruence|reflexivity]. Qed.

(** A table that is not empty is the one the cache holds afterwards. *)
Lemma fetched_table_is_cached
  (cache cache1 : Cache) (now : Z)
  (fetched : option (list TradingPairInfo * list MarketSummary))
  (pairs : Pairs) :
  fetchTradingPairs cache now fetched = (pairs, cache1) ->
  pairs <> [] ->
  tradingPairsCache cache1 = pairs.
Proof.
  unfold fetchTradingPairs.
  destruct (negb (List.length (tradingPairsCache cache) =? 0)%nat
            && (now - lastFetchTime cache <? CACHE_DURATION)).
  - intro E. injection E as <- <-. reflexivity.
  - destruct fetched as [[pools tickerData]|].
    + intros E N. injection E as <- <-.
      now rewrite (length_nonempty _ N).
    + intros E N. injection E as <- _. congruence.
Qed.

(** Two calls that run alone, one after the other. *)
Lemma fresh_cache_is_served
  (cache cache1 : Cache) (now now' : Z)
  (fetched fetched' : option (list TradingPairInfo * list MarketSummary))
  (pairs : Pairs) :
  fetchTradingPairs cache now fetched = (pairs, cache1) ->
  pairs <> [] ->
  now' - lastFetchTime cache1 < CACHE_DURATION ->
  fetchTradingPairs cache1 now' fetched' = (pairs, cache1).
Proof.
  intros E N F. pose proof (fetched_table_is_cached _ _ _ _ _ E N) as C.
  unfold fetchTradingPairs. rewrite C, (length_nonempty _ N).
  apply Z.ltb_lt in F. rewrite F. reflexivity.
Qed.

(** ** Calls on the event loop *)

(** The function of one call is its start followed by its return. *)
Lemma fetchTradingPairs_begin_resume
  (cache : Cache) (now : Z)
  (fetched : option (list TradingPairInfo * list MarketSummary)) :
  fetchTradingPairs cache now fetched
  = match fetch_begin cache now with
    | Served tradingPairs => (tradingPairs, cache)
    | Awaiting now => fetch_resume cache now fetched
    end.
Proof.
  unfold fetchTradingPairs, fetch_begin, fetch_resume.
  destruct (negb (List.length (tradingPairsCache cache) =? 0)%nat
            && (now - lastFetchTime cache <? CACHE_DURATION)); reflexivity.
Qed.

Lemma analyzeTradingPair_analyse
  (cache : Cache) (now : Z)
  (fetched : option (list TradingPairInfo * list MarketSummary))
  (pair : string) :
  analyzeTradingPair cache now fetched pair
  = (analyse (fst (fetchTradingPairs cache now fetched)) pair,
     snd (fetchTradingPairs cache now fetched)).
Proof.
  unfold analyzeTradingPair, analyse.
  destruct (fetchTradingPairs cache now fetched) as [tradingPairs cache1].
  reflexivity.
Qed.

(** A call that starts while no fetch is pending, and returns before
    another call starts, is the call of [fetchTradingPairs],
    [getTradingPairs] or [analyzeTradingPair] alone. *)
Lemma a_call_alone
  (p : Page) (who : Caller) (now : Z)
  (fetched : option (list TradingPairInfo * list MarketSummary)) :
  fetching p = [] ->
  page_run p [Starts who now; Settles 0 fetched]
  = {| page_cache := snd (fetchTradingPairs (page_cache p) now fetched);
       fetching := [];
       outcomes := returns who (fst (fetchTradingPairs (page_cache p) now fetched))
                   :: outcomes p |}.
Proof.
  intro Q. rewrite fetchTradingPairs_begin_resume.
  unfold page_run. cbn [fold_left page_step].
  destruct (fetch_begin (page_cache p) now) as [tradingPairs|now0];
    cbn [page_cache fetching outcomes]; rewrite Q.
  - reflexivity.
  - cbn [app nth_error firstn skipn fst snd].
    destruct (fetch_resume (page_cache p) now0 fetched); reflexivity.
Qed.

Lemma page_run_app (p : Page) (evs evs' : list PageEvent) :
  page_run p (evs ++ evs') = page_run (page_run p evs) evs'.
Proof. apply fold_left_app. Qed.

(** While no fetch is pending and the cache holds a table, the calls
    that start in the window of the cache are served that table at
    once, and none of them starts a fetch. *)
Lemma quiet_page_serves (evs : list PageEvent) (p : Page) :
  fetching p = [] ->
  tradingPairsCache (page_cache p) <> [] ->
  within (lastFetchTime (page_cache p)) evs ->
  page_run p evs
  = {| page_cache := page_cache p; fetching := [];
       outcomes := (served (tradingPairsCache (page_cache p)) evs
                    ++ outcomes p)%list |}.
Proof.
  revert p. induction evs as [|ev evs IH]; intros p Q N W.
  - destruct p as [c f o]. cbn in Q |- *. now rewrite Q.
  - apply Forall_cons_iff in W as [Wev W].
    change (page_run p (ev :: evs)) with (page_run (page_step p ev) evs).
    destruct ev as [who now|i fetched]; cbn [page_step served].
    + unfold fetch_begin. rewrite (length_nonempty _ N).
      apply Z.ltb_lt in Wev. rewrite Wev. cbn [andb].
      rewrite IH; cbn [page_cache fetching outcomes]; try assumption.
      now rewrite <- app_assoc.
    + rewrite Q. destruct i; cbn [nth_error]; apply IH; assumption.
Qed.

(** A fetch that is pending stores its table, when that is not empty,
    with the clock reading of its own start, whatever the cache holds
    by then. *)
Lemma late_fetch_overwrites
  (p : Page) (i : nat) (who : Caller) (now : Z)
  (pools : list TradingPairInfo) (tickerData : list MarketSummary) :
  nth_error (fetching p) i = Some (who, now) ->
  updatedPairs pools tickerData [] <> [] ->
  page_cache (page_step p (Settles i (Some (pools, tickerData))))
  = {| tradingPairsCache := updatedPairs pools tickerData [];
       lastFetchTime := now |}.
Proof.
  intros P N. cbn [page_step]. rewrite P. cbn [fetch_resume].
  now rewrite (length_nonempty _ N).
Qed.

(** Calls that overlap: the fetch that started first settles last and
    puts back its table with its older time, so the pair that
    [getTradingPairs] has just listed is not found, one second after
    the table that holds it was stored. *)
Example overlapping_calls_lose_the_listed_pair :
  outcomes (page_run new_page overlapping_calls)
  = [Analysis (inr "Trading pair WSUI/USDC not found");
     returns (Analyses "SUI/USDC") (fst first_fetch);
     Names ["WSUI/USDC"]] /\
  fetching (page_run new_page overlapping_calls) = [] /\
  page_cache (page_run new_page overlapping_calls) = snd first_fetch.
Proof. repeat split; vm_compute; reflexivity. Qed.

(** X23. While no fetch is pending: once [fetchTradingPairs] has
    returned a table that is not empty, the cache holds that table, and
    every call that starts less than 60000 ms after the time the cache
    recorded returns from that same table at once ([fetchTradingPairs]
    the table, [getTradingPairs] its names, [analyzeTradingPair] its
    analysis), starts no fetch and leaves the cache as it is, whatever
    the order of the calls; nothing the network would deliver is
    awaited. *)
Theorem cache_serves_for_a_minute
  (p : Page) (now : Z)
  (fetched : option (list TradingPairInfo * list MarketSummary))
  (pairs : Pairs) (evs : list PageEvent) :
  fetching p = [] ->
  let p1 := page_run p [Starts Fetches now; Settles 0 fetched] in
  outcomes p1 = Table pairs :: outcomes p ->
  pairs <> [] ->
  within (lastFetchTime (page_cache p1)) evs ->
  fetching p1 = [] /\
  tradingPairsCache (page_cache p1) = pairs /\
  page_run p1 evs
  = {| page_cache := page_cache p1; fetching := [];
       outcomes := (served pairs evs ++ outcomes p1)%list |}.
Proof.
  intros Q p1. subst p1. rewrite (a_call_alone _ _ _ _ Q).
  cbn [page_cache fetching outcomes returns].
  destruct (fetchTradingPairs (page_cache p) now fetched) as [t cache1] eqn:E.
  cbn [fst snd]. intros O N W. injection O as ->.
  pose proof (fetched_table_is_cached _ _ _ _ _ E N) as C.
  split; [reflexivity|]. split; [exact C|].
  rewrite quiet_page_serves; cbn [page_cache fetching outcomes];
    [now rewrite C | reflexivity | now rewrite C | exact W].
Qed.

(** X24. An expired cache is not fallen back on: when the cache is empty
    or 60000 ms old and the fetch throws, or delivers no pool for which
    a ticker is found, [fetchTradingPairs] returns the empty table and
    [getTradingPairs] the empty list, although the cache still holds
    the table of before, which is left untouched. *)
Theorem failed_fetch_returns_nothing
  (cache : Cache) (now : Z)
  (fetched : option (list TradingPairInfo * list MarketSummary)) :
  tradingPairsCache cache = [] \/ CACHE_DURATION <= now - lastFetchTime cache ->
  fetched = None \/
  (exists pools tickerData,
      fetched = Some (pools, tickerData) /\
      updatedPairs pools tickerData [] = []) ->
  fetchTradingPairs cache now fetched = ([], cache) /\
  getTradingPairs cache now fetched = ([], cache).
Proof.
  intros Hstale Hfail.
  assert (fetchTradingPairs cache now fetched = ([], cache)) as E.
  { unfold fetchTradingPairs.
    assert (negb (List.length (tradingPairsCache cache) =? 0)%nat
            && (now - lastFetchTime cache <? CACHE_DURATION) = false) as ->.
    { destruct Hstale as [-> | H]; [reflexivity|].
      apply Z.ltb_ge in H. rewrite H. apply andb_false_r. }
    destruct Hfail as [-> | (pools & tickerData & -> & U)]; [reflexivity|].
    rewrite U. reflexivity. }
  split; [exact E|]. unfold getTradingPairs. now rewrite E.
Qed.

(** X25. A pair that [getTradingPairs] lists can be analysed, while no
    fetch is pending: after a [getTradingPairs] that started with no
    fetch pending and has returned its names, and after any calls that
    start less than 60000 ms after the time the cache recorded, an
    [analyzeTradingPair] of a listed name that starts in that window
    returns at once a result for that name, does not throw "Trading
    pair ... not found", starts no fetch and leaves the cache as it
    is. *)
Theorem listed_pairs_can_be_analysed
  (p : Page) (now now' : Z)
  (fetched : option (list TradingPairInfo * list MarketSummary))
  (names : list string) (name : string) (evs : list PageEvent) :
  fetching p = [] ->
  let p1 := page_run p [Starts Lists now; Settles 0 fetched] in
  outcomes p1 = Names names :: outcomes p ->
  In name names ->
  within (lastFetchTime (page_cache p1)) evs ->
  now' - lastFetchTime (page_cache p1) < CACHE_DURATION ->
  exists res,
    page_run p1 (evs ++ [Starts (Analyses name) now'])
    = {| page_cache := page_cache p1; fetching := [];
         outcomes := Analysis (inl res) :: outcomes (page_run p1 evs) |} /\
    result_pair res = name.
Proof.
  intros Q p1. subst p1. rewrite (a_call_alone _ _ _ _ Q).
  cbn [page_cache fetching outcomes returns].
  destruct (fetchTradingPairs (page_cache p) now fetched) as [t cache1] eqn:E.
  cbn [fst snd]. intros O Hin W F. injection O as <-.
  assert (t <> []) as N by (destruct t; [destruct Hin | discriminate]).
  pose proof (fetched_table_is_cached _ _ _ _ _ E N) as C.
  destruct (lookup_listed _ _ Hin) as [v L].
  assert (within (lastFetchTime cache1) (evs ++ [Starts (Analyses name) now']))
    as W'.
  { apply Forall_app. split; [exact W|]. constructor; [exact F|constructor]. }
  rewrite (quiet_page_serves (evs ++ _));
    cbn [page_cache fetching outcomes]; [|reflexivity|now rewrite C|exact W'].
  rewrite (quiet_page_serves evs);
    cbn [page_cache fetching outcomes]; [|reflexivity|now rewrite C|exact W].
  rewrite C.
  assert (forall l, served t (l ++ [Starts (Analyses name) now'])
                    = Analysis (analyse t name) :: served t l) as S.
  { induction l as [|[who n|i f] l IH]; cbn [app served returns].
    - reflexivity.
    - now rewrite IH.
    - exact IH. }
  rewrite S. unfold analyse. rewrite L.
  eexists. split; reflexivity.
Qed.

(** ** Numbers *)

Lemma SFcompare_antisym (x y : number) (c : comparison) :
  SFcompare x y = Some c -> SFcompare y x = Some (CompOpp c).
Proof.
  destruct x as [sx|sx| |sx mx ex], y as [sy|sy| |sy my ey]; cbn [SFcompare];
    try discriminate; intro E; injection E as <-;
    try (destruct sx; reflexivity); try (destruct sy; reflexivity);
    try (destruct sx, sy; reflexivity).
  destruct sx, sy; try reflexivity;
    rewrite (Z.compare_antisym ex ey);
    destruct (ex ?= ey); cbn [CompOpp]; try reflexivity;
    rewrite (Pos.compare_cont_antisym mx my Eq); reflexivity.
Qed.

(** [Math.max(0, Math.min(1, x))] is [NaN] or lies between 0 and 1. *)
Lemma unit_clamp (x : number) :
  let l := Math_max (num 0) (Math_min (num 1) x) in
  isNaN l = true \/ (ge l (num 0) = true /\ ge (num 1) l = true).
Proof.
  cbv zeta.
  assert (Math_min (num 1) x = NaN \/ Math_min (num 1) x = num 1 \/
          (Math_min (num 1) x = x /\ SFcompare x (num 1) = Some Lt))
    as [-> | [-> | [-> C]]].
  { unfold Math_min. destruct (SFcompare (num 1) x) as [[| |]|] eqn:C.
    - right. left. reflexivity.
    - right. left. reflexivity.
    - right. right. split; [reflexivity|].
      now apply SFcompare_antisym in C.
    - left. reflexivity. }
  - left. reflexivity.
  - right. split; reflexivity.
  - unfold Math_max.
    destruct (SFcompare (num 0) x) as [[| |]|] eqn:Z.
    + right. split; reflexivity.
    + right. unfold ge, SFleb. rewrite Z, C. split; reflexivity.
    + right. split; reflexivity.
    + left. reflexivity.
Qed.

Lemma abs_not_negative (x : number) :
  isNaN (Math_abs x) = true \/ ge (Math_abs x) (num 0) = true.
Proof. destruct x; [right|right|left|right]; reflexivity. Qed.

Lemma or_zero_not_NaN (x : number) : isNaN (or_zero x) = false.
Proof. destruct x; reflexivity. Qed.

(** ** [getMarketData] *)

(** X26. The market data of a pool whose ticker is found: the price,
    the volume and the 24 h change are never [NaN] (a ticker field
    that is [NaN] counts as 0); the volatility is [NaN] or not
    negative; the liquidity is [NaN] or lies between 0 and 1, whatever
    the bid and the ask are. *)
Theorem market_data_is_sanitised
  (poolName : string) (tickerData : list MarketSummary) (md : MarketDataInfo) :
  getMarketData poolName tickerData = Some md ->
  isNaN (md_price md) = false /\
  isNaN (md_volume24h md) = false /\
  isNaN (md_change24h md) = false /\
  (isNaN (md_volatility md) = true \/ ge (md_volatility md) (num 0) = true) /\
  (isNaN (md_liquidity md) = true \/
   (ge (md_liquidity md) (num 0) = true /\ ge (num 1) (md_liquidity md) = true)).
Proof.
  unfold getMarketData.
  destruct (find _ tickerData) as [tickerInfo|]; [|discriminate].
  intro E. injection E as <-.
  cbn [md_price md_volume24h md_change24h md_volatility md_liquidity].
  repeat (split; [apply or_zero_not_NaN|]).
  split; [apply abs_not_negative | apply unit_clamp].
Qed.

Lemma prefix_of_app (t post : string) : prefix_of t (t ++ post) = true.
Proof.
  induction t as [|a t IH]; [destruct post; reflexivity|].
  cbn [append prefix_of]. now rewrite Ascii.eqb_refl, IH.
Qed.

Lemma includes_app (pre t post : string) : includes (pre ++ t ++ post) t = true.
Proof.
  induction pre as [|a pre IH]; cbn [append].
  - destruct (t ++ post) eqn:E; cbn [includes]; rewrite <- E, prefix_of_app;
      reflexivity.
  - cbn [includes]. rewrite IH. apply orb_true_r.
Qed.

(** X27. A pool finds its ticker by a substring test, and the first
    match wins: when the name of the first ticker of the list contains
    the pool's name anywhere, the pool gets the price, the volume and
    the change of that ticker, whatever tickers follow (one named
    exactly like the pool among them or not). *)
Theorem first_ticker_that_contains_the_name
  (poolName before after : string) (ticker : MarketSummary)
  (others : list MarketSummary) :
  trading_pairs ticker = before ++ poolName ++ after ->
  exists marketData,
    getMarketData poolName (ticker :: others) = Some marketData /\
    md_price marketData = or_zero (last_price ticker) /\
    md_volume24h marketData = or_zero (quote_volume ticker) /\
    md_change24h marketData = or_zero (price_change_percent_24h ticker).
Proof.
  intro H. unfold getMarketData. cbn [find]. rewrite H, includes_app.
  eexists. repeat split.
Qed.

(** ** Where the entries of the table come from *)

Lemma updatedPairs_origin
  (tickerData : list MarketSummary) (k : string) (v : TradingPair)
  (pools : list TradingPairInfo) :
  forall acc,
    lookup k (updatedPairs pools tickerData acc) = Some v ->
    lookup k acc = Some v \/
    exists pool marketData,
      In pool pools /\
      pool_pair pool = k /\
      getMarketData (pool_name pool) tickerData = Some marketData /\
      v = {| id := pool_id pool;
             baseCoin := pool_baseCoin pool;
             baseCoinId := pool_baseCoinId pool;
             quoteCoin := pool_quoteCoin pool;
             quoteCoinId := pool_quoteCoinId pool;
             pair := pool_pair pool;
             price := md_price marketData;
             volume24h := md_volume24h marketData;
             marketCap := md_marketCap marketData;
             change24h := md_change24h marketData;
             volatility := md_volatility marketData;
             liquidity := md_liquidity marketData;
             poolId := pool_id pool;
             poolName := pool_name pool |}.
Proof.
  induction pools as [|pool pools IH]; intro acc; cbn [updatedPairs].
  - auto.
  - intro L. apply IH in L as [L | (p & md & I & P & G & V)].
    + destruct (getMarketData (pool_name pool) tickerData) as [md|] eqn:G;
        [|auto].
      rewrite lookup_store in L.
      destruct (String.eqb_spec (pool_pair pool) k) as [Ek|]; [|auto].
      right. exists pool, md. injection L as <-.
      repeat split; [now left | exact Ek | exact G].
    + right. exists p, md. repeat split; [now right | exact P | exact G | exact V].
Qed.

(** X28. Every entry of a table that [fetchTradingPairs] fetched (the
    cache was empty or 60000 ms old) stems from a pool of the listing
    for which a ticker was found: it is stored under that pool's pair
    name, carries the pool's identifiers and coin types, and the price,
    volume, change, volatility and liquidity of the pool's market data.
    A pool without ticker leaves no entry. *)
Theorem entries_come_from_pools
  (cache : Cache) (now : Z)
  (pools : list TradingPairInfo) (tickerData : list MarketSummary)
  (k : string) (v : TradingPair) :
  tradingPairsCache cache = [] \/ CACHE_DURATION <= now - lastFetchTime cache ->
  lookup k (fst (fetchTradingPairs cache now (Some (pools, tickerData)))) = Some v ->
  pair v = k /\
  exists pool marketData,
    In pool pools /\
    pool_pair pool = k /\
    getMarketData (pool_name pool) tickerData = Some marketData /\
    (id v, poolId v, poolName v) = (pool_id pool, pool_id pool, pool_name pool) /\
    (baseCoinId v, quoteCoinId v) = (pool_baseCoinId pool, pool_quoteCoinId pool) /\
    (price v, volume24h v, change24h v, volatility v, liquidity v)
    = (md_price marketData, md_volume24h marketData, md_change24h marketData,
       md_volatility marketData, md_liquidity marketData).
Proof.
  intros Hstale. unfold fetchTradingPairs.
  assert (negb (List.length (tradingPairsCache cache) =? 0)%nat
          && (now - lastFetchTime cache <? CACHE_DURATION) = false) as ->.
  { destruct Hstale as [-> | H]; [reflexivity|].
    apply Z.ltb_ge in H. rewrite H. apply andb_false_r. }
  cbn [fst]. intro L. apply updatedPairs_origin in L as [L | (pool & md & I & P & G & ->)];
    [discriminate L|].
  cbn [pair id poolId poolName baseCoinId quoteCoinId price volume24h change24h
       volatility liquidity].
  split; [exact P|]. exists pool, md. repeat split; assumption.
Qed.

(** ** The recommendation *)

Lemma inl_injective {A B : Type} (a b : A) : @inl A B a = inl b -> a = b.
Proof. intro E. now injection E. Qed.

Lemma clamp_round_NaN (x : number) :
  isNaN x = true -> clamp_round x = NaN.
Proof. destruct x; try discriminate. reflexivity. Qed.

(** X29. The transaction proposed never contradicts the recommendation:
    whenever [analyzeTradingPair] returns a result, either the
    transaction is a buy and the recommendation is "Strong Buy", "Buy"
    or "Hold", or it is a sell and the recommendation is "Hold", "Sell"
    or "Strong Sell" (also when the score is [NaN]). *)
Theorem recommendation_agrees_with_transaction
  (cache : Cache) (now : Z)
  (fetched : option (list TradingPairInfo * list MarketSummary))
  (pair : string) (res : AnalysisResult) :
  fst (analyzeTradingPair cache now fetched pair) = inl res ->
  (transactionType res = "buy" /\
   In (recommendation res) ["Strong Buy"; "Buy"; "Hold"]) \/
  (transactionType res = "sell" /\
   In (recommendation res) ["Hold"; "Sell"; "Strong Sell"]).
Proof.
  unfold analyzeTradingPair.
  destruct (fetchTradingPairs cache now fetched) as [tradingPairs cache'].
  cbn [fst]. destruct (lookup pair tradingPairs) as [pairData|]; [|discriminate].
  intro E. apply inl_injective in E. subst res.
  cbn [transactionType recommendation].
  destruct (isNaN (rawScore pairData)) eqn:N.
  - pose proof (clamp_round_NaN _ N) as H. unfold clamp_round in H. rewrite H.
    right. split; [reflexivity|]. cbn. auto.
  - destruct (clamp_round_range _ N) as (k & Hk & H).
    unfold clamp_round in H. rewrite H. clear H.
    assert (k = 0 \/ k = 1 \/ k = 2 \/ k = 3 \/ k = 4 \/ k = 5 \/ k = 6 \/ k = 7
            \/ k = 8 \/ k = 9 \/ k = 10)
      as [-> | [-> | [-> | [-> | [-> | [-> | [-> | [-> | [-> | [-> | ->]]]]]]]]]]
      by lia;
      first [ left; split; [reflexivity|]; cbn; tauto
            | right; split; [reflexivity|]; cbn; tauto ].
Qed.

(** X30. The page colours the score and the badge alike: for every
    result of [analyzeTradingPair], [getScoreColor] of the score and
    the badge of the recommendation have the same shade (green-600,
    green-500, yellow-500, orange-500 or red-500), and the badge never
    is the unstyled default one. *)
Theorem badge_and_score_share_a_shade
  (cache : Cache) (now : Z)
  (fetched : option (list TradingPairInfo * list MarketSummary))
  (pair : string) (res : AnalysisResult) :
  fst (analyzeTradingPair cache now fetched pair) = inl res ->
  exists shade,
    getScoreColor (score res) = "text-" ++ shade /\
    badge_class (recommendation res) = "bg-" ++ shade.
Proof.
  unfold analyzeTradingPair.
  destruct (fetchTradingPairs cache now fetched) as [tradingPairs cache'].
  cbn [fst]. destruct (lookup pair tradingPairs) as [pairData|]; [|discriminate].
  intro E. apply inl_injective in E. subst res. cbn [score recommendation].
  unfold getScoreColor.
  set (s := Math_min _ _).
  destruct (ge s (num 8)); [eexists; split; reflexivity|].
  destruct (ge s (num 6)); [eexists; split; reflexivity|].
  destruct (ge s (num 4)); [eexists; split; reflexivity|].
  destruct (ge s (num 2)); eexists; split; reflexivity.
Qed.

(** ** The market data on concrete tickers *)

Lemma cache_serves_for_a_minute_witness :
  let p1 := page_run new_page
              [Starts Fetches 1700000000000; Settles 0 (fetched_with (num 2))] in
  let evs := [Starts Lists 1700000030000; Settles 0 None;
              Starts Fetches 1700000059999] in
  fetching p1 = [] /\
  tradingPairsCache (page_cache p1) = fst first_fetch /\
  page_run p1 evs
  = {| page_cache := page_cache p1; fetching := [];
       outcomes := (served (fst first_fetch) evs ++ outcomes p1)%list |}.
Proof.
  refine (cache_serves_for_a_minute new_page 1700000000000
            (fetched_with (num 2)) (fst first_fetch)
            [Starts Lists 1700000030000; Settles 0 None;
             Starts Fetches 1700000059999] _ _ _ _).
  - reflexivity.
  - vm_compute. reflexivity.
  - vm_compute. discriminate.
  - repeat constructor; vm_compute; reflexivity.
Defined.

Lemma failed_fetch_returns_nothing_witness :
  fetchTradingPairs (snd first_fetch) 1700000060000 None
  = ([], snd first_fetch) /\
  getTradingPairs (snd first_fetch) 1700000060000 None
  = ([], snd first_fetch).
Proof.
  apply (failed_fetch_returns_nothing (snd first_fetch) 1700000060000 None).
  - right. vm_compute. discriminate.
  - left. reflexivity.
Defined.

Lemma listed_pairs_can_be_analysed_witness :
  let p1 := page_run new_page
              [Starts Lists 1700000000000; Settles 0 (fetched_with (num 2))] in
  let evs := [Starts Lists 1700000010000; Settles 0 None] in
  exists res,
    page_run p1 (evs ++ [Starts (Analyses "SUI/USDC") 1700000030000])
    = {| page_cache := page_cache p1; fetching := [];
         outcomes := Analysis (inl res) :: outcomes (page_run p1 evs) |} /\
    result_pair res = "SUI/USDC".
Proof.
  refine (listed_pairs_can_be_analysed new_page 1700000000000 1700000030000
            (fetched_with (num 2)) ["SUI/USDC"] "SUI/USDC"
            [Starts Lists 1700000010000; Settles 0 None] _ _ _ _ _).
  - reflexivity.
  - vm_compute. reflexivity.
  - left. reflexivity.
  - repeat constructor; vm_compute; reflexivity.
  - vm_compute. reflexivity.
Defined.

Lemma market_data_is_sanitised_witness :
  exists md,
    getMarketData "SUI_USDC" [summary NaN] = Some md /\
    isNaN (md_price md) = false /\
    isNaN (md_volume24h md) = false /\
    isNaN (md_change24h md) = false /\
    (isNaN (md_volatility md) = true \/ ge (md_volatility md) (num 0) = true) /\
    (isNaN (md_liquidity md) = true \/
     (ge (md_liquidity md) (num 0) = true /\ ge (num 1) (md_liquidity md) = true)).
Proof.
  destruct (getMarketData "SUI_USDC" [summary NaN]) as [md|] eqn:E;
    [|discriminate E].
  exists md. split; [reflexivity|].
  exact (market_data_is_sanitised "SUI_USDC" [summary NaN] md E).
Defined.

Lemma first_ticker_that_contains_the_name_witness :
  exists marketData,
    getMarketData "SUI_USDC" [wsui_summary; summary (num 2)] = Some marketData /\
    md_price marketData = or_zero (last_price wsui_summary) /\
    md_volume24h marketData = or_zero (quote_volume wsui_summary) /\
    md_change24h marketData = or_zero (price_change_percent_24h wsui_summary).
Proof.
  apply (first_ticker_that_contains_the_name "SUI_USDC" "W" "" wsui_summary
           [summary (num 2)]).
  reflexivity.
Defined.

Lemma entries_come_from_pools_witness :
  exists v,
    lookup "SUI/USDC"
      (fst (fetchTradingPairs empty_cache 1700000000000
              (Some ([sui_usdc], [summary (num 2)])))) = Some v /\
    pair v = "SUI/USDC" /\
    exists pool marketData,
      In pool [sui_usdc] /\
      pool_pair pool = "SUI/USDC" /\
      getMarketData (pool_name pool) [summary (num 2)] = Some marketData /\
      (id v, poolId v, poolName v) = (pool_id pool, pool_id pool, pool_name pool) /\
      (baseCoinId v, quoteCoinId v)
      = (pool_baseCoinId pool, pool_quoteCoinId pool) /\
      (price v, volume24h v, change24h v, volatility v, liquidity v)
      = (md_price marketData, md_volume24h marketData, md_change24h marketData,
         md_volatility marketData, md_liquidity marketData).
Proof.
  destruct (lookup "SUI/USDC"
              (fst (fetchTradingPairs empty_cache 1700000000000
                      (Some ([sui_usdc], [summary (num 2)]))))) as [v|] eqn:E;
    [|discriminate E].
  exists v. split; [reflexivity|].
  exact (entries_come_from_pools empty_cache 1700000000000 [sui_usdc]
           [summary (num 2)] "SUI/USDC" v (or_introl eq_refl) E).
Defined.

Lemma recommendation_agrees_with_transaction_witness :
  exists res,
    fst (analyzeTradingPair empty_cache 1700000000000 (fetched_with (num 2))
           "SUI/USDC") = inl res /\
    ((transactionType res = "buy" /\
      In (recommendation res) ["Strong Buy"; "Buy"; "Hold"]) \/
     (transactionType res = "sell" /\
      In (recommendation res) ["Hold"; "Sell"; "Strong Sell"])).
Proof.
  destruct (fst (analyzeTradingPair empty_cache 1700000000000
                   (fetched_with (num 2)) "SUI/USDC")) as [res|m] eqn:E;
    [|discriminate E].
  exists res. split; [reflexivity|].
  exact (recommendation_agrees_with_transaction empty_cache 1700000000000
           (fetched_with (num 2)) "SUI/USDC" res E).
Defined.

Lemma badge_and_score_share_a_shade_witness :
  exists res,
    fst (analyzeTradingPair empty_cache 1700000000000 (fetched_with (num 2))
           "SUI/USDC") = inl res /\
    exists shade,
      getScoreColor (score res) = "text-" ++ shade /\
      badge_class (recommendation res) = "bg-" ++ shade.
Proof.
  destruct (fst (analyzeTradingPair empty_cache 1700000000000
                   (fetched_with (num 2)) "SUI/USDC")) as [res|m] eqn:E;
    [|discriminate E].
  exists res. split; [reflexivity|].
  exact (badge_and_score_share_a_shade empty_cache 1700000000000
           (fetched_with (num 2)) "SUI/USDC" res E).
Defined.

End TradingProps.
